(** * InsightGUIDE web client: a shallow embedding of its hooks and middleware

    The client is a React page built from six hooks ([useUIState],
    [useUploadState], [useApiState], [usePdfState], [useDragDrop],
    [usePreloadState]), one viewer component and one request middleware.
    Every hook is embedded as state-passing code over a record holding the
    hook's [useState] cells; a handler that only talks to its callbacks is
    embedded as the list of calls it makes, in order, and the page gives the
    calls their meaning by binding the callbacks exactly as [page.tsx] does.

    Conventions.
    - A JavaScript string is the [string] of the bytes of its UTF-8
      encoding.  The repository searches strings for ASCII patterns only,
      which find the same matches in the encoding as in the string; [trim]
      knows every white-space character of the language by its encoding;
      [toLowerCase] lowers every character whose lower case holds an ASCII
      letter and keeps the others, which the searches cannot tell from
      their lower case.
    - Integer-valued numbers (page numbers, sizes, status codes) are [Z].
    - The zoom factor is a binary64 [float], with the addition, subtraction
      and comparisons of IEEE 754 and [Math.min]/[Math.max] as the language
      defines them; the decimal literals of the source denote the nearest
      binary64 value.  Scroll offsets are only stored and compared with 0;
      they are rationals [Q].
    - [null]/[undefined] are [None].
    - What the browser, the network or the runtime decide (a fetch, the URL
      parser, the base64 decoder, a FileReader) is an explicit argument. *)

From Stdlib Require Import Floats.
From Stdlib Require Import String Ascii List ZArith QArith Qminmax Qround Bool Lia Lqa.
From Stdlib Require Import DecimalString.
Import ListNotations.

Set Warnings "-inexact-float".

Open Scope string_scope.
Open Scope Z_scope.

(** ** JavaScript runtime notions used by the sources *)

Module Js.

(** [String(n)] for an integer-valued number. *)
Definition string_of_Z (n : Z) : string := NilZero.string_of_int (Z.to_int n).

(** An integer as a number: the binary64 value nearest to it, which is the
    integer itself up to 2^53. *)
Definition number_of_Z (n : Z) : PrimFloat.float :=
  SF2Prim (SpecFloat.binary_normalize prec emax n 0 false).

(** *** [String(x)] for any number

    [Number::toString] writes the shortest decimal that reads back as the
    number, the one nearest to it when several are as short: digits [s],
    [k] of them, and a position [n] of the decimal point, for the value
    [s * 10^(n - k)]. *)

Definition pow (b : Z) (n : Z) : Q :=
  if 0 <=? n then inject_Z (b ^ n) else Qinv (inject_Z (b ^ (- n))).

(** The [n] with [10^(n - 1) <= v < 10^n], searched downwards from an [n]
    above it. *)
Fixpoint decade (fuel : nat) (n : Z) (v : Q) : Z :=
  match fuel with
  | O => n
  | S fuel' => if Qle_bool (pow 10 (n - 1)) v then n else decade fuel' (n - 1) v
  end.

(** Whether the real [r] rounds to the binary64 number whose neighbours lie
    halfway at [lo] and [hi]; a tie rounds to it when its mantissa is even. *)
Definition rounds_to (inclusive : bool) (lo hi r : Q) : bool :=
  if inclusive then Qle_bool lo r && Qle_bool r hi
  else negb (Qle_bool r lo) && negb (Qle_bool hi r).

(** The decimal of [k] digits that reads back as [v], if there is one: of
    the two decimals of [k] digits around [v], the nearer one that does,
    and the even one on a tie. *)
Definition digits_of_length (inclusive : bool) (lo hi v : Q) (n0 k : Z) : option (Z * Z) :=
  let scale := pow 10 (n0 - k) in
  let low := Qfloor (v / scale) in
  let high := low + 1 in
  let above := if high =? 10 ^ k then (10 ^ (k - 1), n0 + 1) else (high, n0) in
  match rounds_to inclusive lo hi (inject_Z low * scale),
        rounds_to inclusive lo hi (inject_Z high * scale) with
  | true, true =>
      match (v - inject_Z low * scale ?= inject_Z high * scale - v)%Q with
      | Lt => Some (low, n0)
      | Gt => Some above
      | Eq => if Z.even low then Some (low, n0) else Some above
      end
  | true, false => Some (low, n0)
  | false, true => Some above
  | false, false => None
  end.

(** The shortest such decimal: 17 digits always suffice. *)
Fixpoint shortest (fuel : nat) (k : Z) (inclusive : bool) (lo hi v : Q) (n0 : Z)
  : Z * Z * Z :=
  match fuel with
  | O => (0, 0, k)
  | S fuel' =>
      match digits_of_length inclusive lo hi v n0 k with
      | Some (s, n) => (s, n, k)
      | None => shortest fuel' (k + 1) inclusive lo hi v n0
      end
  end.

Definition zeros (n : Z) : string := string_of_list_ascii (repeat "0"%char (Z.to_nat n)).

(** The notation of the digits: plain up to 21 integer digits and down to
    six zeros after the point, with an exponent beyond. *)
Definition digits_toString (s n k : Z) : string :=
  let digits := string_of_Z s in
  if (k <=? n) && (n <=? 21) then digits ++ zeros (n - k)
  else if (0 <? n) && (n <=? 21) then
    substring 0 (Z.to_nat n) digits ++ "." ++ substring (Z.to_nat n) (Z.to_nat (k - n)) digits
  else if (-6 <? n) && (n <=? 0) then "0." ++ zeros (- n) ++ digits
  else
    let exponent := (if 0 <=? n - 1 then "+" else "-") ++ string_of_Z (Z.abs (n - 1)) in
    if k =? 1 then digits ++ "e" ++ exponent
    else substring 0 1 digits ++ "." ++ substring 1 (Z.to_nat (k - 1)) digits
         ++ "e" ++ exponent.

(** [String(x)], as a template literal writes a number.  A finite number is
    [m * 2^e]; the reals that round to it reach half way to its neighbours,
    and the neighbour below a power of two is half as far.  The search for
    its decade starts from its length in bits, [log10 2] being just under
    0.30103. *)
Definition string_of_number (x : PrimFloat.float) : string :=
  match Prim2SF x with
  | S754_nan => "NaN"
  | S754_zero _ => "0"
  | S754_infinity sign => if sign then "-Infinity" else "Infinity"
  | S754_finite sign m e =>
      let v := (inject_Z (Zpos m) * pow 2 e)%Q in
      let up := pow 2 (e - 1) in
      let down := if (Zpos m =? 2 ^ 52) && (-1074 <? e) then pow 2 (e - 2) else up in
      let '(s, n, k) :=
        shortest 17 1 (Z.even (Zpos m)) (v - down)%Q (v + up)%Q v
          (decade 4 ((Z.log2 (Zpos m) + 1 + e) * 30103 / 100000 + 2) v) in
      (if sign then "-" else "") ++ digits_toString s n k
  end.

(** Truthiness of a string: every string but the empty one. *)
Definition truthy (s : string) : bool :=
  match s with EmptyString => false | String _ _ => true end.

(** Truthiness of a nullable string ([string | null]). *)
Definition truthy_opt (s : option string) : bool :=
  match s with None => false | Some v => truthy v end.

(** [s.startsWith(p)] *)
Definition startsWith (s p : string) : bool := String.prefix p s.

(** [s.includes(sub)] *)
Fixpoint includes (s sub : string) : bool :=
  String.prefix sub s ||
  match s with
  | EmptyString => false
  | String _ rest => includes rest sub
  end.

(** [s.endsWith(suf)] *)
Fixpoint endsWith (s suf : string) : bool :=
  String.eqb s suf ||
  match s with
  | EmptyString => false
  | String _ rest => endsWith rest suf
  end.

Definition lower_ascii (c : ascii) : ascii :=
  let n := nat_of_ascii c in
  if ((65 <=? n) && (n <=? 90))%nat then ascii_of_nat (n + 32) else c.

(** Text whose every character is an ASCII character. *)
Definition isAscii (s : string) : bool :=
  forallb (fun c => (nat_of_ascii c <? 128)%nat) (list_ascii_of_string s).

(** The two characters outside ASCII whose lower case holds an ASCII
    letter, by their UTF-8 encodings: U+0130 (C4 B0), which lowers to [i]
    followed by U+0307 (CC 87), and the Kelvin sign U+212A (E2 84 AA), which
    lowers to [k]. *)
Definition is_dotted_I (c d : ascii) : bool :=
  ((nat_of_ascii c =? 196) && (nat_of_ascii d =? 176))%nat.

Definition is_kelvin (c d e : ascii) : bool :=
  ((nat_of_ascii c =? 226) && (nat_of_ascii d =? 132) && (nat_of_ascii e =? 170))%nat.

(** [s.toLowerCase()], as far as a search for ASCII text can tell: the
    letters [A] to [Z] and the two characters above are lowered.  Every
    other character lowers to characters outside ASCII, and its bytes are
    kept as they are.  The result is the runtime's on ASCII text; on any
    text its runs of ASCII characters are the runtime's, in the same order,
    so a search for ASCII text finds a match in the one exactly when it
    finds a match in the other. *)
Fixpoint toLowerCase (s : string) : string :=
  match s with
  | EmptyString => EmptyString
  | String c rest =>
      match rest with
      | String d rest2 =>
          if is_dotted_I c d then
            String "i" (String (ascii_of_nat 204) (String (ascii_of_nat 135)
                                                     (toLowerCase rest2)))
          else
            match rest2 with
            | String e rest3 =>
                if is_kelvin c d e then String "k" (toLowerCase rest3)
                else String (lower_ascii c) (toLowerCase rest)
            | EmptyString => String (lower_ascii c) (toLowerCase rest)
            end
      | EmptyString => String (lower_ascii c) EmptyString
      end
  end.

(** The ASCII white space that [trim] removes: tab, line feed, vertical tab,
    form feed, carriage return and space. *)
Definition is_space (c : ascii) : bool :=
  let n := nat_of_ascii c in
  ((n =? 32) || ((9 <=? n) && (n <=? 13)))%nat.

(** The other white space and line terminators of the language, by their
    UTF-8 encodings: U+00A0 in two bytes; U+1680, U+2000 to U+200A, U+2028,
    U+2029, U+202F, U+205F, U+3000 and U+FEFF in three. *)
Definition is_space2 (c d : ascii) : bool :=
  ((nat_of_ascii c =? 194) && (nat_of_ascii d =? 160))%nat.

Definition is_space3 (c d e : ascii) : bool :=
  let n := nat_of_ascii c in
  let m := nat_of_ascii d in
  let k := nat_of_ascii e in
  (((n =? 225) && (m =? 154) && (k =? 128))
   || ((n =? 226) && (m =? 128)
       && (((128 <=? k) && (k <=? 138)) || (k =? 168) || (k =? 169) || (k =? 175)))
   || ((n =? 226) && (m =? 129) && (k =? 159))
   || ((n =? 227) && (m =? 128) && (k =? 128))
   || ((n =? 239) && (m =? 187) && (k =? 191)))%nat.

Fixpoint trimStart (s : string) : string :=
  match s with
  | EmptyString => EmptyString
  | String c rest =>
      if is_space c then trimStart rest
      else
        match rest with
        | String d rest2 =>
            if is_space2 c d then trimStart rest2
            else
              match rest2 with
              | String e rest3 => if is_space3 c d e then trimStart rest3 else s
              | EmptyString => s
              end
        | EmptyString => s
        end
  end.

(** A string is cut where everything from there on is white space. *)
Fixpoint trimEnd (s : string) : string :=
  match s with
  | EmptyString => EmptyString
  | String c rest =>
      match trimStart s with
      | EmptyString => EmptyString
      | String _ _ => String c (trimEnd rest)
      end
  end.

(** [s.trim()] *)
Definition trim (s : string) : string := trimEnd (trimStart s).

(** [s.split(sep)] for a one-character separator: never the empty list. *)
Fixpoint split (sep : ascii) (s : string) : list string :=
  match s with
  | EmptyString => [EmptyString]
  | String c rest =>
      if Ascii.eqb c sep then EmptyString :: split sep rest
      else match split sep rest with
           | [] => [String c EmptyString]
           | hd :: tl => String c hd :: tl
           end
  end.

(** [parts.pop()] as a pure read: the last element, [None] on the empty array. *)
Definition pop (parts : list string) : option string := List.last (map Some parts) None.

(** [s.substring(0, n)] *)
Definition substring0 (n : nat) (s : string) : string := String.substring 0 n s.

Fixpoint map_chars (f : ascii -> ascii) (s : string) : string :=
  match s with
  | EmptyString => EmptyString
  | String c rest => String (f c) (map_chars f rest)
  end.

(** [a === b] on two values that are each a string or [undefined]. *)
Definition strict_eqb (a b : option string) : bool :=
  match a, b with
  | Some x, Some y => String.eqb x y
  | None, None => true
  | _, _ => false
  end.

(** [Math.min(a, b)] and [Math.max(a, b)] on two numbers: [NaN] if either
    is [NaN], and the negative zero counts as smaller than the positive. *)
Definition Math_min (a b : PrimFloat.float) : PrimFloat.float :=
  if PrimFloat.is_nan a || PrimFloat.is_nan b then PrimFloat.nan
  else if PrimFloat.ltb a b then a
  else if PrimFloat.ltb b a then b
  else if PrimFloat.get_sign a then a else b.

Definition Math_max (a b : PrimFloat.float) : PrimFloat.float :=
  if PrimFloat.is_nan a || PrimFloat.is_nan b then PrimFloat.nan
  else if PrimFloat.ltb a b then b
  else if PrimFloat.ltb b a then a
  else if PrimFloat.get_sign a then b else a.

(** [acceptedFileTypes.includes(t)] on an array of strings. *)
Definition array_includes (l : list string) (t : string) : bool :=
  existsb (String.eqb t) l.

(** *** Values produced by [response.json()] *)

(** A parsed JSON document.  A number carries the text [String(n)] gives for
    it, which is all the sources ever ask of a number; an object carries its
    own properties, each key once. *)
#[warnings="-register-all"]
Inductive Json :=
| JNull
| JBool (b : bool)
| JNum (repr : string)
| JStr (s : string)
| JArr (items : list Json)
| JObj (props : list (string * Json)).

(** A JavaScript value read out of such a document. *)
Inductive Value :=
| Undefined
| Val (j : Json).

Fixpoint lookup (k : string) (props : list (string * Json)) : Value :=
  match props with
  | [] => Undefined
  | (k', v) :: rest => if String.eqb k k' then Val v else lookup k rest
  end.

(** [j.k]: reading a property throws a [TypeError] on [null] ([None] here),
    gives [undefined] on every other value that has no such own property. *)
Definition get_prop (j : Json) (k : string) : option Value :=
  match j with
  | JNull => None
  | JObj props => Some (lookup k props)
  | _ => Some Undefined
  end.

Definition json_truthy (j : Json) : bool :=
  match j with
  | JNull => false
  | JBool b => b
  | JNum repr => negb (String.eqb repr "0")
  | JStr s => truthy s
  | JArr _ | JObj _ => true
  end.

Definition value_truthy (v : Value) : bool :=
  match v with Undefined => false | Val j => json_truthy j end.

(** [a || b] *)
Definition or_else (a b : Value) : Value := if value_truthy a then a else b.

Fixpoint join (sep : string) (l : list string) : string :=
  match l with
  | [] => ""
  | [x] => x
  | x :: rest => x ++ sep ++ join sep rest
  end.

(** [String(j)]: what [new Error(j)] stores as its message. *)
Fixpoint to_string (j : Json) : string :=
  match j with
  | JNull => "null"
  | JBool true => "true"
  | JBool false => "false"
  | JNum repr => repr
  | JStr s => s
  | JArr items =>
      join "," (map (fun e => match e with JNull => "" | _ => to_string e end) items)
  | JObj _ => "[object Object]"
  end.

Definition value_to_string (v : Value) : string :=
  match v with Undefined => "undefined" | Val j => to_string j end.

End Js.

(** ** [usePdfState]: page, zoom and scroll state of the PDF preview *)

Module PdfState.

Record PdfState := mkPdfState {
  pdfUrl : option string;
  numPages : option Z;
  currentPage : Z;
  fileName : option string;
  pdfDisplayWidth : option Z;
  pdfZoom : PrimFloat.float;
  scrollPosition : Q;
  resetKey : Z
}.

Definition MIN_ZOOM : PrimFloat.float := 0.1.
Definition MAX_ZOOM : PrimFloat.float := 2.0.
Definition ZOOM_STEP : PrimFloat.float := 0.1.

Definition initial : PdfState :=
  mkPdfState None None 1 None None 1.0 0 0.

(** One key of a [Partial<PdfState>] object literal. *)
Inductive Field :=
| PdfUrl (v : option string)
| NumPages (v : option Z)
| CurrentPage (v : Z)
| FileName (v : option string)
| PdfDisplayWidth (v : option Z)
| PdfZoom (v : PrimFloat.float)
| ScrollPosition (v : Q)
| ResetKey (v : Z).

Definition set_field (s : PdfState) (f : Field) : PdfState :=
  match f with
  | PdfUrl v =>
      mkPdfState v (numPages s) (currentPage s) (fileName s)
        (pdfDisplayWidth s) (pdfZoom s) (scrollPosition s) (resetKey s)
  | NumPages v =>
      mkPdfState (pdfUrl s) v (currentPage s) (fileName s)
        (pdfDisplayWidth s) (pdfZoom s) (scrollPosition s) (resetKey s)
  | CurrentPage v =>
      mkPdfState (pdfUrl s) (numPages s) v (fileName s)
        (pdfDisplayWidth s) (pdfZoom s) (scrollPosition s) (resetKey s)
  | FileName v =>
      mkPdfState (pdfUrl s) (numPages s) (currentPage s) v
        (pdfDisplayWidth s) (pdfZoom s) (scrollPosition s) (resetKey s)
  | PdfDisplayWidth v =>
      mkPdfState (pdfUrl s) (numPages s) (currentPage s) (fileName s)
        v (pdfZoom s) (scrollPosition s) (resetKey s)
  | PdfZoom v =>
      mkPdfState (pdfUrl s) (numPages s) (currentPage s) (fileName s)
        (pdfDisplayWidth s) v (scrollPosition s) (resetKey s)
  | ScrollPosition v =>
      mkPdfState (pdfUrl s) (numPages s) (currentPage s) (fileName s)
        (pdfDisplayWidth s) (pdfZoom s) v (resetKey s)
  | ResetKey v =>
      mkPdfState (pdfUrl s) (numPages s) (currentPage s) (fileName s)
        (pdfDisplayWidth s) (pdfZoom s) (scrollPosition s) v
  end.

(** [setPdfState(prev => ({ ...prev, ...updates }))] *)
Definition updatePdfState (updates : list Field) (s : PdfState) : PdfState :=
  fold_left set_field updates s.

Definition clearPdfState (_ : PdfState) : PdfState := initial.

(** [scrollArea] is [scrollAreaRef.current]: [None] while the scroll area is
    not mounted, otherwise its [scrollTop]. *)
Definition saveScrollPosition (scrollArea : option Q) (s : PdfState) : PdfState :=
  match scrollArea with
  | Some scrollTop => updatePdfState [ScrollPosition scrollTop] s
  | None => s
  end.

(** The write to [scrollTop] that [restoreScrollPosition] schedules; it reads
    the scroll offset of the render the handler was created in. *)
Definition restoreScrollPosition (scrollArea : option Q) (s : PdfState) : option Q :=
  match scrollArea with
  | Some _ => if Qlt_le_dec 0 (scrollPosition s) then Some (scrollPosition s) else None
  | None => None
  end.

Definition onDocumentLoadSuccess (loaded : Z) (s : PdfState) : PdfState :=
  let shouldResetPage := match numPages s with None => true | Some _ => false end in
  let newCurrentPage := if shouldResetPage then 1 else Z.min (currentPage s) loaded in
  updatePdfState [NumPages (Some loaded); CurrentPage newCurrentPage] s.

(** Both navigation handlers give the next state and the scroll write they
    schedule for 50 ms later. *)
Definition goToPrevPage (scrollArea : option Q) (s : PdfState) : PdfState * option Q :=
  let s1 := saveScrollPosition scrollArea s in
  let s2 := updatePdfState [CurrentPage (Z.max (currentPage s - 1) 1)] s1 in
  (s2, restoreScrollPosition scrollArea s).

(** [pdfState.numPages || 1] *)
Definition numPages_or_1 (s : PdfState) : Z :=
  match numPages s with
  | Some n => if n =? 0 then 1 else n
  | None => 1
  end.

Definition goToNextPage (scrollArea : option Q) (s : PdfState) : PdfState * option Q :=
  let s1 := saveScrollPosition scrollArea s in
  let s2 := updatePdfState [CurrentPage (Z.min (currentPage s + 1) (numPages_or_1 s))] s1 in
  (s2, restoreScrollPosition scrollArea s).

Definition handleZoomIn (s : PdfState) : PdfState :=
  updatePdfState [PdfZoom (Js.Math_min (PrimFloat.add (pdfZoom s) ZOOM_STEP) MAX_ZOOM)] s.

Definition handleZoomOut (s : PdfState) : PdfState :=
  updatePdfState [PdfZoom (Js.Math_max (PrimFloat.sub (pdfZoom s) ZOOM_STEP) MIN_ZOOM)] s.

Definition handleResetZoom (s : PdfState) : PdfState :=
  updatePdfState [PdfZoom 1.0] s.

Definition handleSetZoom (zoom : PrimFloat.float) (s : PdfState) : PdfState :=
  updatePdfState [PdfZoom (Js.Math_max MIN_ZOOM (Js.Math_min MAX_ZOOM zoom))] s.

(** The zoom controls of the viewer, as one type of request. *)
Inductive ZoomRequest :=
| ZoomIn
| ZoomOut
| ResetZoom
| SetZoom (zoom : PrimFloat.float).

Definition zoom_step (r : ZoomRequest) (s : PdfState) : PdfState :=
  match r with
  | ZoomIn => handleZoomIn s
  | ZoomOut => handleZoomOut s
  | ResetZoom => handleResetZoom s
  | SetZoom z => handleSetZoom z s
  end.

(** [MIN_ZOOM <= z && z <= MAX_ZOOM], as the language compares numbers. *)
Definition zoom_in_range (z : PrimFloat.float) : Prop :=
  PrimFloat.leb MIN_ZOOM z = true /\ PrimFloat.leb z MAX_ZOOM = true.

(** The six zoom factors the toolbar's menu passes to [onSetZoom]. *)
Definition zoomPresets : list PrimFloat.float := [0.5; 0.75; 1.0; 1.25; 1.5; 2.0]%float.

(** A request the toolbar can make: its two step buttons, its reset button
    and the six entries of its menu. *)
Definition fromToolbar (r : ZoomRequest) : Prop :=
  match r with
  | SetZoom zoom => In zoom zoomPresets
  | ZoomIn | ZoomOut | ResetZoom => True
  end.

(** A zoom factor the toolbar can reach on a document, which opens at the
    zoom of the initial state. *)
Definition toolbarZoom (z : PrimFloat.float) : Prop :=
  exists requests,
    Forall fromToolbar requests
    /\ z = pdfZoom (fold_left (fun t r => zoom_step r t) requests initial).

(** The zoom factors within [n] clicks on the step buttons of a reset or of
    a menu entry, each listed once. *)
Definition knownZoom (z : PrimFloat.float) (l : list PrimFloat.float) : bool :=
  existsb (PrimFloat.Leibniz.eqb z) l.

Definition addZoom (l : list PrimFloat.float) (z : PrimFloat.float) : list PrimFloat.float :=
  if knownZoom z l then l else (l ++ [z])%list.

Definition zoomClicks (z : PrimFloat.float) : list PrimFloat.float :=
  map (fun r => pdfZoom (zoom_step r (updatePdfState [PdfZoom z] initial))) [ZoomIn; ZoomOut].

Fixpoint zoomsWithin (n : nat) : list PrimFloat.float :=
  match n with
  | O => fold_left addZoom zoomPresets [pdfZoom initial]
  | S n' => let l := zoomsWithin n' in fold_left addZoom (flat_map zoomClicks l) l
  end.

(** Eighteen clicks are enough: the values, computed. *)
Definition toolbarZooms : list PrimFloat.float := Eval vm_compute in zoomsWithin 18.

(** *** The handlers the preview keeps besides navigation and zoom *)

(** The keys a navigation handler writes, computed from the state of the
    render the handler was created in ([closure]); [updatePdfState] then
    merges them into whatever the state is when the update runs. *)
Definition prevPageUpdates (scrollArea : option Q) (closure : PdfState) : list Field :=
  (match scrollArea with Some scrollTop => [ScrollPosition scrollTop] | None => [] end)
  ++ [CurrentPage (Z.max (currentPage closure - 1) 1)].

Definition nextPageUpdates (scrollArea : option Q) (closure : PdfState) : list Field :=
  (match scrollArea with Some scrollTop => [ScrollPosition scrollTop] | None => [] end)
  ++ [CurrentPage (Z.min (currentPage closure + 1) (numPages_or_1 closure))].

(** [pdfState.pdfUrl && pdfState.numPages]: a document is on screen. *)
Definition documentLoaded (s : PdfState) : bool :=
  Js.truthy_opt (pdfUrl s)
  && match numPages s with Some n => negb (n =? 0) | None => false end.

(** A [keydown] event: its [key], and whether its target is an input, a
    text area or editable content. *)
Record KeyEvent := mkKeyEvent {
  key : string;
  targetEditable : bool
}.

(** [currentPage < numPages] on a nullable page count. *)
Definition beforeLastPage (s : PdfState) : bool :=
  match numPages s with Some n => currentPage s <? n | None => false end.

(** The [keydown] listener of the hook, which is attached only while a
    document is on screen: [None] when it lets the event pass, otherwise
    ([preventDefault] called) the keys the navigation handler writes. *)
Definition handleKeyDown (scrollArea : option Q) (event : KeyEvent) (s : PdfState)
  : option (list Field) :=
  if negb (documentLoaded s) then None
  else if targetEditable event then None
  else if String.eqb (key event) "ArrowLeft" && (1 <? currentPage s) then
    Some (prevPageUpdates scrollArea s)
  else if String.eqb (key event) "ArrowRight" && beforeLastPage s then
    Some (nextPageUpdates scrollArea s)
  else None.

(** [Math.max(pdfDisplayRef.current.offsetWidth - approxPaddingValue, 200)] *)
Definition fittedWidth (offsetWidth : Z) : Z := Z.max (offsetWidth - 32) 200.

(** [updatePdfDisplayWidth]: [container] is [pdfDisplayRef.current], [None]
    while the pane is not mounted, otherwise its [offsetWidth]. *)
Definition updatePdfDisplayWidth (container : option Z) (s : PdfState) : PdfState :=
  match container with
  | Some offsetWidth => updatePdfState [PdfDisplayWidth (Some (fittedWidth offsetWidth))] s
  | None => s
  end.

(** [resetPdfViewState] and [smoothResetPdfView], once their timer or
    animation frames have run. *)
Definition resetPdfViewState (container : option Z) (s : PdfState) : PdfState :=
  updatePdfDisplayWidth container
    (updatePdfState [PdfZoom 1.0; ScrollPosition 0; PdfDisplayWidth None] s).

Definition smoothResetZoom (s : PdfState) : PdfState :=
  updatePdfState [PdfZoom 1.0; ScrollPosition 0] s.

Definition forceResetPdfView (s : PdfState) : PdfState :=
  updatePdfState [PdfZoom 1.0; ScrollPosition 0; ResetKey (resetKey s + 1)] s.

(** The pane that is maximised, as the effect compares it: only whether it
    is the PDF pane matters. *)
Definition layoutEffect (wasPdfMaximized isPdfMaximized : bool) (container : option Z)
  (s : PdfState) : PdfState :=
  if Js.truthy_opt (pdfUrl s) then
    let transitioningToMaximized := negb wasPdfMaximized && isPdfMaximized in
    let transitioningToMinimized := wasPdfMaximized && negb isPdfMaximized in
    let s1 :=
      if transitioningToMaximized || transitioningToMinimized
      then updatePdfState [PdfZoom 1.0; ScrollPosition 0] s
      else s in
    updatePdfDisplayWidth container s1
  else updatePdfState [PdfDisplayWidth None] s.

(** [onDocumentLoadError]: the message handed to [onError]. *)
Definition onDocumentLoadError (message : string) (s : PdfState) : string :=
  let loadSource :=
    match fileName s with
    | Some name => if Js.startsWith name "downloaded_" then "URL" else "file"
    | None => "file"
    end in
  "Failed to load PDF for preview from " ++ loadSource ++ ": " ++ message ++ ". "
  ++ "The file might be corrupted or not a standard PDF. "
  ++ "You can still try to analyze it if it was loaded successfully into the form.".

(** A document of [n] pages is loaded and the page shown is one of them. *)
Definition pageInRange (s : PdfState) : Prop :=
  exists n, numPages s = Some n /\ 1 <= currentPage s <= n.

End PdfState.

(** ** Browser objects: files and fetch responses *)

Module Files.

(** A [File]: its [name], [type] and [size] properties and the bytes it
    wraps.  A [FileList] is a list of them. *)
Record File := mkFile {
  name : string;
  type : string;
  size : Z;
  data : string
}.

Definition FileList := list File.

(** [files && files.length > 0] on a [FileList | null]. *)
Definition loaded (v : option FileList) : bool :=
  match v with
  | Some (_ :: _) => true
  | _ => false
  end.

End Files.

Module Net.

(** What [await response.json()] does: throws a [SyntaxError] with some
    message, or gives the parsed document. *)
Inductive JsonResult :=
| JsonThrows (message : string)
| JsonValue (j : Js.Json).

(** A [Response].  [body] is what [text()] and [blob()] read, [bodySize] its
    length in bytes ([blob.size]). *)
Record Response := mkResponse {
  status : Z;
  statusText : string;
  contentType : option string;
  body : string;
  bodySize : Z;
  json : JsonResult
}.

(** [response.ok] *)
Definition ok (r : Response) : bool := (200 <=? status r) && (status r <=? 299).

(** [response.headers.get("content-type")] contains [needle]. *)
Definition contentType_includes (r : Response) (needle : string) : bool :=
  match contentType r with
  | Some ct => Js.truthy ct && Js.includes ct needle
  | None => false
  end.

(** A fetch either rejects (a network failure, with the error's message) or
    resolves to a response. *)
Inductive FetchOutcome :=
| NetworkError (message : string)
| Responded (r : Response).

(** The outcome of a block that may [throw new Error(message)]. *)
Inductive Completion (A : Type) :=
| Return (a : A)
| Throw (message : string).

Arguments Return {A} a.
Arguments Throw {A} message.

Definition bind {A B : Type} (c : Completion A) (k : A -> Completion B) : Completion B :=
  match c with
  | Return a => k a
  | Throw m => Throw m
  end.

(** [await fetch(...)] inside a [try]. *)
Definition await (o : FetchOutcome) : Completion Response :=
  match o with
  | NetworkError m => Throw m
  | Responded r => Return r
  end.

End Net.

Notation "x <- c ;; k" := (Net.bind c (fun x => k))
  (at level 61, c at next level, right associativity).

(** ** [useUploadState]: the upload form and its three input modes *)

Module UploadState.

Import Files.

Definition MAX_FILE_SIZE : Z := 15 * 1024 * 1024.
Definition ACCEPTED_FILE_TYPES : list string := ["application/pdf"].

(** [formSchema], as the list of issues it raises on a form value, in the
    order of the chain: the [custom] check, the size refinement, the type
    refinement.  [nullable] accepts [null] before any of them runs. *)
Definition formSchema (v : option FileList) : list string :=
  match v with
  | None => []
  | Some files =>
      (match files with
       | [] => ["PDF file is required for analysis."]
       | _ :: _ => []
       end) ++
      (match files with
       | [] => []
       | file :: _ =>
           if size file <=? MAX_FILE_SIZE then []
           else ["Max file size is "
                   ++ Js.string_of_Z (MAX_FILE_SIZE / (1024 * 1024)) ++ "MB."]
       end) ++
      (match files with
       | [] => []
       | file :: _ =>
           if Js.array_includes ACCEPTED_FILE_TYPES (type file) then []
           else ["Only .pdf files are accepted."]
       end)
  end.

(** What the client accepts for upload: a PDF of at most the size ceiling. *)
Definition acceptable (file : File) : bool :=
  Js.array_includes ACCEPTED_FILE_TYPES (type file) && (size file <=? MAX_FILE_SIZE).

Record UploadState := mkUploadState {
  isUrlMode : bool;
  isPreloadMode : bool;
  pdfUrlInputValue : string;
  isUrlLoading : bool;
  urlError : option string;
  isDraggingOver : bool;
  (** the form: [watch("pdfFile")] and [formErrors.pdfFile?.message] *)
  uploadedFile : option FileList;
  formError : option string
}.

(** [preloadDefaultOn] is [process.env.NEXT_PUBLIC_PRELOAD_DEFAULT_ON === 'true']. *)
Definition initial (preloadDefaultOn : bool) : UploadState :=
  mkUploadState false preloadDefaultOn "" false None false None None.

Definition setIsUrlMode (b : bool) (s : UploadState) : UploadState :=
  mkUploadState b (isPreloadMode s) (pdfUrlInputValue s) (isUrlLoading s)
    (urlError s) (isDraggingOver s) (uploadedFile s) (formError s).

Definition setIsPreloadMode (b : bool) (s : UploadState) : UploadState :=
  mkUploadState (isUrlMode s) b (pdfUrlInputValue s) (isUrlLoading s)
    (urlError s) (isDraggingOver s) (uploadedFile s) (formError s).

Definition setPdfUrlInputValue (v : string) (s : UploadState) : UploadState :=
  mkUploadState (isUrlMode s) (isPreloadMode s) v (isUrlLoading s)
    (urlError s) (isDraggingOver s) (uploadedFile s) (formError s).

Definition setIsUrlLoading (b : bool) (s : UploadState) : UploadState :=
  mkUploadState (isUrlMode s) (isPreloadMode s) (pdfUrlInputValue s) b
    (urlError s) (isDraggingOver s) (uploadedFile s) (formError s).

Definition setUrlError (v : option string) (s : UploadState) : UploadState :=
  mkUploadState (isUrlMode s) (isPreloadMode s) (pdfUrlInputValue s) (isUrlLoading s)
    v (isDraggingOver s) (uploadedFile s) (formError s).

Definition setIsDraggingOver (b : bool) (s : UploadState) : UploadState :=
  mkUploadState (isUrlMode s) (isPreloadMode s) (pdfUrlInputValue s) (isUrlLoading s)
    (urlError s) b (uploadedFile s) (formError s).

(** *** The form, as react-hook-form with the zod resolver drives it *)

(** [setValue("pdfFile", v, { shouldValidate: true })]: stores the value and
    validates the field; the field's error is the first issue raised. *)
Definition setValue (v : option FileList) (s : UploadState) : UploadState :=
  mkUploadState (isUrlMode s) (isPreloadMode s) (pdfUrlInputValue s) (isUrlLoading s)
    (urlError s) (isDraggingOver s) v (hd_error (formSchema v)).

(** The change event of the registered file input: stores the picked files;
    validation waits for the submit (once a submit has failed the library
    also validates on change; the submit validates in any case). *)
Definition onInputChange (files : FileList) (s : UploadState) : UploadState :=
  mkUploadState (isUrlMode s) (isPreloadMode s) (pdfUrlInputValue s) (isUrlLoading s)
    (urlError s) (isDraggingOver s) (Some files) (formError s).

(** [resetField("pdfFile")]: back to the default value [null], error dropped. *)
Definition resetField (s : UploadState) : UploadState :=
  mkUploadState (isUrlMode s) (isPreloadMode s) (pdfUrlInputValue s) (isUrlLoading s)
    (urlError s) (isDraggingOver s) None None.

(** [clearErrors()] and [clearErrors("pdfFile")] *)
Definition clearErrors (s : UploadState) : UploadState :=
  mkUploadState (isUrlMode s) (isPreloadMode s) (pdfUrlInputValue s) (isUrlLoading s)
    (urlError s) (isDraggingOver s) (uploadedFile s) None.

(** The validation [handleSubmit] runs before it calls its handler: the
    handler receives the data only when no issue is raised. *)
Definition validateOnSubmit (s : UploadState) : UploadState * option (option FileList) :=
  match formSchema (uploadedFile s) with
  | [] => (clearErrors s, Some (uploadedFile s))
  | issue :: _ =>
      (mkUploadState (isUrlMode s) (isPreloadMode s) (pdfUrlInputValue s)
         (isUrlLoading s) (urlError s) (isDraggingOver s) (uploadedFile s)
         (Some issue),
       None)
  end.

(** *** The hook's handlers *)

(** The calls a handler makes on the hook's props and on the console. *)
Inductive Call :=
| OnSuccess (fileName : string)
| ConsoleError (message : string).

(** The character class [[a-zA-Z0-9._-]] of the sanitising pattern. *)
Definition keeps (c : ascii) : bool :=
  let n := nat_of_ascii c in
  (((97 <=? n) && (n <=? 122)) || ((65 <=? n) && (n <=? 90))
   || ((48 <=? n) && (n <=? 57)) || (n =? 46) || (n =? 95) || (n =? 45))%nat.

Definition sanitize (c : ascii) : ascii := if keeps c then c else "_"%char.

(** [pathname] is [new URL(url).pathname], [None] when the constructor
    throws; [now] is [new Date().getTime()].  A parsed URL's pathname is
    ASCII text (the parser percent-encodes every other character), so the
    pattern and [substring] meet one byte for each of its characters. *)
Definition extractFileNameFromUrl
  (pathname : string -> option string) (now : Z) (url : string) : string :=
  match pathname url with
  | Some path =>
      let parts := Js.split "/" path in
      let lastPart :=
        match Js.pop parts with
        | Some p => if Js.truthy p then p else "file.pdf"
        | None => "file.pdf"
        end in
      let sanitizedLastPart := Js.map_chars sanitize lastPart in
      if Js.endsWith sanitizedLastPart ".pdf" then sanitizedLastPart
      else Js.substring0 50 sanitizedLastPart ++ ".pdf"
  | None => "downloaded_" ++ Js.string_of_Z now ++ ".pdf"
  end.

Definition handleUrlModeToggle (checked : bool) (s : UploadState) : UploadState :=
  if loaded (uploadedFile s) then s
  else
    let s := resetField s in
    let s := setIsUrlMode checked s in
    let s := setPdfUrlInputValue "" s in
    let s := setUrlError None s in
    let s := if checked then setIsDraggingOver false s else s in
    clearErrors s.

Definition handlePreloadModeToggle (checked : bool) (s : UploadState) : UploadState :=
  if loaded (uploadedFile s) then s
  else
    let s := resetField s in
    let s := setIsPreloadMode checked s in
    let s :=
      if checked then
        setUrlError None (setPdfUrlInputValue "" (setIsUrlMode false (setIsDraggingOver false s)))
      else s in
    clearErrors s.

(** [new File([blob], derivedFileName, { type: "application/pdf" })] *)
Definition fileFromUrl
  (pathname : string -> option string) (now : Z) (url : string) (response : Net.Response)
  : File :=
  mkFile (extractFileNameFromUrl pathname now url) "application/pdf"
    (Net.bodySize response) (Net.body response).

(** The body of the [try] of [handleLoadFromUrl] up to the construction of
    the [File]: the derived name and the file, or the error thrown. *)
Definition fetchPdfFile
  (fetch : string -> Net.FetchOutcome) (pathname : string -> option string) (now : Z)
  (url : string) : Net.Completion (string * File) :=
  response <- Net.await (fetch url) ;;
  if negb (Net.ok response) then
    Net.Throw ("Failed to fetch PDF: " ++ Js.string_of_Z (Net.status response) ++ " "
               ++ Net.statusText response
               ++ ". Server might not allow direct fetching (CORS issue).")
  else if negb (Net.contentType_includes response "application/pdf") then
    Net.Throw "The linked resource does not appear to be a PDF file (Content-Type mismatch)."
  else if MAX_FILE_SIZE <? Net.bodySize response then
    Net.Throw ("The PDF from URL exceeds the maximum file size of "
               ++ Js.string_of_Z (MAX_FILE_SIZE / (1024 * 1024)) ++ "MB.")
  else
    let derivedFileName := extractFileNameFromUrl pathname now url in
    Net.Return (derivedFileName, fileFromUrl pathname now url response).

Definition handleLoadFromUrl
  (fetch : string -> Net.FetchOutcome) (pathname : string -> option string) (now : Z)
  (s : UploadState) : UploadState * list Call :=
  let url := pdfUrlInputValue s in
  if negb (Js.truthy url) || negb (Js.startsWith (Js.trim url) "http") then
    (setUrlError (Some "Please enter a valid PDF URL (starting with http or https).") s, [])
  else
    let s1 := setUrlError None (setIsUrlLoading true s) in
    match fetchPdfFile fetch pathname now url with
    | Net.Return (derivedFileName, file) =>
        let s2 := setValue (Some [file]) s1 in
        let s3 := setPdfUrlInputValue "" s2 in
        (setIsUrlLoading false s3, [OnSuccess derivedFileName])
    | Net.Throw message =>
        let shown :=
          if Js.truthy message then message
          else "Could not load PDF from the provided URL. This might be a CORS issue if fetching from a different domain." in
        let s2 := setUrlError (Some shown) s1 in
        let s3 := if loaded (uploadedFile s) then s2 else setValue None s2 in
        (setIsUrlLoading false s3, [ConsoleError message])
    end.

Definition handleClearSelection (s : UploadState) : UploadState :=
  let s := resetField s in
  let s := setPdfUrlInputValue "" s in
  let s := setUrlError None s in
  let s := setIsUrlMode false s in
  let s := setIsPreloadMode false s in
  clearErrors s.

Definition handleSetPreloadedFile (file : File) (s : UploadState) : UploadState :=
  let s := setIsUrlMode false s in
  let s := setPdfUrlInputValue "" s in
  let s := setUrlError None s in
  let s := clearErrors s in
  setValue (Some [file]) s.

(** The two computed properties the page uses to disable the switches. *)
Definition isUrlModeDisabled (selectedPaper : option string) (s : UploadState) : bool :=
  loaded (uploadedFile s) || isUrlLoading s || Js.truthy_opt selectedPaper || isPreloadMode s.

Definition isPreloadModeDisabled (s : UploadState) : bool :=
  loaded (uploadedFile s) || isUrlLoading s || isUrlMode s.

(** A name made only of the characters the sanitising pattern keeps. *)
Definition safeName (s : string) : bool := forallb keeps (list_ascii_of_string s).

(** Outside URL mode the URL field is empty and its error box is not shown. *)
Definition urlFieldsClear (s : UploadState) : Prop :=
  isUrlMode s = false -> pdfUrlInputValue s = "" /\ urlError s = None.

End UploadState.

(** ** [useDragDrop]: the drop zone *)

Module DragDrop.

Import Files.

Record Props := mkProps {
  isUrlMode : bool;
  isPreloadMode : bool;
  isLoading : bool;
  isUrlLoading : bool;
  maxFileSize : Z;
  acceptedFileTypes : list string
}.

(** The calls [handleDrop] makes: on its own state cell and on the three
    callbacks of its props.  [SetValue v] is
    [setValue("pdfFile", v, { shouldValidate: true })]. *)
Inductive Call :=
| SetIsDraggingOver (b : bool)
| OnUrlModeToggle (checked : bool)
| OnError (error : string)
| SetValue (v : option FileList).

(** [files] is [e.dataTransfer.files].  The size ceiling is printed in MB,
    as the quotient of two numbers. *)
Definition handleDrop (p : Props) (files : FileList) : list Call :=
  SetIsDraggingOver false ::
  if isLoading p || isUrlLoading p then []
  else
    (if isUrlMode p then [OnUrlModeToggle false] else []) ++
    match files with
    | [] => []
    | file :: _ =>
        if (1 <? length files)%nat then
          [OnError "Please drop only one PDF file."; SetValue None]
        else if negb (Js.array_includes (acceptedFileTypes p) (type file)) then
          [OnError "Invalid file type. Please drop a PDF file."; SetValue None]
        else if maxFileSize p <? size file then
          [OnError ("File exceeds maximum size of "
                    ++ Js.string_of_number
                         (PrimFloat.div (Js.number_of_Z (maxFileSize p))
                            (PrimFloat.mul 1024 1024))
                    ++ "MB.");
           SetValue None]
        else
          [OnError ""; SetValue (Some files)]
    end.

(** A [DataTransferItem]'s [kind]. *)
Inductive ItemKind := FileItem | StringItem.

(** [handleDragEnter]: [items] is [e.dataTransfer.items]; the highlight is
    switched on when one of them is a file. *)
Definition handleDragEnter (p : Props) (items : list ItemKind) : list Call :=
  if isUrlMode p || isPreloadMode p || isLoading p || isUrlLoading p then []
  else
    let containsFile :=
      existsb (fun k => match k with FileItem => true | StringItem => false end) items in
    if containsFile then [SetIsDraggingOver true] else [].

Definition handleDragLeave : list Call := [SetIsDraggingOver false].

Definition handleDragOver : list Call := [].

(** The highlight after a handler, from the highlight before it. *)
Definition highlight (before : bool) (calls : list Call) : bool :=
  fold_left (fun h c => match c with SetIsDraggingOver b => b | _ => h end) calls before.

End DragDrop.

(** ** [useApiState]: the analysis request *)

Module ApiState.

Import Files.

Record ApiState := mkApiState {
  insights : option string;
  isLoading : bool
}.

Definition initial : ApiState := mkApiState None false.

(** The multipart body: the appended (field name, file) pairs. *)
Definition FormData := list (string * File).

(** The calls [submitPdf] makes: on the hook's two state cells, on its two
    callbacks, on the network and on the console. *)
Inductive Call :=
| SetIsLoading (b : bool)
| SetInsights (v : option string)
| OnError (error : string)
| OnSuccess (insights : string)
| Fetch (url : string) (method : string) (body : FormData)
| ConsoleError (message : string).

Definition apply (s : ApiState) (c : Call) : ApiState :=
  match c with
  | SetIsLoading b => mkApiState (insights s) b
  | SetInsights v => mkApiState v (isLoading s)
  | _ => s
  end.

(** The hook's state after a handler has run. *)
Definition run (calls : list Call) (s : ApiState) : ApiState := fold_left apply calls s.

(** [backendBaseUrl] is [process.env.NEXT_PUBLIC_BACKEND_BASE_URL]. *)
Definition backendApiUrl (backendBaseUrl : option string) : option string :=
  match backendBaseUrl with
  | Some base => if Js.truthy base then Some (base ++ "/api/process-pdf/") else None
  | None => None
  end.

(** The message thrown on a non-2xx response:
    [errorData.detail || errorData.message || errorData.error || errorMsg],
    where reading [errorData] may itself throw and is then ignored. *)
Definition apiErrorMessage (response : Net.Response) : string :=
  let errorMsg :=
    "API Error: " ++ Js.string_of_Z (Net.status response) ++ " " ++ Net.statusText response in
  match Net.json response with
  | Net.JsonThrows _ => errorMsg
  | Net.JsonValue errorData =>
      match Js.get_prop errorData "detail",
            Js.get_prop errorData "message",
            Js.get_prop errorData "error" with
      | Some detail, Some message, Some error =>
          let chosen := Js.or_else (Js.or_else detail message) error in
          if Js.value_truthy chosen then Js.value_to_string chosen else errorMsg
      | _, _, _ => errorMsg
      end
  end.

(** The part of the [try] block after the fetch: the insights text, or the
    error thrown. *)
Definition readInsights (response : Net.Response) : Net.Completion string :=
  if negb (Net.ok response) then Net.Throw (apiErrorMessage response)
  else if Net.contentType_includes response "application/json" then
    match Net.json response with
    | Net.JsonThrows message => Net.Throw message
    | Net.JsonValue jsonData =>
        match (if Js.json_truthy jsonData then Js.get_prop jsonData "insights" else None) with
        | Some (Js.Val (Js.JStr insightsText)) => Net.Return insightsText
        | _ => Net.Throw "Invalid JSON response: 'insights' field missing or not a string."
        end
    end
  else
    let textData := Net.body response in
    if Js.truthy textData then Net.Return textData
    else Net.Throw "Empty response from API.".

Definition mentions (lowered : string) (needles : list string) : bool :=
  existsb (Js.includes lowered) needles.

(** The [catch] block's rewriting of the error message. *)
Definition friendlyMessage (message : string) : string :=
  let errorMessage :=
    if Js.truthy message then message
    else "An unknown error occurred during PDF processing." in
  let lowered := Js.toLowerCase errorMessage in
  if mentions lowered
       ["exceeds the model's max input limit"; "context length"; "token limit";
        "too long"; "maximum length"; "invalid_request_error"] then
    "This PDF exceeds the context length limit and is too large to process. Please try uploading a smaller PDF document with fewer pages or less text content."
  else if mentions lowered ["timeout"; "timed out"] then
    "The PDF processing timed out. This usually happens with very large files. Please try a smaller PDF document."
  else if mentions lowered ["format"; "invalid"; "corrupted"] then
    "Unable to process this PDF file. The file may be corrupted, password-protected, or in an unsupported format. Please try a different PDF."
  else errorMessage.

(** The [try] block of [submitPdf]: [fetch] answers the one POST it issues. *)
Definition attempt
  (fetch : string -> FormData -> Net.FetchOutcome) (url : string) (formData : FormData)
  : Net.Completion string :=
  response <- Net.await (fetch url formData) ;; readInsights response.

Definition submitPdf
  (backendBaseUrl : option string) (fetch : string -> FormData -> Net.FetchOutcome)
  (file : File) : list Call :=
  SetIsLoading true ::
  let formData := [("pdf_file", file)] in
  match backendApiUrl backendBaseUrl with
  | None =>
      [OnError "Backend API URL is not configured. Please set NEXT_PUBLIC_BACKEND_BASE_URL in your .env.local file.";
       SetIsLoading false]
  | Some url =>
      Fetch url "POST" formData ::
      match attempt fetch url formData with
      | Net.Return insightsText =>
          [SetInsights (Some insightsText); OnSuccess insightsText]
      | Net.Throw message =>
          [OnError (friendlyMessage message); ConsoleError message]
      end ++ [SetIsLoading false]
  end.

Definition clearInsights : list Call := [SetInsights None].

Definition setTestInsights (testContent : string) : list Call :=
  [SetInsights (Some testContent); OnSuccess testContent].

(** The error messages reported, the insights stored and the requests sent
    by a run, each in order. *)
Definition errors (calls : list Call) : list string :=
  flat_map (fun c => match c with OnError e => [e] | _ => [] end) calls.

Definition stored (calls : list Call) : list (option string) :=
  flat_map (fun c => match c with SetInsights v => [v] | _ => [] end) calls.

Definition successes (calls : list Call) : list string :=
  flat_map (fun c => match c with OnSuccess v => [v] | _ => [] end) calls.

Definition requests (calls : list Call) : list (string * string * FormData) :=
  flat_map (fun c => match c with Fetch u m b => [(u, m, b)] | _ => [] end) calls.

(** *** The backend contract, in the words of the interface description *)

(** A success body is an object whose [insights] property is a string. *)
Definition insightsOf (j : Js.Json) : option string :=
  match j with
  | Js.JObj props =>
      match Js.lookup "insights" props with
      | Js.Val (Js.JStr x) => Some x
      | _ => None
      end
  | _ => None
  end.

(** The failing runs: no backend address; a network failure; a non-2xx
    status; a JSON body that does not parse to an object with a string
    [insights]; an empty body of another content type. *)
Inductive Failing
  (backendBaseUrl : option string) (fetch : string -> FormData -> Net.FetchOutcome)
  (file : File) : Prop :=
| NotConfigured :
    backendApiUrl backendBaseUrl = None ->
    Failing backendBaseUrl fetch file
| NetworkFailure (url message : string) :
    backendApiUrl backendBaseUrl = Some url ->
    fetch url [("pdf_file", file)] = Net.NetworkError message ->
    Failing backendBaseUrl fetch file
| BadStatus (url : string) (r : Net.Response) :
    backendApiUrl backendBaseUrl = Some url ->
    fetch url [("pdf_file", file)] = Net.Responded r ->
    Net.ok r = false ->
    Failing backendBaseUrl fetch file
| NoInsights (url : string) (r : Net.Response) :
    backendApiUrl backendBaseUrl = Some url ->
    fetch url [("pdf_file", file)] = Net.Responded r ->
    Net.ok r = true ->
    Net.contentType_includes r "application/json" = true ->
    (forall j, Net.json r = Net.JsonValue j -> insightsOf j = None) ->
    Failing backendBaseUrl fetch file
| EmptyBody (url : string) (r : Net.Response) :
    backendApiUrl backendBaseUrl = Some url ->
    fetch url [("pdf_file", file)] = Net.Responded r ->
    Net.ok r = true ->
    Net.contentType_includes r "application/json" = false ->
    Net.body r = "" ->
    Failing backendBaseUrl fetch file.

(** Every phrase whose presence makes the handler rewrite a message. *)
Definition triggers : list string :=
  ["exceeds the model's max input limit"; "context length"; "token limit";
   "too long"; "maximum length"; "invalid_request_error";
   "timeout"; "timed out"; "format"; "invalid"; "corrupted"].

(** The messages the handler can hand to [onError] of its own. *)
Definition notConfigured : string :=
  "Backend API URL is not configured. Please set NEXT_PUBLIC_BACKEND_BASE_URL in your .env.local file.".

Definition contextMessage : string :=
  "This PDF exceeds the context length limit and is too large to process. Please try uploading a smaller PDF document with fewer pages or less text content.".

Definition timeoutMessage : string :=
  "The PDF processing timed out. This usually happens with very large files. Please try a smaller PDF document.".

Definition unableMessage : string :=
  "Unable to process this PDF file. The file may be corrupted, password-protected, or in an unsupported format. Please try a different PDF.".

Definition unknownMessage : string := "An unknown error occurred during PDF processing.".

End ApiState.

(** ** [InsightsViewer]: what the report pane renders *)

Module InsightsViewer.

Record Props := mkProps {
  insights : option string;
  isLoading : bool;
  isUrlLoading : bool;
  (** whether the [onTestInsights] callback is passed *)
  onTestInsights : bool
}.

Definition minTextSize : Z := 14.
Definition maxTextSize : Z := 24.

(** The content of the scroll area. *)
Inductive Body :=
| Markdown (source : string) (fontSize : Z)
| NoInsights
| Blank.

(** What is on screen: for each of the two text-size buttons whether it is
    rendered and, if so, whether it is disabled; whether the test-content
    loader and the save button are rendered; the body. *)
Record View := mkView {
  decreaseButton : option bool;
  increaseButton : option bool;
  testLoader : bool;
  saveButton : bool;
  body : Body
}.

(** [isTestingEnabled] is [process.env.NEXT_PUBLIC_ENABLE_TESTING === 'true'];
    [textSize] is the component's own state cell. *)
Definition render (isTestingEnabled : bool) (textSize : Z) (p : Props) : View :=
  let shown := Js.truthy_opt (insights p) in
  mkView
    (if shown then Some (textSize <=? minTextSize) else None)
    (if shown then Some (maxTextSize <=? textSize) else None)
    (isTestingEnabled && onTestInsights p)
    shown
    (match insights p with
     | Some text =>
         if Js.truthy text then Markdown text textSize
         else if negb (isLoading p) && negb (isUrlLoading p) then NoInsights else Blank
     | None =>
         if negb (isLoading p) && negb (isUrlLoading p) then NoInsights else Blank
     end).

(** What [handleSaveInsights] hands to [downloadAsFile]: the report, when it
    is not empty. *)
Definition handleSaveInsights (p : Props) : option string :=
  if Js.truthy_opt (insights p) then insights p else None.

Definition textSizeControlsShown (v : View) : bool :=
  match decreaseButton v, increaseButton v with
  | Some _, Some _ => true
  | _, _ => false
  end.

Definition increaseTextSize (textSize : Z) : Z := Z.min (textSize + 2) maxTextSize.
Definition decreaseTextSize (textSize : Z) : Z := Z.max (textSize - 2) minTextSize.

(** The component's text size starts at 14. *)
Definition initialTextSize : Z := 14.

Inductive TextSizeClick := Increase | Decrease.

Definition click (textSize : Z) (c : TextSizeClick) : Z :=
  match c with
  | Increase => increaseTextSize textSize
  | Decrease => decreaseTextSize textSize
  end.

End InsightsViewer.

(** ** [useUIState]: the inline alert and the maximised pane *)

Module UIState.

Inductive Card := InsightsCard | PdfCard.

Record UIState := mkUIState {
  error : option string;
  maximizedCard : option Card
}.

Definition initial : UIState := mkUIState None None.

Definition setError (e : option string) (s : UIState) : UIState :=
  mkUIState e (maximizedCard s).

Definition clearError (s : UIState) : UIState := setError None s.

(** Whether the alert is on screen: [error && !formErrors.pdfFile]. *)
Definition alertShown (formError : option string) (s : UIState) : option string :=
  match formError with
  | Some _ => None
  | None => if Js.truthy_opt (error s) then error s else None
  end.

Definition card_eqb (a b : Card) : bool :=
  match a, b with
  | InsightsCard, InsightsCard | PdfCard, PdfCard => true
  | _, _ => false
  end.

(** [setMaximizedCard(prev => (prev === cardType ? null : cardType))] *)
Definition toggleMaximizeCard (cardType : Card) (s : UIState) : UIState :=
  mkUIState (error s)
    (match maximizedCard s with
     | Some prev => if card_eqb prev cardType then None else Some cardType
     | None => Some cardType
     end).

Definition isPdfMaximized (s : UIState) : bool :=
  match maximizedCard s with Some PdfCard => true | _ => false end.

End UIState.

(** ** [usePreloadState]: the bundled example papers *)

Module PreloadState.

Import Files.

Record PreloadedPaper := mkPaper {
  id : string;
  title : string;
  filename : string
}.

Record PreloadState := mkPreloadState {
  selectedPaper : option string;
  isPreloadLoading : bool;
  preloadedPapers : list PreloadedPaper
}.

Definition initial : PreloadState := mkPreloadState None false [].

Definition setSelectedPaper (v : option string) (s : PreloadState) : PreloadState :=
  mkPreloadState v (isPreloadLoading s) (preloadedPapers s).

Definition setIsPreloadLoading (b : bool) (s : PreloadState) : PreloadState :=
  mkPreloadState (selectedPaper s) b (preloadedPapers s).

Inductive Call :=
| OnError (error : string)
| OnSuccess (fileName : string) (insights : string)
| ConsoleError (message : string).

(** The [try] block: the report text and the PDF file, or the error thrown. *)
Definition fetchPaper
  (fetch : string -> Net.FetchOutcome) (paper : PreloadedPaper)
  : Net.Completion (string * File) :=
  insightsResponse <- Net.await (fetch ("/data/preload/MD/" ++ filename paper ++ ".md")) ;;
  if negb (Net.ok insightsResponse) then
    Net.Throw ("Failed to load insights for " ++ title paper)
  else
    let insights := Net.body insightsResponse in
    pdfResponse <- Net.await (fetch ("/data/preload/PDF/" ++ filename paper ++ ".pdf")) ;;
    if negb (Net.ok pdfResponse) then
      Net.Throw ("Failed to load PDF for " ++ title paper)
    else
      Net.Return
        (insights,
         mkFile (filename paper ++ ".pdf") "application/pdf"
           (Net.bodySize pdfResponse) (Net.body pdfResponse)).

(** The next state, the calls made, and the file the promise resolves to
    ([None] for both [undefined] and [null]). *)
Definition loadPreloadedPaper
  (fetch : string -> Net.FetchOutcome) (paperId : string) (s : PreloadState)
  : PreloadState * list Call * option File :=
  match find (fun p => String.eqb (id p) paperId) (preloadedPapers s) with
  | None => (s, [OnError "Selected paper not found in preloaded data."], None)
  | Some paper =>
      let s1 := setSelectedPaper (Some paperId) (setIsPreloadLoading true s) in
      match fetchPaper fetch paper with
      | Net.Return (insights, pdfFile) =>
          (setIsPreloadLoading false s1,
           [OnSuccess (filename paper ++ ".pdf") insights],
           Some pdfFile)
      | Net.Throw message =>
          (setIsPreloadLoading false (setSelectedPaper None s1),
           [ConsoleError message; OnError ("Failed to load preloaded paper: " ++ message)],
           None)
      end
  end.

Definition clearPreloadedPaper (s : PreloadState) : PreloadState :=
  setSelectedPaper None s.

End PreloadState.

(** ** [middleware]: the optional basic-auth gate *)

Module Middleware.

(** [process.env] as the middleware reads it. *)
Record Env := mkEnv {
  ENABLE_PASSWORD_PROTECTION : option string;
  PASSWORD : option string;
  USERNAME : option string
}.

Record Request := mkRequest {
  path : string;
  authorization : option string
}.

(** [NextResponse.next()] hands the request to the application; every other
    answer is a response of the middleware's own. *)
Inductive Response :=
| Next
| Reply (body : string) (status : Z) (headers : list (string * string)).

Definition quote : string := String (ascii_of_nat 34) EmptyString.

Definition challenge : list (string * string) :=
  [("WWW-Authenticate", "Basic realm=" ++ quote ++ "Scientific Paper Insights" ++ quote)].

Fixpoint drop (n : nat) (s : string) : string :=
  match n, s with
  | O, _ => s
  | S n', String _ rest => drop n' rest
  | S _, EmptyString => EmptyString
  end.

(** [decode] is [s => Buffer.from(s, 'base64').toString('ascii')]. *)
Definition middleware (decode : string -> string) (env : Env) (request : Request) : Response :=
  let isPasswordProtectionEnabled :=
    match ENABLE_PASSWORD_PROTECTION env with
    | Some v => String.eqb v "true"
    | None => false
    end in
  if negb isPasswordProtectionEnabled then Next
  else
    match PASSWORD env, USERNAME env with
    | Some correctPassword, Some correctUsername =>
        if negb (Js.truthy correctPassword) || negb (Js.truthy correctUsername) then
          Reply "Server configuration error" 500 []
        else
          match authorization request with
          | None => Reply "Authentication required" 401 challenge
          | Some authHeader =>
              if negb (Js.truthy authHeader) || negb (Js.startsWith authHeader "Basic ") then
                Reply "Authentication required" 401 challenge
              else
                let base64Credentials := drop 6 authHeader in
                let credentials := decode base64Credentials in
                let fields := Js.split ":" credentials in
                let username := nth_error fields 0 in
                let password := nth_error fields 1 in
                if negb (Js.strict_eqb username (Some correctUsername))
                   || negb (Js.strict_eqb password (Some correctPassword)) then
                  Reply "Invalid credentials" 401 challenge
                else Next
          end
    | _, _ => Reply "Server configuration error" 500 []
    end.

(** The [matcher] pattern of [config]: a slash followed by anything that does
    not start with [api], [_next/static], [_next/image] or [favicon.ico] (its
    dot being the pattern's any-character) and does not end with a dot and
    one of [svg], [png], [jpg], [jpeg], [gif], [webp].  A request path holds
    no line terminator, so the pattern's dot stands for any character. *)
Definition excludedPrefix (rest : string) : bool :=
  Js.startsWith rest "api"
  || Js.startsWith rest "_next/static"
  || Js.startsWith rest "_next/image"
  || (Js.startsWith rest "favicon"
      && match drop 7 rest with
         | String _ after => Js.startsWith after "ico"
         | EmptyString => false
         end).

Definition excludedSuffix (rest : string) : bool :=
  existsb (Js.endsWith rest) [".svg"; ".png"; ".jpg"; ".jpeg"; ".gif"; ".webp"].

Definition matcher (pathname : string) : bool :=
  match pathname with
  | String "/" rest => negb (excludedPrefix rest) && negb (excludedSuffix rest)
  | _ => false
  end.

(** The client as a request meets it: the middleware runs on the paths the
    matcher selects, every other request goes straight to the application. *)
Definition guard (decode : string -> string) (env : Env) (request : Request) : Response :=
  if matcher (path request) then middleware decode env request else Next.

(** Whether the answer is the Basic challenge: status 401 with a
    [WWW-Authenticate] header whose scheme is Basic. *)
Definition isBasicChallenge (r : Response) : bool :=
  match r with
  | Reply _ status headers =>
      (status =? 401)
      && existsb (fun h => String.eqb (fst h) "WWW-Authenticate" && Js.startsWith (snd h) "Basic")
           headers
  | Next => false
  end.

(** *** The runtime's base64 decoder

    [Buffer.from(s, 'base64')] reads the characters of the base64 alphabets
    up to the first [=], skipping every other character, and
    [toString('ascii')] clears the high bit of each byte. *)
Definition sextet (c : ascii) : option nat :=
  let n := nat_of_ascii c in
  if ((65 <=? n) && (n <=? 90))%nat then Some (n - 65)%nat
  else if ((97 <=? n) && (n <=? 122))%nat then Some (n - 71)%nat
  else if ((48 <=? n) && (n <=? 57))%nat then Some (n + 4)%nat
  else if ((n =? 43) || (n =? 45))%nat then Some 62%nat
  else if ((n =? 47) || (n =? 95))%nat then Some 63%nat
  else None.

Fixpoint sextets (s : string) : list nat :=
  match s with
  | EmptyString => []
  | String c rest =>
      if Ascii.eqb c "="%char then []
      else match sextet c with
           | Some v => v :: sextets rest
           | None => sextets rest
           end
  end.

Definition ascii7 (byte : nat) : ascii := ascii_of_nat (byte mod 128).

Fixpoint bytes_of_sextets (fuel : nat) (l : list nat) : string :=
  match fuel with
  | O => EmptyString
  | S fuel' =>
      match l with
      | a :: b :: c :: d :: rest =>
          String (ascii7 (a * 4 + b / 16))
            (String (ascii7 ((b mod 16) * 16 + c / 4))
               (String (ascii7 ((c mod 4) * 64 + d)) (bytes_of_sextets fuel' rest)))
      | [a; b; c] =>
          String (ascii7 (a * 4 + b / 16))
            (String (ascii7 ((b mod 16) * 16 + c / 4)) EmptyString)
      | [a; b] => String (ascii7 (a * 4 + b / 16)) EmptyString
      | _ => EmptyString
      end
  end%nat.

Definition decodeBase64Ascii (s : string) : string :=
  let l := sextets s in bytes_of_sextets (S (List.length l)) l.

End Middleware.

(** ** [page.tsx]: the hooks wired together *)

Module Page.

Import Files.

(** The build-time switches and the backend address. *)
Record Env := mkEnv {
  isTestingEnabled : bool;
  isPreloadEnabled : bool;
  backendBaseUrl : option string
}.

(** What a [FileReader] reports for [readAsDataURL]: its [onload] with the
    result, or its [onerror]. *)
Inductive ReadResult :=
| Loaded (result : string)
| Failed.

(** What the browser and the network decide during a run. *)
Record World := mkWorld {
  fetch : string -> Net.FetchOutcome;
  post : string -> ApiState.FormData -> Net.FetchOutcome;
  pathname : string -> option string;
  now : Z;
  readAsDataURL : File -> ReadResult
}.

Record AppState := mkApp {
  ui : UIState.UIState;
  upload : UploadState.UploadState;
  api : ApiState.ApiState;
  pdf : PdfState.PdfState;
  preload : PreloadState.PreloadState;
  (** the [isDraggingOver] cell of [useDragDrop] *)
  dropZoneDragging : bool
}.

Definition initial (preloadDefaultOn : bool) : AppState :=
  mkApp UIState.initial (UploadState.initial preloadDefaultOn) ApiState.initial
    PdfState.initial PreloadState.initial false.

Definition with_ui (f : UIState.UIState -> UIState.UIState) (a : AppState) : AppState :=
  mkApp (f (ui a)) (upload a) (api a) (pdf a) (preload a) (dropZoneDragging a).

Definition with_upload (f : UploadState.UploadState -> UploadState.UploadState)
  (a : AppState) : AppState :=
  mkApp (ui a) (f (upload a)) (api a) (pdf a) (preload a) (dropZoneDragging a).

Definition with_api (f : ApiState.ApiState -> ApiState.ApiState) (a : AppState) : AppState :=
  mkApp (ui a) (upload a) (f (api a)) (pdf a) (preload a) (dropZoneDragging a).

Definition with_pdf (f : PdfState.PdfState -> PdfState.PdfState) (a : AppState) : AppState :=
  mkApp (ui a) (upload a) (api a) (f (pdf a)) (preload a) (dropZoneDragging a).

Definition with_preload (f : PreloadState.PreloadState -> PreloadState.PreloadState)
  (a : AppState) : AppState :=
  mkApp (ui a) (upload a) (api a) (pdf a) (f (preload a)) (dropZoneDragging a).

Definition setUIError (e : string) : AppState -> AppState :=
  with_ui (UIState.setError (Some e)).

Definition clearUIError : AppState -> AppState := with_ui UIState.clearError.

Definition updatePdfState (updates : list PdfState.Field) : AppState -> AppState :=
  with_pdf (PdfState.updatePdfState updates).

(** *** The callbacks the page passes to each hook *)

(** [useApiState({ onError: setUIError, onSuccess: () => { clearUIError();
    scrollToDualPanes() } })]; scrolling the window changes no state. *)
Definition bindApi (a : AppState) (c : ApiState.Call) : AppState :=
  match c with
  | ApiState.SetIsLoading _ | ApiState.SetInsights _ =>
      with_api (fun s => ApiState.apply s c) a
  | ApiState.OnError e => setUIError e a
  | ApiState.OnSuccess _ => clearUIError a
  | ApiState.Fetch _ _ _ | ApiState.ConsoleError _ => a
  end.

Definition runApi (calls : list ApiState.Call) (a : AppState) : AppState :=
  fold_left bindApi calls a.

(** [useUploadState({ onSuccess: fileName => updatePdfState({ fileName }) })] *)
Definition bindUpload (a : AppState) (c : UploadState.Call) : AppState :=
  match c with
  | UploadState.OnSuccess fileName => updatePdfState [PdfState.FileName (Some fileName)] a
  | UploadState.ConsoleError _ => a
  end.

(** [usePreloadState({ onError: setUIError, onSuccess: (fileName, insights) =>
    { updatePdfState({ fileName }); setTestInsights(insights);
    scrollToDualPanes() } })] *)
Definition bindPreload (a : AppState) (c : PreloadState.Call) : AppState :=
  match c with
  | PreloadState.OnError e => setUIError e a
  | PreloadState.OnSuccess fileName insights =>
      runApi (ApiState.setTestInsights insights)
        (updatePdfState [PdfState.FileName (Some fileName)] a)
  | PreloadState.ConsoleError _ => a
  end.

(** [useDragDrop({ setValue, onUrlModeToggle: handleUrlModeToggle,
    onError: setUIError, ... })] *)
Definition bindDrop (a : AppState) (c : DragDrop.Call) : AppState :=
  match c with
  | DragDrop.SetIsDraggingOver b =>
      mkApp (ui a) (upload a) (api a) (pdf a) (preload a) b
  | DragDrop.OnUrlModeToggle checked => with_upload (UploadState.handleUrlModeToggle checked) a
  | DragDrop.OnError e => setUIError e a
  | DragDrop.SetValue v => with_upload (UploadState.setValue v) a
  end.

(** The props the page passes to [useDragDrop]; [isPreloadMode] is not
    passed and takes its default. *)
Definition dropProps (a : AppState) : DragDrop.Props :=
  DragDrop.mkProps (UploadState.isUrlMode (upload a)) false
    (ApiState.isLoading (api a)) (UploadState.isUrlLoading (upload a))
    UploadState.MAX_FILE_SIZE UploadState.ACCEPTED_FILE_TYPES.

(** *** The effect on [uploadedFile] *)

Definition uploadedFileEffect (w : World) (a : AppState) : AppState :=
  match UploadState.uploadedFile (upload a) with
  | Some (file :: _) =>
      let a1 := updatePdfState [PdfState.FileName (Some (name file))] a in
      match readAsDataURL w file with
      | Loaded result =>
          if Js.truthy result then
            let a2 :=
              updatePdfState
                [PdfState.PdfUrl (Some result); PdfState.CurrentPage 1;
                 PdfState.NumPages None; PdfState.PdfZoom 1.0] a1 in
            let a3 := if Js.truthy_opt (UIState.error (ui a)) then clearUIError a2 else a2 in
            with_upload UploadState.clearErrors a3
          else
            updatePdfState [PdfState.PdfUrl None]
              (setUIError "Failed to read file content. The result was empty." a1)
      | Failed =>
          updatePdfState [PdfState.PdfUrl None]
            (setUIError
               "Error reading the selected file. It might be corrupted or an unsupported format."
               a1)
      end
  | _ =>
      updatePdfState
        [PdfState.FileName None; PdfState.PdfUrl None; PdfState.PdfZoom 1.0;
         PdfState.PdfDisplayWidth None] a
  end.

Definition is_some {A : Type} (o : option A) : bool :=
  match o with Some _ => true | None => false end.

(** The effect runs when the watched form value is a new object: a handler
    stored a file list, or [null] replaced a file list. *)
Definition settle (w : World) (before : option FileList) (storedFiles : bool)
  (a : AppState) : AppState :=
  if storedFiles
     || (is_some before && negb (is_some (UploadState.uploadedFile (upload a))))
  then uploadedFileEffect w a
  else a.

(** *** The page's handlers, each followed by the effect it triggers *)

Definition pickFile (w : World) (files : FileList) (a : AppState) : AppState :=
  settle w (UploadState.uploadedFile (upload a)) true
    (with_upload (UploadState.onInputChange files) a).

Definition storesFiles (c : DragDrop.Call) : bool :=
  match c with DragDrop.SetValue (Some _) => true | _ => false end.

Definition dropFiles (w : World) (files : FileList) (a : AppState) : AppState :=
  let calls := DragDrop.handleDrop (dropProps a) files in
  settle w (UploadState.uploadedFile (upload a)) (existsb storesFiles calls)
    (fold_left bindDrop calls a).

Definition handleUrlModeToggle (w : World) (checked : bool) (a : AppState) : AppState :=
  settle w (UploadState.uploadedFile (upload a)) false
    (with_upload (UploadState.handleUrlModeToggle checked) a).

Definition handlePreloadModeToggle (w : World) (checked : bool) (a : AppState) : AppState :=
  settle w (UploadState.uploadedFile (upload a)) false
    (with_upload (UploadState.handlePreloadModeToggle checked) a).

Definition succeeded (c : UploadState.Call) : bool :=
  match c with UploadState.OnSuccess _ => true | _ => false end.

Definition handleLoadFromUrl (w : World) (a : AppState) : AppState :=
  let (u, calls) :=
    UploadState.handleLoadFromUrl (fetch w) (pathname w) (now w) (upload a) in
  settle w (UploadState.uploadedFile (upload a)) (existsb succeeded calls)
    (fold_left bindUpload calls (with_upload (fun _ => u) a)).

(** [handleFormSubmit]: the next state and the calls [submitPdf] made. *)
Definition handleFormSubmit (env : Env) (w : World) (data : option FileList)
  (a : AppState) : AppState * list ApiState.Call :=
  match data with
  | Some (file :: _) =>
      let calls := ApiState.submitPdf (backendBaseUrl env) (post w) file in
      (runApi calls (clearUIError a), calls)
  | _ => (setUIError "No PDF file selected or loaded to analyze." a, [])
  end.

(** The form's [onSubmit]: [handleSubmit(handleFormSubmit)]. *)
Definition submit (env : Env) (w : World) (a : AppState) : AppState * list ApiState.Call :=
  let (u, data) := UploadState.validateOnSubmit (upload a) in
  let a1 := with_upload (fun _ => u) a in
  match data with
  | Some d => handleFormSubmit env w d a1
  | None => (a1, [])
  end.

(** With the preload feature off, [loadPreloadedPaper] is [async () => null]. *)
Definition handleLoadPreloadedPaper (env : Env) (w : World) (paperId : string)
  (a : AppState) : AppState :=
  if isPreloadEnabled env then
    let '(p, calls, file) :=
      PreloadState.loadPreloadedPaper (fetch w) paperId (preload a) in
    let a1 := fold_left bindPreload calls (with_preload (fun _ => p) a) in
    match file with
    | Some f =>
        settle w (UploadState.uploadedFile (upload a)) true
          (with_upload (UploadState.handleSetPreloadedFile f) a1)
    | None => a1
    end
  else a.

(** [selectedPaper] as the page sees it: the constant [null] when the
    preload feature is off. *)
Definition selectedPaper (env : Env) (a : AppState) : option string :=
  if isPreloadEnabled env then PreloadState.selectedPaper (preload a) else None.

Definition clearPreloadedPaper (env : Env) : AppState -> AppState :=
  if isPreloadEnabled env then with_preload PreloadState.clearPreloadedPaper
  else fun a => a.

Definition handleClearSelectionWithInsights (env : Env) (w : World) (a : AppState)
  : AppState :=
  let wasPreloadMode :=
    UploadState.isPreloadMode (upload a) && Js.truthy_opt (selectedPaper env a) in
  let cleared (a : AppState) : AppState :=
    clearUIError
      (clearPreloadedPaper env
         (with_pdf PdfState.clearPdfState (runApi ApiState.clearInsights a))) in
  settle w (UploadState.uploadedFile (upload a)) false
    (if wasPreloadMode then
       with_upload UploadState.clearErrors
         (with_upload (UploadState.setValue None) (cleared a))
     else cleared (with_upload UploadState.handleClearSelection a)).

(** The props the page passes to [InsightsViewer]. *)
Definition viewerProps (env : Env) (a : AppState) : InsightsViewer.Props :=
  InsightsViewer.mkProps (ApiState.insights (api a)) (ApiState.isLoading (api a))
    (UploadState.isUrlLoading (upload a)) (isTestingEnabled env).

(** What it is for the report pane to show the report [X]: [X] is the stored
    insights, the body renders it as markdown, the two text-size buttons and
    the save button are rendered, the save button downloads [X], and the
    test-content loader is rendered exactly when testing is enabled. *)
Definition showsReport (env : Env) (textSize : Z) (a : AppState) (X : string) : Prop :=
  let view := InsightsViewer.render (isTestingEnabled env) textSize (viewerProps env a) in
  ApiState.insights (api a) = Some X
  /\ InsightsViewer.body view = InsightsViewer.Markdown X textSize
  /\ InsightsViewer.textSizeControlsShown view = true
  /\ InsightsViewer.saveButton view = true
  /\ InsightsViewer.handleSaveInsights (viewerProps env a) = Some X
  /\ InsightsViewer.testLoader view = isTestingEnabled env.

(** What it is for the page to have rejected a drop: no file in the form and
    a non-empty error on screen. *)
Definition dropRejected (a : AppState) : Prop :=
  UploadState.uploadedFile (upload a) = None
  /\ exists message,
       message <> ""
       /\ UIState.error (ui a) = Some message
       /\ UIState.alertShown (UploadState.formError (upload a)) (ui a) = Some message.

(** What the two panes display: the report, the previewed document and its
    name, and the file behind them. *)
Definition displayed (a : AppState)
  : option string * option string * option string * option FileList :=
  (ApiState.insights (api a), PdfState.pdfUrl (pdf a), PdfState.fileName (pdf a),
   UploadState.uploadedFile (upload a)).

(** *** User actions *)

Inductive Action :=
| PickFile (files : FileList)
| DropFiles (files : FileList)
| UrlModeToggle (checked : bool)
| PreloadModeToggle (checked : bool)
| TypeUrl (value : string)
| LoadFromUrl
| LoadPreloadedPaper (paperId : string)
| Submit
| ClearSelection.

Definition step (env : Env) (w : World) (a : AppState) (act : Action) : AppState :=
  match act with
  | PickFile files => pickFile w files a
  | DropFiles files => dropFiles w files a
  | UrlModeToggle checked => handleUrlModeToggle w checked a
  | PreloadModeToggle checked => handlePreloadModeToggle w checked a
  | TypeUrl value => with_upload (UploadState.setPdfUrlInputValue value) a
  | LoadFromUrl => handleLoadFromUrl w a
  | LoadPreloadedPaper paperId => handleLoadPreloadedPaper env w paperId a
  | Submit => fst (submit env w a)
  | ClearSelection => handleClearSelectionWithInsights env w a
  end.

Definition run (env : Env) (w : World) (acts : list Action) (a : AppState) : AppState :=
  fold_left (step env w) acts a.

Definition is_clear (act : Action) : bool :=
  match act with ClearSelection => true | _ => false end.

(** The two mode flags of the upload form. *)
Definition mode (a : AppState) : bool * bool :=
  (UploadState.isUrlMode (upload a), UploadState.isPreloadMode (upload a)).

(** What is downstream of a loaded file: the form value, the preview state,
    and the requests a submit sends. *)
Definition downstream (env : Env) (w : World) (a : AppState)
  : option FileList * PdfState.PdfState * list (string * string * ApiState.FormData) :=
  (UploadState.uploadedFile (upload a), pdf a, ApiState.requests (snd (submit env w a))).

End Page.

(** ** [page.tsx]: the controls on screen and what they allow *)

Module PageControls.

Import Files.

(** *** The preview's controls *)

(** The [keydown] listener [page.tsx] attaches besides the hook's own. *)
Definition handleKeyDown (scrollArea : option Q) (event : PdfState.KeyEvent)
  (s : PdfState.PdfState) : option (list PdfState.Field) :=
  if negb (PdfState.documentLoaded s) then None
  else if PdfState.targetEditable event then None
  else if String.eqb (PdfState.key event) "ArrowLeft" then
    if 1 <? PdfState.currentPage s then Some (PdfState.prevPageUpdates scrollArea s)
    else None
  else if String.eqb (PdfState.key event) "ArrowRight" then
    if PdfState.beforeLastPage s then Some (PdfState.nextPageUpdates scrollArea s)
    else None
  else None.

Definition written (handled : option (list PdfState.Field)) : list PdfState.Field :=
  match handled with Some updates => updates | None => [] end.

(** One key press: both listeners hear the event, the hook's first, each
    with the state of the same render; their updates are merged in turn.
    The result is the next state and whether [preventDefault] was called. *)
Definition keyPress (scrollArea : option Q) (event : PdfState.KeyEvent)
  (s : PdfState.PdfState) : PdfState.PdfState * bool :=
  let first := PdfState.handleKeyDown scrollArea event s in
  let second := handleKeyDown scrollArea event s in
  (PdfState.updatePdfState (written first ++ written second) s,
   Page.is_some first || Page.is_some second).

(** The toolbar above the preview is rendered while a document is loaded;
    these are the [disabled] attributes of its buttons. *)
Definition toolbarShown (s : PdfState.PdfState) : bool := PdfState.documentLoaded s.

Definition prevDisabled (s : PdfState.PdfState) : bool := PdfState.currentPage s <=? 1.

Definition nextDisabled (s : PdfState.PdfState) : bool :=
  match PdfState.numPages s with
  | Some n => n <=? PdfState.currentPage s
  | None => false
  end.

Definition zoomOutDisabled (s : PdfState.PdfState) : bool :=
  PrimFloat.leb (PdfState.pdfZoom s) PdfState.MIN_ZOOM.

Definition zoomInDisabled (s : PdfState.PdfState) : bool :=
  PrimFloat.leb PdfState.MAX_ZOOM (PdfState.pdfZoom s).

(** [pdfState.pdfUrl && pdfState.pdfDisplayWidth]: the [Document] is
    rendered. *)
Definition documentShown (s : PdfState.PdfState) : bool :=
  Js.truthy_opt (PdfState.pdfUrl s)
  && match PdfState.pdfDisplayWidth s with Some w => negb (w =? 0) | None => false end.

(** *** The upload form's controls *)

Definition busy (a : Page.AppState) : bool :=
  ApiState.isLoading (Page.api a) || UploadState.isUrlLoading (Page.upload a).

(** [isPreloadEnabled && isPreloadMode && selectedPaper] *)
Definition preloadedShown (env : Page.Env) (a : Page.AppState) : bool :=
  Page.isPreloadEnabled env
  && UploadState.isPreloadMode (Page.upload a)
  && Js.truthy_opt (Page.selectedPaper env a).

Definition fileInputDisabled (a : Page.AppState) : bool :=
  busy a || UploadState.isUrlMode (Page.upload a) || UploadState.isPreloadMode (Page.upload a).

Definition urlSwitchDisabled (env : Page.Env) (a : Page.AppState) : bool :=
  busy a || UploadState.isUrlModeDisabled (Page.selectedPaper env a) (Page.upload a).

Definition preloadSwitchDisabled (a : Page.AppState) : bool :=
  busy a || UploadState.isPreloadModeDisabled (Page.upload a).

Definition loadFromUrlDisabled (a : Page.AppState) : bool :=
  busy a || negb (Js.truthy (Js.trim (UploadState.pdfUrlInputValue (Page.upload a)))).

(** The [isDisabled] prop of the preload selector: [!!uploadedFile?.[0]] is
    a loaded file. *)
Definition preloadSelectorDisabled (a : Page.AppState) : bool :=
  busy a || loaded (UploadState.uploadedFile (Page.upload a))
  || UploadState.isUrlMode (Page.upload a).

Definition canAnalyze (env : Page.Env) (a : Page.AppState) : bool :=
  loaded (UploadState.uploadedFile (Page.upload a))
  && negb (Page.is_some (UploadState.formError (Page.upload a)))
  && negb (preloadedShown env a).

Definition submitDisabled (env : Page.Env) (a : Page.AppState) : bool :=
  busy a || negb (canAnalyze env a) || preloadedShown env a.

Definition clearShown (env : Page.Env) (a : Page.AppState) : bool :=
  (loaded (UploadState.uploadedFile (Page.upload a)) || preloadedShown env a)
  && negb (Page.is_some (UploadState.formError (Page.upload a))).

(** [isPreloadLoading] as the page sees it: the constant [false] when the
    preload feature is off. *)
Definition isPreloadLoading (env : Page.Env) (a : Page.AppState) : bool :=
  Page.isPreloadEnabled env && PreloadState.isPreloadLoading (Page.preload a).

Definition clearDisabled (env : Page.Env) (a : Page.AppState) : bool :=
  busy a || isPreloadLoading env a.

(** Whether the page lets the user take an action: the control is rendered
    and not disabled.  A switch reports the opposite of what it shows; the
    preload selector offers the listed papers; the drop zone always listens. *)
Definition enabled (env : Page.Env) (a : Page.AppState) (act : Page.Action) : bool :=
  match act with
  | Page.PickFile _ => negb (fileInputDisabled a)
  | Page.DropFiles _ => true
  | Page.UrlModeToggle checked =>
      negb (urlSwitchDisabled env a)
      && Bool.eqb checked (negb (UploadState.isUrlMode (Page.upload a)))
  | Page.PreloadModeToggle checked =>
      Page.isPreloadEnabled env
      && negb (preloadSwitchDisabled a)
      && Bool.eqb checked (negb (UploadState.isPreloadMode (Page.upload a)))
  | Page.TypeUrl _ => UploadState.isUrlMode (Page.upload a) && negb (busy a)
  | Page.LoadFromUrl => UploadState.isUrlMode (Page.upload a) && negb (loadFromUrlDisabled a)
  | Page.LoadPreloadedPaper paperId =>
      Page.isPreloadEnabled env
      && UploadState.isPreloadMode (Page.upload a)
      && negb (preloadSelectorDisabled a)
      && negb (isPreloadLoading env a)
      && existsb (fun p => String.eqb (PreloadState.id p) paperId)
           (PreloadState.preloadedPapers (Page.preload a))
      && Js.truthy paperId
  | Page.Submit => negb (submitDisabled env a)
  | Page.ClearSelection => clearShown env a && negb (clearDisabled env a)
  end.

(** A session: actions taken one after the other, each allowed by the page
    in the state it is taken in; [None] when one of them is not. *)
Fixpoint session (env : Page.Env) (w : Page.World) (acts : list Page.Action)
  (a : Page.AppState) : option Page.AppState :=
  match acts with
  | [] => Some a
  | act :: rest =>
      if enabled env a act then session env w rest (Page.step env w a act) else None
  end.

(** *** The drop zone's gestures *)

(** Everything the user can do to the form: the actions above, and dragging
    over the drop zone, whose handlers are those of [useDragDrop]. *)
Inductive Gesture :=
| Act (act : Page.Action)
| DragEnter (items : list DragDrop.ItemKind)
| DragLeave
| DragOver.

Definition gesture (env : Page.Env) (w : Page.World) (a : Page.AppState) (g : Gesture)
  : Page.AppState :=
  match g with
  | Act act => Page.step env w a act
  | DragEnter items =>
      fold_left Page.bindDrop (DragDrop.handleDragEnter (Page.dropProps a) items) a
  | DragLeave => fold_left Page.bindDrop DragDrop.handleDragLeave a
  | DragOver => fold_left Page.bindDrop DragDrop.handleDragOver a
  end.

(** The condition under which the drop zone is drawn highlighted:
    [isDraggingOver && !isUrlMode && !isPreloadMode], on the [isDraggingOver]
    the page takes from [useUploadState]. *)
Definition dropHighlightShown (a : Page.AppState) : bool :=
  UploadState.isDraggingOver (Page.upload a)
  && negb (UploadState.isUrlMode (Page.upload a))
  && negb (UploadState.isPreloadMode (Page.upload a)).

End PageControls.

(** ** Sample data for the worked cases *)

Module Samples.

Import Files.

Definition paperPdf : File := mkFile "paper.pdf" "application/pdf" 1024 "%PDF-1.7 paper".

Definition notesTxt : File := mkFile "notes.txt" "text/plain" 12 "hello, world".

Definition hugePdf : File :=
  mkFile "huge.pdf" "application/pdf" (16 * 1024 * 1024) "%PDF-1.7 huge".

Definition env : Page.Env := Page.mkEnv true true (Some "http://localhost:8000").

Definition processUrl : string := "http://localhost:8000/api/process-pdf/".

Definition jsonResponse (status : Z) (statusText : string) (j : Js.Json) : Net.Response :=
  Net.mkResponse status statusText (Some "application/json") "" 0 (Net.JsonValue j).

(** A backend that answers every upload with [{ insights: "# Summary" }]. *)
Definition summaryBackend (_ : string) (_ : ApiState.FormData) : Net.FetchOutcome :=
  Net.Responded (jsonResponse 200 "OK" (Js.JObj [("insights", Js.JStr "# Summary")])).

(** A backend that answers every upload with [{ insights: "" }]. *)
Definition emptyInsightsBackend (_ : string) (_ : ApiState.FormData) : Net.FetchOutcome :=
  Net.Responded (jsonResponse 200 "OK" (Js.JObj [("insights", Js.JStr "")])).

(** A backend that refuses the upload as too large. *)
Definition tooLargeBackend (_ : string) (_ : ApiState.FormData) : Net.FetchOutcome :=
  Net.Responded
    (jsonResponse 413 "Payload Too Large"
       (Js.JObj [("detail", Js.JStr "File size exceeds the 50MB limit");
                 ("message", Js.JStr "ignored")])).

(** A backend whose OCR step timed out. *)
Definition timedOutBackend (_ : string) (_ : ApiState.FormData) : Net.FetchOutcome :=
  Net.Responded
    (jsonResponse 504 "Gateway Timeout" (Js.JObj [("detail", Js.JStr "OCR request timed out")])).

(** A site on which nothing is found. *)
Definition noPage (_ : string) : Net.FetchOutcome :=
  Net.Responded
    (Net.mkResponse 404 "Not Found" (Some "text/html") "" 0
       (Net.JsonThrows "Unexpected end of JSON input")).

Definition attention : PreloadState.PreloadedPaper :=
  PreloadState.mkPaper "attention" "Attention Is All You Need" "attention".

(** The client's own static site, as far as the bundled example goes. *)
Definition preloadSite (url : string) : Net.FetchOutcome :=
  if (url =? "/data/preload/PDF/attention.pdf")%string then
    Net.Responded
      (Net.mkResponse 200 "OK" (Some "application/pdf") "%PDF-1.7 attention" 2215244
         (Net.JsonThrows "Unexpected token % in JSON at position 0"))
  else if (url =? "/data/preload/MD/attention.md")%string then
    Net.Responded
      (Net.mkResponse 200 "OK" (Some "text/markdown") "# Attention Is All You Need" 27
         (Net.JsonThrows "Unexpected token # in JSON at position 0"))
  else noPage url.

(** A host that serves one paper. *)
Definition paperHost (url : string) : Net.FetchOutcome :=
  if (url =? "https://example.org/papers/gpt-1")%string then
    Net.Responded
      (Net.mkResponse 200 "OK" (Some "application/pdf; charset=binary")
         "%PDF-1.7 paper" 1024 (Net.JsonThrows "Unexpected token % in JSON at position 0"))
  else noPage url.

(** All the samples need of the URL parser: the path of a plain absolute
    http address without query or fragment is everything from its third
    slash on. *)
Fixpoint fromSlash (n : nat) (s : string) : string :=
  match s with
  | EmptyString => "/"
  | String c rest =>
      if Ascii.eqb c "/" then
        match n with
        | O => s
        | S n' => fromSlash n' rest
        end
      else fromSlash n rest
  end.

Definition pathnameOfHttp (url : string) : option string :=
  if Js.startsWith url "http" then Some (fromSlash 2 url) else None.

(** A reader that succeeds.  The samples write the bytes into the data URL
    as they are: the page only needs a non-empty string that stands for the
    file's content. *)
Definition dataUrl (file : File) : Page.ReadResult :=
  Page.Loaded ("data:" ++ type file ++ ";base64," ++ data file).

Definition world
  (fetch : string -> Net.FetchOutcome)
  (post : string -> ApiState.FormData -> Net.FetchOutcome) : Page.World :=
  Page.mkWorld fetch post pathnameOfHttp 1762128000000 dataUrl.

(** The page with [paper.pdf] picked, and the same page while the analysis
    request is in flight. *)
Definition loadedApp : Page.AppState :=
  Page.pickFile (world noPage summaryBackend) [paperPdf] (Page.initial false).

Definition analysingApp : Page.AppState :=
  Page.with_api (fun s => ApiState.apply s (ApiState.SetIsLoading true)) loadedApp.

(** The page in URL mode with [url] typed into the URL field. *)
Definition urlTyped (url : string) : Page.AppState :=
  Page.with_upload (UploadState.setPdfUrlInputValue url)
    (Page.with_upload (UploadState.handleUrlModeToggle true) (Page.initial false)).

(** The demo deployment: protection on, with the demo credentials. *)
Definition protectedEnv : Middleware.Env :=
  Middleware.mkEnv (Some "true") (Some "review") (Some "review").

(** The page in preload mode once the list of bundled papers has arrived. *)
Definition preloadReady : Page.AppState :=
  Page.with_preload (fun p => PreloadState.mkPreloadState None false [attention])
    (Page.initial true).

(** A three-page document shown on its first page, scrolled to the top when
    the scroll position was last saved. *)
Definition firstPageOfThree : PdfState.PdfState :=
  PdfState.mkPdfState (Some "data:application/pdf;base64,JVBERi0=") (Some 3) 1
    (Some "paper.pdf") (Some 600) 1.0 0 0.

End Samples.

(** * Properties *)

(** ** Comparisons of binary64 numbers *)

Section FloatFacts.

Lemma SFcompare_refl (x : spec_float) : x <> S754_nan -> SFcompare x x = Some Eq.
Proof.
  destruct x as [s | s | | s m e]; cbn; intros H; try reflexivity.
  - now destruct s.
  - congruence.
  - rewrite Z.compare_refl. change (PosDef.Pos.compare_cont Eq m m) with (Pos.compare m m).
    rewrite Pos.compare_refl. now destruct s.
Qed.

Lemma SFcompare_antisym (x y : spec_float) (c : comparison) :
  SFcompare x y = Some c -> SFcompare y x = Some (CompOpp c).
Proof.
  destruct x as [sx | sx | | sx mx ex], y as [sy | sy | | sy my ey]; cbn;
    try discriminate; intros [= <-]; try (destruct sx; reflexivity);
    try (destruct sy; reflexivity); try (destruct sx, sy; reflexivity).
  rewrite (Z.compare_antisym ex ey).
  change (PosDef.Pos.compare_cont Eq my mx) with (Pos.compare my mx).
  change (PosDef.Pos.compare_cont Eq mx my) with (Pos.compare mx my).
  rewrite (Pos.compare_antisym mx my).
  destruct sx, sy, (ex ?= ey); cbn; try reflexivity; now destruct (mx ?= my)%positive.
Qed.

Lemma SFcompare_some (x y : spec_float) :
  x <> S754_nan -> y <> S754_nan -> exists c, SFcompare x y = Some c.
Proof.
  destruct x, y; cbn; intros Hx Hy; try congruence; eauto.
Qed.

Lemma is_nan_false (a : float) : PrimFloat.is_nan a = false <-> Prim2SF a <> S754_nan.
Proof.
  unfold PrimFloat.is_nan. rewrite negb_false_iff, FloatAxioms.eqb_spec. unfold SFeqb. split.
  - intros H E. rewrite E in H. discriminate H.
  - intros H. now rewrite (SFcompare_refl _ H).
Qed.

Lemma ltb_leb (a b : float) : PrimFloat.ltb a b = true -> PrimFloat.leb a b = true.
Proof.
  rewrite ltb_spec, leb_spec. unfold SFltb, SFleb.
  now destruct (SFcompare (Prim2SF a) (Prim2SF b)) as [[| |] |].
Qed.

Lemma not_ltb_leb (a b : float) :
  PrimFloat.is_nan a = false -> PrimFloat.is_nan b = false ->
  PrimFloat.ltb a b = false -> PrimFloat.leb b a = true.
Proof.
  rewrite !is_nan_false, ltb_spec, leb_spec. unfold SFltb, SFleb. intros Ha Hb.
  destruct (SFcompare_some _ _ Ha Hb) as (c & Hc).
  rewrite Hc, (SFcompare_antisym _ _ _ Hc). now destruct c.
Qed.

Lemma leb_not_ltb (a b : float) : PrimFloat.leb a b = true -> PrimFloat.ltb b a = false.
Proof.
  rewrite ltb_spec, leb_spec. unfold SFltb, SFleb.
  destruct (SFcompare (Prim2SF a) (Prim2SF b)) as [c |] eqn:Hc; [| discriminate].
  rewrite (SFcompare_antisym _ _ _ Hc). now destruct c.
Qed.

Lemma leb_numbers (a b : float) :
  PrimFloat.leb a b = true -> PrimFloat.is_nan a = false /\ PrimFloat.is_nan b = false.
Proof.
  rewrite leb_spec, !is_nan_false. unfold SFleb.
  destruct (Prim2SF a), (Prim2SF b); cbn; try discriminate; intros _; split; discriminate.
Qed.

Lemma ltb_numbers (a b : float) :
  PrimFloat.ltb a b = true -> PrimFloat.is_nan a = false /\ PrimFloat.is_nan b = false.
Proof. intros H. now apply leb_numbers, ltb_leb. Qed.

(** Two numbers neither of which is below the other are the same number when
    one of them is finite and not zero. *)
Lemma tie_is_equal (a b : float) (s : bool) (m : positive) (e : Z) :
  Prim2SF b = S754_finite s m e ->
  PrimFloat.is_nan a = false ->
  PrimFloat.ltb a b = false -> PrimFloat.ltb b a = false -> a = b.
Proof.
  intros Hb Ha. rewrite !ltb_spec. unfold SFltb. intros Hab Hba.
  apply Prim2SF_inj. rewrite Hb in *. apply is_nan_false in Ha.
  destruct (SFcompare_some (Prim2SF a) (S754_finite s m e) Ha ltac:(discriminate)) as (c & Hc).
  rewrite Hc in Hab. rewrite (SFcompare_antisym _ _ _ Hc) in Hba.
  destruct c; try discriminate. clear Hab Hba.
  destruct (Prim2SF a) as [sa | sa | | sa ma ea]; cbn in Hc.
  - destruct s; discriminate.
  - destruct sa, s; discriminate.
  - discriminate.
  - change (PosDef.Pos.compare_cont Eq ma m) with (Pos.compare ma m) in Hc.
    destruct sa, s; try discriminate;
      destruct (Z.compare_spec ea e) as [-> | |]; try discriminate;
      destruct (Pos.compare_spec ma m) as [-> | |]; try discriminate; reflexivity.
Qed.

End FloatFacts.

(** ** The PDF preview state *)

Section PdfStateFacts.

Import PdfState.

Lemma min_with_max_zoom (v : float) :
  PrimFloat.is_nan v = false ->
  PrimFloat.is_nan (Js.Math_min MAX_ZOOM v) = false
  /\ PrimFloat.leb (Js.Math_min MAX_ZOOM v) MAX_ZOOM = true.
Proof.
  intros Hv. unfold Js.Math_min.
  replace (PrimFloat.is_nan MAX_ZOOM) with false by reflexivity. rewrite Hv. cbn [orb].
  destruct (PrimFloat.ltb MAX_ZOOM v) eqn:A; [split; reflexivity |].
  destruct (PrimFloat.ltb v MAX_ZOOM) eqn:B; [split; [exact Hv | now apply ltb_leb] |].
  replace (PrimFloat.get_sign MAX_ZOOM) with false by reflexivity.
  split; [exact Hv | now apply not_ltb_leb].
Qed.

Lemma clamp_in_range (v : float) :
  PrimFloat.is_nan v = false -> zoom_in_range (Js.Math_max MIN_ZOOM (Js.Math_min MAX_ZOOM v)).
Proof.
  intros Hv. destruct (min_with_max_zoom v Hv) as [Hn Hle].
  unfold zoom_in_range. generalize dependent (Js.Math_min MAX_ZOOM v). intros m Hn Hle.
  unfold Js.Math_max.
  replace (PrimFloat.is_nan MIN_ZOOM) with false by reflexivity. rewrite Hn. cbn [orb].
  destruct (PrimFloat.ltb MIN_ZOOM m) eqn:A; [split; [now apply ltb_leb | exact Hle] |].
  destruct (PrimFloat.ltb m MIN_ZOOM) eqn:B; [split; reflexivity |].
  replace (PrimFloat.get_sign MIN_ZOOM) with false by reflexivity. split; reflexivity.
Qed.

(** A number that is not above the lower bound is below the upper one. *)
Lemma below_min_is_below_max (v : float) :
  PrimFloat.leb v MIN_ZOOM = true -> PrimFloat.ltb v MAX_ZOOM = true.
Proof.
  rewrite leb_spec, ltb_spec. unfold SFleb, SFltb.
  replace (Prim2SF MIN_ZOOM) with (S754_finite false 7205759403792794 (-56))
    by (vm_compute; reflexivity).
  replace (Prim2SF MAX_ZOOM) with (S754_finite false 4503599627370496 (-51))
    by (vm_compute; reflexivity).
  destruct (Prim2SF v) as [s | s | | s m e]; cbv beta iota delta [SFcompare].
  - now destruct s.
  - now destruct s.
  - discriminate.
  - destruct s; [reflexivity |].
    destruct (Z.compare_spec e (-56)) as [-> | Hlt | Hgt]; try discriminate.
    + intros _. reflexivity.
    + intros _. destruct (Z.compare_spec e (-51)) as [-> | _ | Hgt]; [lia | reflexivity | lia].
Qed.

Lemma knownZoom_In (z : float) (l : list float) : knownZoom z l = true <-> In z l.
Proof.
  unfold knownZoom. rewrite existsb_exists. split.
  - intros (y & Hin & Hy). apply FloatAxioms.Leibniz.eqb_spec in Hy. now subst.
  - intros Hin. exists z. split; [exact Hin | now apply FloatAxioms.Leibniz.eqb_spec].
Qed.

(** The listed zoom factors are those within eighteen clicks; they hold the
    reset value and the menu's entries and are closed under both step
    buttons. *)
Lemma toolbarZooms_computed : toolbarZooms = zoomsWithin 18.
Proof. vm_compute. reflexivity. Qed.

Lemma toolbarZooms_seeds :
  forallb (fun z => knownZoom z toolbarZooms) (pdfZoom initial :: zoomPresets) = true.
Proof. vm_compute. reflexivity. Qed.

Lemma toolbarZooms_up :
  forallb (fun z => knownZoom (Js.Math_min (PrimFloat.add z ZOOM_STEP) MAX_ZOOM) toolbarZooms)
    toolbarZooms = true.
Proof. vm_compute. reflexivity. Qed.

Lemma toolbarZooms_down :
  forallb (fun z => knownZoom (Js.Math_max (PrimFloat.sub z ZOOM_STEP) MIN_ZOOM) toolbarZooms)
    toolbarZooms = true.
Proof. vm_compute. reflexivity. Qed.

(** Each of them is within the bounds, and is at a bound exactly when the
    step towards that bound leaves it as it is. *)
Lemma toolbarZooms_bounds :
  forallb (fun z => PrimFloat.leb MIN_ZOOM z && PrimFloat.leb z MAX_ZOOM) toolbarZooms = true.
Proof. vm_compute. reflexivity. Qed.

Lemma toolbarZooms_floor :
  forallb
    (fun z =>
       Bool.eqb (PrimFloat.leb z MIN_ZOOM)
         (PrimFloat.Leibniz.eqb (Js.Math_max (PrimFloat.sub z ZOOM_STEP) MIN_ZOOM) z))
    toolbarZooms = true.
Proof. vm_compute. reflexivity. Qed.

Lemma toolbarZooms_ceiling :
  forallb
    (fun z =>
       Bool.eqb (PrimFloat.leb MAX_ZOOM z)
         (PrimFloat.Leibniz.eqb (Js.Math_min (PrimFloat.add z ZOOM_STEP) MAX_ZOOM) z))
    toolbarZooms = true.
Proof. vm_compute. reflexivity. Qed.

(** What is known of a listed zoom factor. *)
Lemma zoom_within_facts (z : float) :
  In z toolbarZooms ->
  In (Js.Math_min (PrimFloat.add z ZOOM_STEP) MAX_ZOOM) toolbarZooms
  /\ In (Js.Math_max (PrimFloat.sub z ZOOM_STEP) MIN_ZOOM) toolbarZooms
  /\ zoom_in_range z
  /\ (PrimFloat.leb z MIN_ZOOM = true
      <-> Js.Math_max (PrimFloat.sub z ZOOM_STEP) MIN_ZOOM = z)
  /\ (PrimFloat.leb MAX_ZOOM z = true
      <-> Js.Math_min (PrimFloat.add z ZOOM_STEP) MAX_ZOOM = z).
Proof.
  intros Hin.
  pose proof (proj1 (forallb_forall _ _) toolbarZooms_up z Hin) as Hup.
  pose proof (proj1 (forallb_forall _ _) toolbarZooms_down z Hin) as Hdown.
  pose proof (proj1 (forallb_forall _ _) toolbarZooms_bounds z Hin) as Hb.
  pose proof (proj1 (forallb_forall _ _) toolbarZooms_floor z Hin) as Hf.
  pose proof (proj1 (forallb_forall _ _) toolbarZooms_ceiling z Hin) as Hc.
  cbv beta in Hup, Hdown, Hb, Hf, Hc.
  apply knownZoom_In in Hup. apply knownZoom_In in Hdown.
  destruct (proj1 (andb_true_iff _ _) Hb) as [Hlo Hhi].
  apply Bool.eqb_prop in Hf. apply Bool.eqb_prop in Hc.
  split; [exact Hup | split; [exact Hdown | split; [now split | split]]].
  - rewrite <- FloatAxioms.Leibniz.eqb_spec, Hf. reflexivity.
  - rewrite <- FloatAxioms.Leibniz.eqb_spec, Hc. reflexivity.
Qed.

Lemma preset_is_kept (v : float) :
  In v zoomPresets -> Js.Math_max MIN_ZOOM (Js.Math_min MAX_ZOOM v) = v.
Proof. intros H. repeat (destruct H as [<- | H]; [reflexivity |]). destruct H. Qed.

Lemma zoom_step_within (r : ZoomRequest) (s : PdfState) :
  fromToolbar r -> In (pdfZoom s) toolbarZooms ->
  In (pdfZoom (zoom_step r s)) toolbarZooms.
Proof.
  intros Hr Hin. pose proof (proj1 (forallb_forall _ _) toolbarZooms_seeds) as Hseeds.
  destruct r as [| | | v].
  - exact (proj1 (zoom_within_facts _ Hin)).
  - exact (proj1 (proj2 (zoom_within_facts _ Hin))).
  - apply knownZoom_In. apply (Hseeds (pdfZoom initial)). left. reflexivity.
  - change (pdfZoom (zoom_step (SetZoom v) s))
      with (Js.Math_max MIN_ZOOM (Js.Math_min MAX_ZOOM v)).
    rewrite (preset_is_kept v Hr). apply knownZoom_In. apply (Hseeds v). right. exact Hr.
Qed.

(** Every zoom factor the toolbar can reach is listed. *)
Lemma toolbar_zoom_within (z : float) : toolbarZoom z -> In z toolbarZooms.
Proof.
  intros (requests & Hall & ->).
  assert (Hstart : In (pdfZoom initial) toolbarZooms).
  { apply knownZoom_In.
    apply (proj1 (forallb_forall _ _) toolbarZooms_seeds (pdfZoom initial)). left. reflexivity. }
  revert Hstart. generalize initial.
  induction Hall as [| r requests Hr Hall IH]; intros t Ht; [exact Ht |].
  cbn [fold_left]. apply IH. now apply zoom_step_within.
Qed.

Lemma toolbar_zoom_step (r : ZoomRequest) (s : PdfState) :
  fromToolbar r -> toolbarZoom (pdfZoom s) -> toolbarZoom (pdfZoom (zoom_step r s)).
Proof.
  intros Hr (requests & Hall & Hz). exists (requests ++ [r])%list. split.
  - apply Forall_app. split; [exact Hall | now constructor].
  - rewrite fold_left_app. cbn [fold_left].
    generalize dependent (fold_left (fun t r0 => zoom_step r0 t) requests initial).
    intros t Hz.
    destruct r; unfold zoom_step, handleZoomIn, handleZoomOut, handleResetZoom, handleSetZoom,
      updatePdfState; cbn [fold_left set_field pdfZoom]; now rewrite ?Hz.
Qed.

(** C8, as stated, fails: [onSetZoom(NaN)] yields [NaN], which is within no
    bounds; and a step is the binary64 sum, which is not always the decimal
    one: zooming in from 0.2 gives 0.30000000000000004, and nine steps down
    from 1 end at 0.10000000000000014, above the lower bound. *)
Lemma set_zoom_of_nan_is_not_clamped :
  let z := pdfZoom (handleSetZoom PrimFloat.nan initial) in
  let nineDown := pdfZoom (fold_left (fun t r => zoom_step r t) (repeat ZoomOut 9) initial) in
  PrimFloat.is_nan z = true
  /\ PrimFloat.leb MIN_ZOOM z = false
  /\ PrimFloat.leb z MAX_ZOOM = false
  /\ pdfZoom (handleZoomIn (handleSetZoom 0.2 initial)) = 0.30000000000000004%float
  /\ PrimFloat.eqb 0.30000000000000004 0.3 = false
  /\ nineDown = 0.10000000000000014%float
  /\ PrimFloat.leb nineDown MIN_ZOOM = false.
Proof. cbv zeta. repeat split; vm_compute; reflexivity. Qed.

(** C8, amended: with the sum and the difference of binary64 numbers and
    [Math.min] and [Math.max], zooming in from [z] gives
    [min (z + 0.1) 2.0], zooming out gives [max (z - 0.1) 0.1] and setting
    the zoom to [v] gives [max 0.1 (min 2.0 v)].  A zoom set to any number
    (anything but [NaN]) is within [0.1, 2.0]; every zoom factor the toolbar
    can reach is within these bounds, and so are the steps from it; and a
    request beyond a bound gives exactly that bound. *)
Theorem zoom_clamped_and_stepped (s : PdfState) (v : float) :
  pdfZoom (handleZoomIn s) = Js.Math_min (PrimFloat.add (pdfZoom s) 0.1) 2.0
  /\ pdfZoom (handleZoomOut s) = Js.Math_max (PrimFloat.sub (pdfZoom s) 0.1) 0.1
  /\ pdfZoom (handleSetZoom v s) = Js.Math_max 0.1 (Js.Math_min 2.0 v)
  /\ (PrimFloat.is_nan v = false -> zoom_in_range (pdfZoom (handleSetZoom v s)))
  /\ (toolbarZoom (pdfZoom s) ->
      zoom_in_range (pdfZoom s)
      /\ zoom_in_range (pdfZoom (handleZoomIn s))
      /\ zoom_in_range (pdfZoom (handleZoomOut s)))
  /\ (PrimFloat.leb 2.0 (PrimFloat.add (pdfZoom s) 0.1) = true ->
      pdfZoom (handleZoomIn s) = 2.0%float)
  /\ (PrimFloat.leb (PrimFloat.sub (pdfZoom s) 0.1) 0.1 = true ->
      pdfZoom (handleZoomOut s) = 0.1%float)
  /\ (PrimFloat.leb 2.0 v = true -> pdfZoom (handleSetZoom v s) = 2.0%float)
  /\ (PrimFloat.leb v 0.1 = true -> pdfZoom (handleSetZoom v s) = 0.1%float).
Proof.
  split; [reflexivity | split; [reflexivity | split; [reflexivity |]]].
  split; [intros Hv; now apply clamp_in_range |].
  split.
  { intros Ht. pose proof (toolbar_zoom_within _ Ht) as Hin.
    destruct (zoom_within_facts _ Hin) as (Hup & Hdown & Hr & _).
    split; [exact Hr | split].
    - exact (proj1 (proj2 (proj2 (zoom_within_facts _ Hup)))).
    - exact (proj1 (proj2 (proj2 (zoom_within_facts _ Hdown)))). }
  split; [| split; [| split]].
  - intros H. change (pdfZoom (handleZoomIn s))
      with (Js.Math_min (PrimFloat.add (pdfZoom s) ZOOM_STEP) MAX_ZOOM).
    change (PrimFloat.leb MAX_ZOOM (PrimFloat.add (pdfZoom s) ZOOM_STEP) = true) in H.
    generalize dependent (PrimFloat.add (pdfZoom s) ZOOM_STEP). intros a H.
    destruct (leb_numbers _ _ H) as [_ Ha]. unfold Js.Math_min. rewrite Ha.
    replace (PrimFloat.is_nan MAX_ZOOM) with false by reflexivity. cbn [orb].
    rewrite (leb_not_ltb _ _ H).
    destruct (PrimFloat.ltb MAX_ZOOM a) eqn:B; [reflexivity |].
    rewrite (tie_is_equal a MAX_ZOOM false 4503599627370496 (-51)
               ltac:(vm_compute; reflexivity) Ha (leb_not_ltb _ _ H) B).
    reflexivity.
  - intros H. change (pdfZoom (handleZoomOut s))
      with (Js.Math_max (PrimFloat.sub (pdfZoom s) ZOOM_STEP) MIN_ZOOM).
    change (PrimFloat.leb (PrimFloat.sub (pdfZoom s) ZOOM_STEP) MIN_ZOOM = true) in H.
    generalize dependent (PrimFloat.sub (pdfZoom s) ZOOM_STEP). intros b H.
    destruct (leb_numbers _ _ H) as [Hb _]. unfold Js.Math_max. rewrite Hb.
    replace (PrimFloat.is_nan MIN_ZOOM) with false by reflexivity. cbn [orb].
    destruct (PrimFloat.ltb b MIN_ZOOM) eqn:A; [reflexivity |].
    rewrite (leb_not_ltb _ _ H).
    rewrite (tie_is_equal b MIN_ZOOM false 7205759403792794 (-56)
               ltac:(vm_compute; reflexivity) Hb A (leb_not_ltb _ _ H)).
    reflexivity.
  - intros H. change (pdfZoom (handleSetZoom v s))
      with (Js.Math_max MIN_ZOOM (Js.Math_min MAX_ZOOM v)).
    change (PrimFloat.leb MAX_ZOOM v = true) in H.
    destruct (leb_numbers _ _ H) as [_ Hv].
    assert (Hm : Js.Math_min MAX_ZOOM v = MAX_ZOOM).
    { unfold Js.Math_min. rewrite Hv.
      replace (PrimFloat.is_nan MAX_ZOOM) with false by reflexivity. cbn [orb].
      destruct (PrimFloat.ltb MAX_ZOOM v) eqn:A; [reflexivity |].
      rewrite (leb_not_ltb _ _ H).
      replace (PrimFloat.get_sign MAX_ZOOM) with false by reflexivity.
      exact (tie_is_equal v MAX_ZOOM false 4503599627370496 (-51)
               ltac:(vm_compute; reflexivity) Hv (leb_not_ltb _ _ H) A). }
    rewrite Hm. reflexivity.
  - intros H. change (pdfZoom (handleSetZoom v s))
      with (Js.Math_max MIN_ZOOM (Js.Math_min MAX_ZOOM v)).
    change (PrimFloat.leb v MIN_ZOOM = true) in H.
    destruct (leb_numbers _ _ H) as [Hv _].
    pose proof (below_min_is_below_max v H) as Hlt.
    assert (Hm : Js.Math_min MAX_ZOOM v = v).
    { unfold Js.Math_min. rewrite Hv.
      replace (PrimFloat.is_nan MAX_ZOOM) with false by reflexivity. cbn [orb].
      rewrite (leb_not_ltb _ _ (ltb_leb _ _ Hlt)). now rewrite Hlt. }
    rewrite Hm. unfold Js.Math_max. rewrite Hv.
    replace (PrimFloat.is_nan MIN_ZOOM) with false by reflexivity. cbn [orb].
    rewrite (leb_not_ltb _ _ H).
    destruct (PrimFloat.ltb v MIN_ZOOM) eqn:A; [reflexivity |].
    replace (PrimFloat.get_sign MIN_ZOOM) with false by reflexivity. reflexivity.
Qed.

Lemma zoom_clamped_and_stepped_witness :
  zoom_in_range (pdfZoom (handleSetZoom 1.95 initial))
  /\ zoom_in_range (pdfZoom (handleZoomIn (handleSetZoom 1.5 initial)))
  /\ pdfZoom (handleZoomIn (handleSetZoom 1.95 initial)) = 2.0%float
  /\ pdfZoom (handleSetZoom 7.5 initial) = 2.0%float
  /\ pdfZoom (handleSetZoom 0.01 initial) = 0.1%float.
Proof.
  pose proof (zoom_clamped_and_stepped initial 1.95) as (_ & _ & _ & Hset & _).
  pose proof (zoom_clamped_and_stepped (handleSetZoom 1.5 initial) 1.5)
    as (_ & _ & _ & _ & Htool & _).
  pose proof (zoom_clamped_and_stepped (handleSetZoom 1.95 initial) 7.5)
    as (_ & _ & _ & _ & _ & Hin & _ & Hhigh & _).
  pose proof (zoom_clamped_and_stepped initial 0.01)
    as (_ & _ & _ & _ & _ & _ & _ & _ & Hlow).
  split; [apply Hset; reflexivity |].
  split; [apply Htool; exists [SetZoom 1.5]; split;
          [repeat constructor; cbn; tauto | reflexivity] |].
  split; [apply Hin; reflexivity |].
  split; [apply Hhigh; reflexivity | apply Hlow; reflexivity].
Defined.

(** [saveScrollPosition] writes the scroll offset and nothing else. *)
Lemma saveScrollPosition_frame (scrollArea : option Q) (s : PdfState) :
  saveScrollPosition scrollArea s =
  mkPdfState (pdfUrl s) (numPages s) (currentPage s) (fileName s)
    (pdfDisplayWidth s) (pdfZoom s)
    (match scrollArea with Some scrollTop => scrollTop | None => scrollPosition s end)
    (resetKey s).
Proof. destruct scrollArea, s; reflexivity. Qed.

(** C9, as stated, fails: on the first page, with the scroll area scrolled
    120 pixels down, [goToPrevPage] leaves the page at 1 but stores 120 as the
    scroll position, so the state is not left unchanged. *)
Lemma goToPrevPage_writes_scroll_position :
  currentPage Samples.firstPageOfThree = 1
  /\ numPages Samples.firstPageOfThree = Some 3
  /\ scrollPosition Samples.firstPageOfThree = 0%Q
  /\ currentPage (fst (goToPrevPage (Some 120%Q) Samples.firstPageOfThree)) = 1
  /\ scrollPosition (fst (goToPrevPage (Some 120%Q) Samples.firstPageOfThree)) = 120%Q
  /\ fst (goToPrevPage (Some 120%Q) Samples.firstPageOfThree) <> Samples.firstPageOfThree.
Proof. repeat split. discriminate. Qed.

(** C9, amended: at either end of a loaded document the page number does not
    move.  [goToPrevPage] on page 1 and [goToNextPage] on the last page keep
    every field of the state but the scroll position, which takes the scroll
    area's current offset when the scroll area is mounted; when it is not,
    the whole state is unchanged. *)
Theorem page_navigation_clamped (scrollArea : option Q) (s : PdfState) (n : Z) :
  numPages s = Some n -> 1 <= n ->
  (currentPage s = 1 ->
   fst (goToPrevPage scrollArea s) = saveScrollPosition scrollArea s
   /\ currentPage (fst (goToPrevPage scrollArea s)) = 1)
  /\ (currentPage s = n ->
      fst (goToNextPage scrollArea s) = saveScrollPosition scrollArea s
      /\ currentPage (fst (goToNextPage scrollArea s)) = n)
  /\ saveScrollPosition None s = s
  /\ (forall scrollTop,
        saveScrollPosition (Some scrollTop) s =
        mkPdfState (pdfUrl s) (numPages s) (currentPage s) (fileName s)
          (pdfDisplayWidth s) (pdfZoom s) scrollTop (resetKey s)).
Proof.
  intros Hn Hpos.
  assert (E : (n =? 0) = false) by (apply Z.eqb_neq; lia).
  split; [| split; [| split]].
  - intros Hc. unfold goToPrevPage. cbn [fst]. rewrite Hc.
    rewrite saveScrollPosition_frame. cbn. now rewrite Hc.
  - intros Hc. unfold goToNextPage, numPages_or_1. cbn [fst]. rewrite Hn, E.
    rewrite saveScrollPosition_frame. cbn. rewrite Hc.
    replace (Z.min (n + 1) n) with n by lia. now rewrite Hn.
  - reflexivity.
  - intros scrollTop. apply saveScrollPosition_frame.
Qed.

Lemma page_navigation_clamped_witness :
  fst (goToPrevPage (Some 120%Q) Samples.firstPageOfThree)
  = saveScrollPosition (Some 120%Q) Samples.firstPageOfThree
  /\ fst (goToNextPage None (updatePdfState [CurrentPage 3] Samples.firstPageOfThree))
     = updatePdfState [CurrentPage 3] Samples.firstPageOfThree.
Proof.
  assert (Three : 1 <= 3) by lia.
  pose proof (page_navigation_clamped (Some 120%Q) Samples.firstPageOfThree 3 eq_refl Three)
    as (Hprev & _).
  pose proof (page_navigation_clamped None
                (updatePdfState [CurrentPage 3] Samples.firstPageOfThree) 3 eq_refl Three)
    as (_ & Hnext & _).
  split.
  - exact (proj1 (Hprev eq_refl)).
  - exact (proj1 (Hnext eq_refl)).
Defined.

(** C10: a successful document load stores the page count; it shows page 1
    when no document was loaded before, and otherwise keeps the current page,
    cut down to the new page count.  No other field changes. *)
Theorem document_load_sets_page (loaded : Z) (s : PdfState) :
  onDocumentLoadSuccess loaded s =
  mkPdfState (pdfUrl s) (Some loaded)
    (match numPages s with
     | None => 1
     | Some _ => Z.min (currentPage s) loaded
     end)
    (fileName s) (pdfDisplayWidth s) (pdfZoom s) (scrollPosition s) (resetKey s).
Proof. unfold onDocumentLoadSuccess. destruct (numPages s); reflexivity. Qed.

End PdfStateFacts.

(** ** The analysis request *)

Section ApiStateFacts.

Import ApiState.

(** The check the handler makes on a parsed body accepts exactly the bodies
    the contract calls a success. *)
Lemma insights_check (j : Js.Json) :
  match (if Js.json_truthy j then Js.get_prop j "insights" else None) with
  | Some (Js.Val (Js.JStr x)) => Some x
  | _ => None
  end = insightsOf j.
Proof.
  destruct j as [| b | repr | str | items | props]; cbn; try reflexivity.
  - now destruct b.
  - now destruct (repr =? "0")%string.
  - now destruct (Js.truthy str).
Qed.

Lemma readInsights_json (r : Net.Response) (j : Js.Json) :
  Net.ok r = true ->
  Net.contentType_includes r "application/json" = true ->
  Net.json r = Net.JsonValue j ->
  readInsights r =
  match insightsOf j with
  | Some x => Net.Return x
  | None => Net.Throw "Invalid JSON response: 'insights' field missing or not a string."
  end.
Proof.
  intros Hok Hct Hj. unfold readInsights. rewrite Hok, Hct, Hj. cbn [negb].
  rewrite <- insights_check.
  destruct (if Js.json_truthy j then Js.get_prop j "insights" else None)
    as [[| [| | | x | |]] |]; reflexivity.
Qed.

Lemma readInsights_text (r : Net.Response) :
  Net.ok r = true ->
  Net.contentType_includes r "application/json" = false ->
  readInsights r =
  if Js.truthy (Net.body r) then Net.Return (Net.body r)
  else Net.Throw "Empty response from API.".
Proof. intros Hok Hct. unfold readInsights. now rewrite Hok, Hct. Qed.

(** A failing run, as the contract describes it, is a run whose [try] block
    is never reached or throws. *)
Lemma failing_throws base fetch file :
  Failing base fetch file ->
  backendApiUrl base = None
  \/ exists url message,
       backendApiUrl base = Some url
       /\ attempt fetch url [("pdf_file", file)] = Net.Throw message.
Proof.
  intros [Hnone | url m Hurl Hnet | url r Hurl Hnet Hok
          | url r Hurl Hnet Hok Hct Hj | url r Hurl Hnet Hok Hct Hbody].
  - now left.
  - right. exists url, m. split; [exact Hurl |]. unfold attempt. now rewrite Hnet.
  - right. exists url, (apiErrorMessage r). split; [exact Hurl |].
    unfold attempt. rewrite Hnet. cbn. unfold readInsights. now rewrite Hok.
  - right. destruct (Net.json r) as [m | j] eqn:Ej.
    + exists url, m. split; [exact Hurl |]. unfold attempt. rewrite Hnet. cbn.
      unfold readInsights. now rewrite Hok, Hct, Ej.
    + exists url, "Invalid JSON response: 'insights' field missing or not a string.".
      split; [exact Hurl |]. unfold attempt. rewrite Hnet. cbn.
      rewrite (readInsights_json r j Hok Hct Ej). now rewrite (Hj j eq_refl).
  - right. exists url, "Empty response from API.". split; [exact Hurl |].
    unfold attempt. rewrite Hnet. cbn. rewrite (readInsights_text r Hok Hct).
    now rewrite Hbody.
Qed.

(** The message of a non-2xx response: the [detail] of a FastAPI error, the
    stringified [detail] of a validation error, the status line otherwise. *)
Example apiErrorMessage_cases :
  apiErrorMessage
    (Samples.jsonResponse 413 "Payload Too Large"
       (Js.JObj [("detail", Js.JStr "File too large")])) = "File too large"
  /\ apiErrorMessage
       (Samples.jsonResponse 422 "Unprocessable Entity"
          (Js.JObj [("detail", Js.JArr [Js.JObj [("msg", Js.JStr "field required")]])]))
     = "[object Object]"
  /\ apiErrorMessage (Samples.jsonResponse 500 "Internal Server Error" Js.JNull)
     = "API Error: 500 Internal Server Error"
  /\ apiErrorMessage
       (Samples.jsonResponse 502 "Bad Gateway" (Js.JObj [("detail", Js.JStr "")]))
     = "API Error: 502 Bad Gateway".
Proof. repeat split. Qed.

(** The rewriting of error messages by the substrings they contain. *)
Example friendlyMessage_cases :
  friendlyMessage "OCR request timed out"
  = "The PDF processing timed out. This usually happens with very large files. Please try a smaller PDF document."
  /\ friendlyMessage "This model's maximum context length is 8192 tokens"
     = "This PDF exceeds the context length limit and is too large to process. Please try uploading a smaller PDF document with fewer pages or less text content."
  /\ friendlyMessage "Invalid JSON response: 'insights' field missing or not a string."
     = "Unable to process this PDF file. The file may be corrupted, password-protected, or in an unsupported format. Please try a different PDF."
  /\ friendlyMessage "Failed to fetch" = "Failed to fetch"
  /\ friendlyMessage "" = "An unknown error occurred during PDF processing.".
Proof. repeat split. Qed.

(** The four ways [friendlyMessage] can end. *)
Lemma friendlyMessage_ends (message : string) :
  friendlyMessage message = contextMessage
  \/ friendlyMessage message = timeoutMessage
  \/ friendlyMessage message = unableMessage
  \/ (friendlyMessage message = (if Js.truthy message then message else unknownMessage)
      /\ friendlyMessage (friendlyMessage message) = friendlyMessage message).
Proof.
  unfold friendlyMessage at 1 2 3 4 6.
  set (e := if Js.truthy message then message else _).
  destruct (mentions (Js.toLowerCase e) _) eqn:A; [now left |].
  destruct (mentions (Js.toLowerCase e) ["timeout"; "timed out"]) eqn:B; [right; now left |].
  destruct (mentions (Js.toLowerCase e) ["format"; "invalid"; "corrupted"]) eqn:C;
    [right; right; now left |].
  right; right; right. split; [reflexivity |].
  assert (T : Js.truthy e = true) by (subst e; destruct message; reflexivity).
  unfold friendlyMessage. rewrite T. fold e. now rewrite A, B, C.
Qed.

Lemma friendlyMessage_nonempty (message : string) : friendlyMessage message <> "".
Proof.
  destruct (friendlyMessage_ends message) as [E | [E | [E | [E _]]]]; rewrite E;
    try discriminate.
  destruct message; discriminate.
Qed.

(** The address a request goes to: the configured base followed by the
    path of the endpoint. *)
Lemma backendApiUrl_endpoint (base : option string) (url : string) :
  backendApiUrl base = Some url ->
  exists b, base = Some b /\ b <> "" /\ url = b ++ "/api/process-pdf/".
Proof.
  unfold backendApiUrl. destruct base as [[| c b] |]; try discriminate.
  intros [= <-]. exists (String c b). repeat split. discriminate.
Qed.

(** C3: a failing run of [submitPdf] reports exactly one error message
    through [onError], and the message is not empty: the configuration
    message when no backend address is set, otherwise the rewritten message
    of the error thrown.  It stores no insights and calls [onSuccess] never,
    so the stored insights are the ones from before the call; it sends at
    most one request (no retry); and the loading flag is false when it ends.
    On the page, whose [onError] is [setUIError], that one message is the
    text of the alert, which is on screen after a submit of the form, and
    the report shown before the call is the report shown after it. *)
Theorem failing_run_reports_one_error base fetch file (s : ApiState) :
  Failing base fetch file ->
  let calls := submitPdf base fetch file in
  (exists message,
     message <> ""
     /\ errors calls = [message]
     /\ (backendApiUrl base = None -> message = notConfigured)
     /\ (forall url,
           backendApiUrl base = Some url ->
           exists thrown,
             attempt fetch url [("pdf_file", file)] = Net.Throw thrown
             /\ message = friendlyMessage thrown)
     /\ (forall a,
           UIState.error (Page.ui (Page.runApi calls a)) = Some message
           /\ UIState.alertShown None (Page.ui (Page.runApi calls a)) = Some message)
     /\ (forall env w a rest,
           Page.backendBaseUrl env = base -> Page.post w = fetch ->
           UploadState.uploadedFile (Page.upload a) = Some (file :: rest) ->
           UploadState.acceptable file = true ->
           let after := fst (Page.submit env w a) in
           UIState.alertShown (UploadState.formError (Page.upload after)) (Page.ui after)
           = Some message))
  /\ stored calls = []
  /\ successes calls = []
  /\ insights (run calls s) = insights s
  /\ (forall a, insights (Page.api (Page.runApi calls a)) = insights (Page.api a))
  /\ (List.length (requests calls) <= 1)%nat
  /\ isLoading (run calls s) = false.
Proof.
  intros F. cbv zeta.
  assert (Hsubmit : forall env w a rest,
            Page.backendBaseUrl env = base -> Page.post w = fetch ->
            UploadState.uploadedFile (Page.upload a) = Some (file :: rest) ->
            UploadState.acceptable file = true ->
            fst (Page.submit env w a)
            = Page.runApi (submitPdf base fetch file)
                (Page.clearUIError
                   (Page.with_upload (fun _ => UploadState.clearErrors (Page.upload a)) a))).
  { intros env w a rest <- <- Hfile Hacc.
    assert (Hschema : UploadState.formSchema (Some (file :: rest)) = []).
    { unfold UploadState.acceptable in Hacc.
      apply andb_true_iff in Hacc as [Ht Hs].
      unfold UploadState.formSchema. now rewrite Ht, Hs. }
    unfold Files.FileList in *.
    unfold Page.submit, UploadState.validateOnSubmit.
    rewrite Hfile, Hschema. reflexivity. }
  unfold submitPdf in *.
  destruct (failing_throws base fetch file F) as [Hnone | (url & m & Hurl & Hthrow)].
  - rewrite Hnone in *. split; [| cbn; repeat split; eauto].
    exists notConfigured. split; [discriminate |]. split; [reflexivity |].
    split; [reflexivity |]. split; [intros url; discriminate |].
    split; [intros a; split; reflexivity |].
    intros env w a rest Hb Hp Hfile Hacc. cbv zeta.
    rewrite (Hsubmit env w a rest Hb Hp Hfile Hacc). reflexivity.
  - rewrite Hurl, Hthrow in *. split; [| cbn; repeat split; eauto].
    pose proof (friendlyMessage_nonempty m) as Hne.
    exists (friendlyMessage m). split; [exact Hne |]. split; [reflexivity |].
    split; [discriminate |].
    split; [intros url' [= <-]; now exists m |].
    assert (Ht : Js.truthy (friendlyMessage m) = true).
    { destruct (friendlyMessage m); [congruence | reflexivity]. }
    split.
    + intros a. split; [reflexivity |].
      unfold UIState.alertShown. cbn -[friendlyMessage]. now rewrite Ht.
    + intros env w a rest Hb Hp Hfile Hacc. cbv zeta.
      rewrite (Hsubmit env w a rest Hb Hp Hfile Hacc).
      unfold UIState.alertShown. cbn -[friendlyMessage]. now rewrite Ht.
Qed.

Lemma failing_run_reports_one_error_witness :
  let calls := submitPdf (Some "http://localhost:8000") Samples.timedOutBackend Samples.paperPdf in
  errors calls = [timeoutMessage]
  /\ stored calls = []
  /\ insights (run calls (mkApiState (Some "# Earlier report") false)) = Some "# Earlier report"
  /\ isLoading (run calls (mkApiState (Some "# Earlier report") false)) = false
  /\ UIState.alertShown None (Page.ui (Page.runApi calls Samples.loadedApp))
     = Some timeoutMessage.
Proof.
  cbv zeta.
  assert (F : Failing (Some "http://localhost:8000") Samples.timedOutBackend Samples.paperPdf).
  { apply (BadStatus _ _ _ Samples.processUrl
             (Samples.jsonResponse 504 "Gateway Timeout"
                (Js.JObj [("detail", Js.JStr "OCR request timed out")])));
      reflexivity. }
  destruct (failing_run_reports_one_error (Some "http://localhost:8000")
              Samples.timedOutBackend Samples.paperPdf
              (mkApiState (Some "# Earlier report") false) F)
    as ((message & _ & Herr & _ & Hwhich & Halert & _) & Hst & _ & Hins & _ & _ & Hload).
  destruct (Hwhich Samples.processUrl eq_refl) as (thrown & Hthrown & ->).
  injection Hthrown as <-.
  split; [exact Herr | split; [exact Hst | split; [exact Hins | split; [exact Hload |]]]].
  exact (proj2 (Halert Samples.loadedApp)).
Defined.

(** The page's binding of a successful run: the report is stored and shown. *)
Lemma success_run_shows_report env w file a textSize url X :
  backendApiUrl (Page.backendBaseUrl env) = Some url ->
  attempt (Page.post w) url [("pdf_file", file)] = Net.Return X ->
  X <> "" ->
  Page.showsReport env textSize (fst (Page.handleFormSubmit env w (Some [file]) a)) X.
Proof.
  intros Hurl Hrun HX. unfold Page.handleFormSubmit, submitPdf. rewrite Hurl, Hrun.
  destruct X as [| c X']; [congruence |].
  unfold Page.showsReport. cbn. repeat split.
  apply andb_diag.
Qed.

(** C1, as stated, fails: to the 2xx JSON response [{ insights: "" }] the
    client stores the empty string but renders the placeholder instead of a
    report, and shows neither the text-size controls nor the save button. *)
Lemma empty_insights_show_no_report :
  let a := fst (Page.handleFormSubmit Samples.env
                  (Samples.world Samples.noPage Samples.emptyInsightsBackend)
                  (Some [Samples.paperPdf]) (Page.initial false)) in
  let view := InsightsViewer.render true 14 (Page.viewerProps Samples.env a) in
  Samples.emptyInsightsBackend Samples.processUrl [("pdf_file", Samples.paperPdf)]
  = Net.Responded (Samples.jsonResponse 200 "OK" (Js.JObj [("insights", Js.JStr "")]))
  /\ Net.ok (Samples.jsonResponse 200 "OK" (Js.JObj [("insights", Js.JStr "")])) = true
  /\ Net.contentType (Samples.jsonResponse 200 "OK" (Js.JObj [("insights", Js.JStr "")]))
     = Some "application/json"
  /\ insightsOf (Js.JObj [("insights", Js.JStr "")]) = Some ""
  /\ insights (Page.api a) = Some ""
  /\ InsightsViewer.body view = InsightsViewer.NoInsights
  /\ InsightsViewer.textSizeControlsShown view = false
  /\ InsightsViewer.saveButton view = false.
Proof. repeat split. Qed.

(** C1, amended: every request of [submitPdf] is a POST to the endpoint
    [/api/process-pdf/] of the configured backend, whose multipart body
    holds the file under the field name [pdf_file].  For every 2xx response:
    when the content type is JSON and the body is an object whose [insights]
    is a non-empty string [X], the client stores [X], renders it as markdown
    and shows the text-size controls, the save button and, with testing
    enabled, the test-content loader; when the content type is not JSON and
    the body text is not empty, the same holds of the body text. *)
Theorem success_response_is_rendered env w file a textSize :
  let result := Page.handleFormSubmit env w (Some [file]) a in
  (forall request, In request (requests (snd result)) ->
     (exists base, Page.backendBaseUrl env = Some base
                   /\ fst (fst request) = base ++ "/api/process-pdf/")
     /\ snd (fst request) = "POST" /\ snd request = [("pdf_file", file)])
  /\ (forall url r,
        backendApiUrl (Page.backendBaseUrl env) = Some url ->
        Page.post w url [("pdf_file", file)] = Net.Responded r ->
        Net.ok r = true ->
        requests (snd result) = [(url, "POST", [("pdf_file", file)])]
        /\ (forall j X,
              Net.contentType_includes r "application/json" = true ->
              Net.json r = Net.JsonValue j ->
              insightsOf j = Some X ->
              X <> "" ->
              Page.showsReport env textSize (fst result) X)
        /\ (Net.contentType_includes r "application/json" = false ->
            Net.body r <> "" ->
            Page.showsReport env textSize (fst result) (Net.body r))).
Proof.
  cbv zeta. split.
  - intros request. unfold Page.handleFormSubmit, submitPdf. cbn [snd].
    destruct (backendApiUrl (Page.backendBaseUrl env)) as [url |] eqn:Hurl; [| intros []].
    destruct (backendApiUrl_endpoint _ _ Hurl) as (base & Hbase & _ & ->).
    destruct (attempt (Page.post w) (base ++ "/api/process-pdf/") [("pdf_file", file)]);
      cbn; intros [<- | []]; (split; [now exists base | now split]).
  - intros url r Hurl Hnet Hok. split; [| split].
    + unfold Page.handleFormSubmit, submitPdf. cbn [snd]. rewrite Hurl.
      now destruct (attempt (Page.post w) url [("pdf_file", file)]).
    + intros j X Hct Hj HX Hne.
      apply (success_run_shows_report env w file a textSize url X Hurl); [| exact Hne].
      unfold attempt. rewrite Hnet. cbn [Net.await Net.bind].
      rewrite (readInsights_json r j Hok Hct Hj). now rewrite HX.
    + intros Hct Hne.
      apply (success_run_shows_report env w file a textSize url _ Hurl); [| exact Hne].
      unfold attempt. rewrite Hnet. cbn [Net.await Net.bind].
      rewrite (readInsights_text r Hok Hct).
      destruct (Net.body r); [congruence | reflexivity].
Qed.

Lemma success_response_is_rendered_witness :
  Page.showsReport Samples.env 14
    (fst (Page.handleFormSubmit Samples.env
            (Samples.world Samples.noPage Samples.summaryBackend)
            (Some [Samples.paperPdf]) (Page.initial false)))
    "# Summary".
Proof.
  pose proof (success_response_is_rendered Samples.env
                (Samples.world Samples.noPage Samples.summaryBackend)
                Samples.paperPdf (Page.initial false) 14) as (_ & H).
  destruct (H Samples.processUrl
              (Samples.jsonResponse 200 "OK" (Js.JObj [("insights", Js.JStr "# Summary")]))
              eq_refl eq_refl eq_refl) as (_ & Hjson & _).
  apply (Hjson (Js.JObj [("insights", Js.JStr "# Summary")]) "# Summary");
    [reflexivity | reflexivity | reflexivity | discriminate].
Defined.

End ApiStateFacts.

(** ** Local rejection of uploads *)

Section UploadFacts.

Import Files UploadState.

(** The size ceiling in the message of a refused drop is the quotient the
    language prints: a whole number of MB for the page's 15 MB, a decimal
    fraction otherwise. *)
Lemma dropped_file_over_the_ceiling :
  let dropOn := fun ceiling =>
    DragDrop.handleDrop
      (DragDrop.mkProps false false false false ceiling ACCEPTED_FILE_TYPES)
      [mkFile "scan.pdf" "application/pdf" (16 * 1024 * 1024) "%PDF-1.7 scan"] in
  let refusal := fun text =>
    [DragDrop.SetIsDraggingOver false; DragDrop.OnError text; DragDrop.SetValue None] in
  dropOn MAX_FILE_SIZE = refusal "File exceeds maximum size of 15MB."
  /\ dropOn (3 * 512 * 1024) = refusal "File exceeds maximum size of 1.5MB."
  /\ dropOn 1000000 = refusal "File exceeds maximum size of 0.95367431640625MB."
  /\ dropOn 1 = refusal "File exceeds maximum size of 9.5367431640625e-7MB."
  /\ Js.string_of_number (PrimFloat.add 0.1 0.2) = "0.30000000000000004"
  /\ Js.string_of_number (PrimFloat.div 1 3) = "0.3333333333333333"
  /\ Js.string_of_number 1e21 = "1e+21"
  /\ Js.string_of_number 123456789012345680000 = "123456789012345680000"
  /\ Js.string_of_number 5e-324 = "5e-324".
Proof. cbv zeta. repeat split; vm_compute; reflexivity. Qed.

Lemma formSchema_accepts (file : File) (rest : FileList) :
  formSchema (Some (file :: rest)) = [] <-> acceptable file = true.
Proof.
  unfold formSchema, acceptable. cbn [app].
  destruct (size file <=? MAX_FILE_SIZE);
    destruct (Js.array_includes ACCEPTED_FILE_TYPES (type file)); cbn;
    split; intros H; try reflexivity; discriminate.
Qed.

Lemma formSchema_rejects (file : File) (rest : FileList) :
  acceptable file = false ->
  exists issue issues, formSchema (Some (file :: rest)) = issue :: issues.
Proof.
  intros H. destruct (formSchema (Some (file :: rest))) as [| issue issues] eqn:E.
  - apply formSchema_accepts in E. congruence.
  - now exists issue, issues.
Qed.

(** A run of the effect on a form without a value touches the preview only. *)
Lemma settle_without_files w before a :
  uploadedFile (Page.upload a) = None ->
  let a' := Page.settle w before false a in
  Page.upload a' = Page.upload a /\ Page.ui a' = Page.ui a /\ Page.api a' = Page.api a.
Proof.
  intros H. unfold Page.settle, Page.uploadedFileEffect. rewrite H.
  destruct (Page.is_some before); cbn; repeat split.
Qed.

(** Every request a submit sends carries one accepted file. *)
Lemma submit_sends_accepted_files env w a request file :
  In request (ApiState.requests (snd (Page.submit env w a))) ->
  In file (map snd (snd request)) ->
  acceptable file = true.
Proof.
  unfold Page.submit, validateOnSubmit.
  destruct (formSchema (uploadedFile (Page.upload a))) as [| issue issues] eqn:E;
    [| intros []].
  unfold Page.handleFormSubmit.
  destruct (uploadedFile (Page.upload a)) as [[| first rest] |]; try (intros []).
  apply formSchema_accepts in E. cbn [snd]. unfold ApiState.submitPdf.
  destruct (ApiState.backendApiUrl (Page.backendBaseUrl env)) as [url |]; [| intros []].
  destruct (ApiState.attempt (Page.post w) url [("pdf_file", first)]);
    cbn; intros [<- | []]; cbn; intros [<- | []]; exact E.
Qed.

Lemma rejected_drop_calls w a (calls : list DragDrop.Call) (message : string) :
  message <> "" ->
  Page.dropRejected
    (Page.settle w (uploadedFile (Page.upload a)) false
       (fold_left Page.bindDrop
          (calls ++ [DragDrop.OnError message; DragDrop.SetValue None]) a)).
Proof.
  intros Hm. rewrite fold_left_app. cbn [fold_left Page.bindDrop].
  set (b := fold_left Page.bindDrop calls a).
  destruct (settle_without_files w (uploadedFile (Page.upload a))
              (Page.with_upload (setValue None) (Page.setUIError message b)) eq_refl)
    as (Hu & Hi & _).
  unfold Page.dropRejected. rewrite Hu, Hi. split; [reflexivity |].
  exists message. repeat split; [exact Hm |].
  cbn. now destruct message.
Qed.

(** What [handleDrop] does with a drop it rejects, when nothing is in
    flight: after the calls every drop makes, an error and a cleared form. *)
Lemma handleDrop_rejects (p : DragDrop.Props) (files : FileList) :
  DragDrop.isLoading p = false ->
  DragDrop.isUrlLoading p = false ->
  DragDrop.acceptedFileTypes p = ACCEPTED_FILE_TYPES ->
  DragDrop.maxFileSize p = MAX_FILE_SIZE ->
  (1 < List.length files)%nat \/ (exists f, files = [f] /\ acceptable f = false) ->
  exists message,
    message <> ""
    /\ DragDrop.handleDrop p files =
       ((DragDrop.SetIsDraggingOver false
         :: (if DragDrop.isUrlMode p then [DragDrop.OnUrlModeToggle false] else []))
        ++ [DragDrop.OnError message; DragDrop.SetValue None])%list.
Proof.
  intros Hl Hu Ha Hs Hbad. unfold DragDrop.handleDrop. rewrite Hl, Hu, Ha, Hs. cbn [orb].
  destruct Hbad as [Hmany | (f & -> & Hf)].
  - destruct files as [| f1 [| f2 rest]]; cbn in Hmany; try lia.
    exists "Please drop only one PDF file.". split; [discriminate |]. reflexivity.
  - cbn [List.length Nat.ltb Nat.leb]. unfold acceptable in Hf.
    destruct (Js.array_includes ACCEPTED_FILE_TYPES (type f)); cbn [negb andb] in *.
    + assert (Hgt : (MAX_FILE_SIZE <? size f) = true)
        by (apply Z.ltb_lt; apply Z.leb_gt in Hf; lia).
      rewrite Hgt. eexists. split; [| reflexivity]. discriminate.
    + exists "Invalid file type. Please drop a PDF file.". split; [discriminate |].
      reflexivity.
Qed.

(** C2, as stated, fails: while the analysis of [paper.pdf] is in flight, a
    dropped text file is ignored without a word; no error is shown and the
    form keeps its value, neither cleared nor marked invalid. *)
Lemma drop_in_flight_is_silent :
  let a := Page.dropFiles (Samples.world Samples.noPage Samples.summaryBackend)
             [Samples.notesTxt] Samples.analysingApp in
  acceptable Samples.notesTxt = false
  /\ ApiState.isLoading (Page.api Samples.analysingApp) = true
  /\ UIState.error (Page.ui a) = None
  /\ formError (Page.upload a) = None
  /\ uploadedFile (Page.upload a) = Some [Samples.paperPdf].
Proof. repeat split. Qed.

(** C2, amended.  While nothing is in flight, a drop of several files, or of
    one file that is not a PDF or is over 15 MB, is rejected on the spot: the
    form value is cleared and a non-empty error is on screen.  While a request
    is in flight a drop changes nothing but the drag highlight.  A file of the
    wrong type or size that sits in the form (the picker puts it there) is
    marked invalid by the submit, which then sends nothing.  In every state,
    any request a submit sends carries a PDF of at most 15 MB. *)
Theorem invalid_uploads_rejected_locally env w (a : Page.AppState) :
  (forall files,
     ApiState.isLoading (Page.api a) = false ->
     isUrlLoading (Page.upload a) = false ->
     (1 < List.length files)%nat \/ (exists f, files = [f] /\ acceptable f = false) ->
     Page.dropRejected (Page.dropFiles w files a))
  /\ (forall files,
        ApiState.isLoading (Page.api a) || isUrlLoading (Page.upload a) = true ->
        Page.dropFiles w files a =
        Page.mkApp (Page.ui a) (Page.upload a) (Page.api a) (Page.pdf a)
          (Page.preload a) false)
  /\ (forall f rest,
        uploadedFile (Page.upload a) = Some (f :: rest) ->
        acceptable f = false ->
        snd (Page.submit env w a) = []
        /\ uploadedFile (Page.upload (fst (Page.submit env w a))) = Some (f :: rest)
        /\ exists issue, formError (Page.upload (fst (Page.submit env w a))) = Some issue)
  /\ (forall request file,
        In request (ApiState.requests (snd (Page.submit env w a))) ->
        In file (map snd (snd request)) ->
        acceptable file = true).
Proof.
  split; [| split; [| split]].
  - intros files Hl Hu Hbad. unfold Page.dropFiles.
    destruct (handleDrop_rejects (Page.dropProps a) files Hl Hu eq_refl eq_refl Hbad)
      as (message & Hm & ->).
    replace (existsb Page.storesFiles _) with false
      by (cbn; now destruct (UploadState.isUrlMode (Page.upload a))).
    now apply rejected_drop_calls.
  - intros files Hbusy. unfold Page.dropFiles, DragDrop.handleDrop. cbn [Page.dropProps
      DragDrop.isLoading DragDrop.isUrlLoading]. rewrite Hbusy. cbn.
    unfold Page.settle. cbn.
    now destruct (uploadedFile (Page.upload a)).
  - intros f rest Hv Hf. unfold Page.submit, validateOnSubmit. rewrite Hv.
    destruct (formSchema_rejects f rest Hf) as (issue & issues & ->). cbn.
    split; [reflexivity | split; [reflexivity | now exists issue]].
  - apply submit_sends_accepted_files.
Qed.

Lemma invalid_uploads_rejected_locally_witness :
  Page.dropRejected
    (Page.dropFiles (Samples.world Samples.noPage Samples.summaryBackend)
       [Samples.notesTxt] Samples.loadedApp)
  /\ snd (Page.submit Samples.env (Samples.world Samples.noPage Samples.summaryBackend)
            (Page.pickFile (Samples.world Samples.noPage Samples.summaryBackend)
               [Samples.hugePdf] (Page.initial false))) = [].
Proof.
  split.
  - apply (invalid_uploads_rejected_locally Samples.env
             (Samples.world Samples.noPage Samples.summaryBackend) Samples.loadedApp);
      [reflexivity | reflexivity |].
    right. exists Samples.notesTxt. split; reflexivity.
  - pose proof (invalid_uploads_rejected_locally Samples.env
                  (Samples.world Samples.noPage Samples.summaryBackend)
                  (Page.pickFile (Samples.world Samples.noPage Samples.summaryBackend)
                     [Samples.hugePdf] (Page.initial false))) as (_ & _ & H & _).
    exact (proj1 (H Samples.hugePdf [] eq_refl eq_refl)).
Defined.

(** *** Input modes *)

(** C5, as stated, fails: with [paper.pdf] loaded, dropping a text file
    empties the form, and the URL switch then takes effect although the
    selection was never cleared with the clear button. *)
Lemma toggle_after_rejected_drop :
  let acts := [Page.DropFiles [Samples.notesTxt]; Page.UrlModeToggle true] in
  let a := Page.run Samples.env (Samples.world Samples.noPage Samples.summaryBackend)
             acts Samples.loadedApp in
  loaded (uploadedFile (Page.upload Samples.loadedApp)) = true
  /\ existsb Page.is_clear acts = false
  /\ Page.mode Samples.loadedApp = (false, false)
  /\ Page.mode a = (true, false).
Proof. repeat split. Qed.

(** C5, amended: while a file is loaded, [handleUrlModeToggle] and
    [handlePreloadModeToggle] change nothing, so both mode flags stay as they
    are, and the page disables both switches; while no file is loaded each
    toggle sets its flag as asked.
    [handleClearSelection] empties the form, and the toggles take effect
    after it. *)
Theorem mode_toggle_blocked_while_loaded (s : UploadState) (checked : bool) :
  (loaded (uploadedFile s) = true ->
   handleUrlModeToggle checked s = s
   /\ handlePreloadModeToggle checked s = s
   /\ (forall selectedPaper, isUrlModeDisabled selectedPaper s = true)
   /\ isPreloadModeDisabled s = true)
  /\ (loaded (uploadedFile s) = false ->
      isUrlMode (handleUrlModeToggle checked s) = checked
      /\ isPreloadMode (handlePreloadModeToggle checked s) = checked)
  /\ loaded (uploadedFile (handleClearSelection s)) = false
  /\ isUrlMode (handleUrlModeToggle checked (handleClearSelection s)) = checked
  /\ isPreloadMode (handlePreloadModeToggle checked (handleClearSelection s)) = checked.
Proof.
  unfold handleUrlModeToggle, handlePreloadModeToggle.
  split; [| split; [| split; [| split]]].
  - intros H. unfold isUrlModeDisabled, isPreloadModeDisabled. now rewrite H.
  - intros H. rewrite H. now destruct checked.
  - reflexivity.
  - now destruct checked.
  - now destruct checked.
Qed.

Lemma mode_toggle_blocked_while_loaded_witness :
  handleUrlModeToggle true (Page.upload Samples.loadedApp) = Page.upload Samples.loadedApp
  /\ handlePreloadModeToggle true (Page.upload Samples.loadedApp)
     = Page.upload Samples.loadedApp
  /\ isUrlMode (handleUrlModeToggle true (UploadState.initial false)) = true.
Proof.
  pose proof (mode_toggle_blocked_while_loaded (Page.upload Samples.loadedApp) true)
    as (Hblocked & _).
  pose proof (mode_toggle_blocked_while_loaded (UploadState.initial false) true)
    as (_ & Hfree & _).
  destruct (Hblocked eq_refl) as (Hu & Hp & _).
  split; [exact Hu | split; [exact Hp | exact (proj1 (Hfree eq_refl))]].
Defined.

End UploadFacts.

(** ** Loading by URL *)

Section UrlFacts.

Import Files UploadState.

(** What a submit sends depends on the form value alone. *)
Lemma submit_calls_of_form env w (a b : Page.AppState) :
  uploadedFile (Page.upload a) = uploadedFile (Page.upload b) ->
  snd (Page.submit env w a) = snd (Page.submit env w b).
Proof.
  intros H. unfold Page.submit, validateOnSubmit. rewrite H.
  destruct (formSchema (uploadedFile (Page.upload b))); [| reflexivity].
  unfold Page.handleFormSubmit. now destruct (uploadedFile (Page.upload b)) as [[| f l] |].
Qed.

(** The effect computes the preview from the form value and from the preview
    before it, whose file name it replaces. *)
Lemma effect_preview w (a b : Page.AppState) :
  uploadedFile (Page.upload a) = uploadedFile (Page.upload b) ->
  PdfState.updatePdfState [PdfState.FileName None] (Page.pdf a)
  = PdfState.updatePdfState [PdfState.FileName None] (Page.pdf b) ->
  Page.pdf (Page.uploadedFileEffect w a) = Page.pdf (Page.uploadedFileEffect w b)
  /\ uploadedFile (Page.upload (Page.uploadedFileEffect w a)) = uploadedFile (Page.upload a)
  /\ uploadedFile (Page.upload (Page.uploadedFileEffect w b)) = uploadedFile (Page.upload b).
Proof.
  intros Hf Hp. unfold Page.uploadedFileEffect. rewrite Hf.
  destruct a as [ua fa aa pa ra da], b as [ub fb ab pb rb db].
  destruct pa, pb. cbn in Hf, Hp |- *. injection Hp as -> -> -> -> -> -> ->.
  destruct (uploadedFile fb) as [[| file rest] |] eqn:E; cbn.
  - repeat split; (reflexivity || assumption).
  - destruct (Page.readAsDataURL w file) as [result |]; [destruct (Js.truthy result) |];
      cbn;
      destruct (Js.truthy_opt (UIState.error ua));
      destruct (Js.truthy_opt (UIState.error ub));
      cbn; repeat split; (reflexivity || assumption).
  - repeat split; (reflexivity || assumption).
Qed.

Lemma fetchPdfFile_accepts w url r :
  Page.fetch w url = Net.Responded r ->
  Net.ok r = true ->
  Net.contentType_includes r "application/pdf" = true ->
  Net.bodySize r <= MAX_FILE_SIZE ->
  fetchPdfFile (Page.fetch w) (Page.pathname w) (Page.now w) url =
  Net.Return (extractFileNameFromUrl (Page.pathname w) (Page.now w) url,
              fileFromUrl (Page.pathname w) (Page.now w) url r).
Proof.
  intros Hnet Hok Hct Hsize. unfold fetchPdfFile. rewrite Hnet. cbn [Net.await Net.bind].
  rewrite Hok, Hct. cbn [negb].
  assert (E : (MAX_FILE_SIZE <? Net.bodySize r) = false) by (apply Z.ltb_ge; lia).
  now rewrite E.
Qed.

(** The names [extractFileNameFromUrl] derives. *)
Example extractFileNameFromUrl_cases :
  extractFileNameFromUrl Samples.pathnameOfHttp 0 "https://arxiv.org/pdf/1706.03762"
  = "1706.03762.pdf"
  /\ extractFileNameFromUrl Samples.pathnameOfHttp 0 "https://example.org/papers/gpt.pdf"
     = "gpt.pdf"
  /\ extractFileNameFromUrl Samples.pathnameOfHttp 0 "https://example.org/papers/"
     = "file.pdf"
  /\ extractFileNameFromUrl Samples.pathnameOfHttp 0 "https://example.org/a/b(c)~d"
     = "b_c__d.pdf"
  /\ extractFileNameFromUrl Samples.pathnameOfHttp 1762128000000 "not a url"
     = "downloaded_1762128000000.pdf".
Proof. repeat split. Qed.

(** C4, as stated, fails: the client's own static site serves
    [/data/preload/PDF/attention.pdf] as [application/pdf], well under the
    ceiling, yet [handleLoadFromUrl] refuses the address because it does not
    start with [http]: the form stays empty, where an upload of the same
    bytes under any name fills it. *)
Lemma relative_url_is_refused :
  let w := Samples.world Samples.preloadSite Samples.summaryBackend in
  let url := "/data/preload/PDF/attention.pdf" in
  let a := Page.handleLoadFromUrl w (Samples.urlTyped url) in
  (exists r,
     Page.fetch w url = Net.Responded r
     /\ Net.contentType r = Some "application/pdf"
     /\ Net.bodySize r <= MAX_FILE_SIZE
     /\ forall fileName,
          uploadedFile
            (Page.upload
               (Page.pickFile w [mkFile fileName "application/pdf" (Net.bodySize r) (Net.body r)]
                  (Page.initial false)))
          <> uploadedFile (Page.upload a))
  /\ uploadedFile (Page.upload a) = None
  /\ urlError (Page.upload a)
     = Some "Please enter a valid PDF URL (starting with http or https).".
Proof.
  cbv zeta. split; [| split; reflexivity].
  eexists. split; [reflexivity |]. split; [reflexivity |]. split; [vm_compute; discriminate |].
  intros fileName. cbn. discriminate.
Qed.

(** C4, amended: for an address that starts with [http] and whose fetch
    gives a 2xx response of a content type containing [application/pdf] with
    a body of at most 15 MB, [handleLoadFromUrl] leaves the same form value,
    the same preview state and the same submitted requests as picking a local
    file with those bytes, of type [application/pdf], named as
    [extractFileNameFromUrl] names the address; the two runs may start from
    pages that differ in anything but the preview state. *)
Theorem url_load_equals_local_upload env w (a b : Page.AppState) (r : Net.Response) :
  let url := pdfUrlInputValue (Page.upload a) in
  Js.startsWith (Js.trim url) "http" = true ->
  Page.fetch w url = Net.Responded r ->
  Net.ok r = true ->
  Net.contentType_includes r "application/pdf" = true ->
  Net.bodySize r <= MAX_FILE_SIZE ->
  Page.pdf a = Page.pdf b ->
  Page.downstream env w (Page.handleLoadFromUrl w a) =
  Page.downstream env w
    (Page.pickFile w [fileFromUrl (Page.pathname w) (Page.now w) url r] b).
Proof.
  intros url Hhttp Hnet Hok Hct Hsize Hpdf.
  assert (Hurl : Js.truthy url = true).
  { destruct url; [discriminate Hhttp | reflexivity]. }
  set (file := fileFromUrl (Page.pathname w) (Page.now w) url r).
  unfold Page.handleLoadFromUrl, handleLoadFromUrl. fold url.
  rewrite Hurl, Hhttp. cbn [negb orb].
  rewrite (fetchPdfFile_accepts w url r Hnet Hok Hct Hsize). fold file.
  cbn [existsb Page.succeeded orb fold_left Page.bindUpload].
  unfold Page.pickFile, Page.settle. cbn [orb].
  match goal with
  | |- Page.downstream _ _ (Page.uploadedFileEffect _ ?x)
       = Page.downstream _ _ (Page.uploadedFileEffect _ ?y) =>
      destruct (effect_preview w x y) as (Hp & Hx & Hy);
        [reflexivity | cbn; now rewrite Hpdf |];
      assert (Hform : uploadedFile (Page.upload (Page.uploadedFileEffect w x))
                      = uploadedFile (Page.upload (Page.uploadedFileEffect w y)))
        by (rewrite Hx, Hy; reflexivity)
  end.
  unfold Page.downstream.
  rewrite (submit_calls_of_form env w _ _ Hform), Hp, Hform. reflexivity.
Qed.

Lemma url_load_equals_local_upload_witness :
  let w := Samples.world Samples.paperHost Samples.summaryBackend in
  Page.downstream Samples.env w
    (Page.handleLoadFromUrl w (Samples.urlTyped "https://example.org/papers/gpt-1"))
  = Page.downstream Samples.env w
      (Page.pickFile w [mkFile "gpt-1.pdf" "application/pdf" 1024 "%PDF-1.7 paper"]
         (Page.initial false)).
Proof.
  apply (url_load_equals_local_upload Samples.env
           (Samples.world Samples.paperHost Samples.summaryBackend)
           (Samples.urlTyped "https://example.org/papers/gpt-1")
           (Page.initial false)
           (Net.mkResponse 200 "OK" (Some "application/pdf; charset=binary")
              "%PDF-1.7 paper" 1024 (Net.JsonThrows "Unexpected token % in JSON at position 0")));
    try reflexivity.
  vm_compute; discriminate.
Defined.

End UrlFacts.

(** ** Preloaded examples *)

Section PreloadFacts.

Import Files PreloadState.

(** Loading a paper again from the state the first load left gives the same
    state, the same calls and the same file. *)
Lemma loadPreloadedPaper_again fetch paperId (s : PreloadState) :
  let first := loadPreloadedPaper fetch paperId s in
  loadPreloadedPaper fetch paperId (fst (fst first)) = first.
Proof.
  cbv zeta. unfold loadPreloadedPaper.
  destruct (find (fun p => (id p =? paperId)%string) (preloadedPapers s)) as [paper |] eqn:E.
  - destruct (fetchPaper fetch paper) as [[insights pdfFile] | message] eqn:F;
      cbn; rewrite E, F; reflexivity.
  - cbn. now rewrite E.
Qed.

(** What a load reports and returns depends on the list of papers alone. *)
Lemma loadPreloadedPaper_of_papers fetch paperId (s t : PreloadState) :
  preloadedPapers s = preloadedPapers t ->
  snd (fst (loadPreloadedPaper fetch paperId s)) = snd (fst (loadPreloadedPaper fetch paperId t))
  /\ snd (loadPreloadedPaper fetch paperId s) = snd (loadPreloadedPaper fetch paperId t).
Proof.
  intros H. unfold loadPreloadedPaper. rewrite H.
  destruct (find _ (preloadedPapers t)) as [paper |]; [| now split].
  destruct (fetchPaper fetch paper) as [[insights pdfFile] | message]; now split.
Qed.

(** A load that returns a file made exactly one call, to [onSuccess], and
    left the paper selected. *)
Lemma loadPreloadedPaper_success fetch paperId (s : PreloadState) (f : File) :
  snd (loadPreloadedPaper fetch paperId s) = Some f ->
  exists fileName insights,
    loadPreloadedPaper fetch paperId s =
    (mkPreloadState (Some paperId) false (preloadedPapers s),
     [OnSuccess fileName insights], Some f).
Proof.
  unfold loadPreloadedPaper.
  destruct (find _ (preloadedPapers s)) as [paper |]; [| discriminate].
  destruct (fetchPaper fetch paper) as [[insights pdfFile] | message]; [| discriminate].
  cbn. intros [= ->]. now exists (filename paper ++ ".pdf"), insights.
Qed.

(** C7: loading the same preloaded paper twice is idempotent.  The second
    load leaves the whole page, and with it the displayed report and PDF,
    exactly as the first load left it, and it makes the same calls as the
    first: if the first reported no fetch failure, the second reports none.
    The same holds across the clear button: after a load that succeeded,
    clearing the selection and loading the paper again displays the same
    report and the same PDF. *)
Theorem preloaded_load_idempotent env w paperId (a : Page.AppState) :
  let once := Page.handleLoadPreloadedPaper env w paperId a in
  Page.handleLoadPreloadedPaper env w paperId once = once
  /\ loadPreloadedPaper (Page.fetch w) paperId
       (fst (fst (loadPreloadedPaper (Page.fetch w) paperId (Page.preload a))))
     = loadPreloadedPaper (Page.fetch w) paperId (Page.preload a)
  /\ (forall f,
        Page.isPreloadEnabled env = true ->
        snd (loadPreloadedPaper (Page.fetch w) paperId (Page.preload a)) = Some f ->
        Page.displayed
          (Page.handleLoadPreloadedPaper env w paperId
             (Page.handleClearSelectionWithInsights env w once))
        = Page.displayed once).
Proof.
  cbv zeta. split; [| split; [apply loadPreloadedPaper_again |]].
  - unfold Page.handleLoadPreloadedPaper.
    destruct (Page.isPreloadEnabled env); [| reflexivity].
    pose proof (loadPreloadedPaper_again (Page.fetch w) paperId (Page.preload a)) as Again.
    cbv zeta in Again.
    destruct (loadPreloadedPaper (Page.fetch w) paperId (Page.preload a))
      as [[p calls] file] eqn:First.
    cbn [fst] in Again.
    assert (Shape :
      (file = None /\ exists e more, calls = more ++ [OnError e]
                                     /\ forall b, fold_left Page.bindPreload more b = b)%list
      \/ (exists f fileName insights, file = Some f /\ calls = [OnSuccess fileName insights])).
    { unfold loadPreloadedPaper in First.
      destruct (find _ _) as [paper |].
      - destruct (fetchPaper _ paper) as [[insights pdfFile] | message];
          injection First as <- <- <-.
        + right. now exists pdfFile, (filename paper ++ ".pdf"), insights.
        + left. split; [reflexivity |].
          exists ("Failed to load preloaded paper: " ++ message), [ConsoleError message].
          now split.
      - injection First as <- <- <-. left. split; [reflexivity |].
        exists "Selected paper not found in preloaded data.", []. now split. }
    destruct Shape as [(-> & e & more & -> & Hmore) | (f & fileName & insights & -> & ->)].
    + rewrite fold_left_app, Hmore. cbn. rewrite Again.
      rewrite fold_left_app, Hmore. reflexivity.
    + cbn [fold_left Page.bindPreload]. unfold Page.settle. cbn [orb].
      match goal with
      | |- context [Page.preload (Page.uploadedFileEffect w ?x)] =>
          assert (Hpre : Page.preload (Page.uploadedFileEffect w x) = p)
      end.
      { unfold Page.uploadedFileEffect. cbn.
        destruct (Page.readAsDataURL w f) as [result |]; [destruct (Js.truthy result) |];
          reflexivity. }
      rewrite Hpre, Again. cbn [fold_left Page.bindPreload orb].
      destruct a as [ua fa aa pa ra da]. unfold Page.uploadedFileEffect. cbn.
      destruct (Page.readAsDataURL w f) as [result |]; [destruct (Js.truthy result) |];
        reflexivity.
  - intros f Hon Hfile.
    destruct (loadPreloadedPaper_success _ _ _ _ Hfile) as (fileName & insights & First).
    assert (Honce : exists b,
              Page.handleLoadPreloadedPaper env w paperId a = Page.uploadedFileEffect w b
              /\ b = Page.with_upload (UploadState.handleSetPreloadedFile f)
                      (Page.bindPreload
                         (Page.with_preload
                            (fun _ => mkPreloadState (Some paperId) false
                                        (preloadedPapers (Page.preload a))) a)
                         (OnSuccess fileName insights))).
    { eexists. split; [| reflexivity].
      unfold Page.handleLoadPreloadedPaper. rewrite Hon, First. reflexivity. }
    destruct Honce as (b & -> & Hb).
    set (once := Page.uploadedFileEffect w b).
    assert (Hpapers : preloadedPapers
                        (Page.preload (Page.handleClearSelectionWithInsights env w once))
                      = preloadedPapers (Page.preload a)).
    { unfold Page.handleClearSelectionWithInsights, Page.clearPreloadedPaper, Page.settle,
        Page.selectedPaper, Page.uploadedFileEffect, once. rewrite Hon, Hb.
      destruct a as [ua fa aa pa ra da]. cbn.
      destruct (Page.readAsDataURL w f) as [result |]; [destruct (Js.truthy result) |];
        cbn; destruct (UploadState.isPreloadMode fa && Js.truthy paperId); reflexivity. }
    unfold Page.handleLoadPreloadedPaper. rewrite Hon.
    destruct (loadPreloadedPaper_of_papers (Page.fetch w) paperId _ _ Hpapers) as (Hc & Hf).
    rewrite First in Hc, Hf. cbn [fst snd] in Hc, Hf.
    destruct (loadPreloadedPaper (Page.fetch w) paperId
                (Page.preload (Page.handleClearSelectionWithInsights env w once)))
      as [[p' calls'] file']. cbn [fst snd] in Hc, Hf. subst calls' file'.
    cbn [fold_left Page.bindPreload]. unfold Page.settle. cbn [orb].
    unfold Page.displayed, once, Page.uploadedFileEffect. rewrite Hb.
    destruct a as [ua fa aa pa ra da]. cbn.
    destruct (Page.readAsDataURL w f) as [result |]; [destruct (Js.truthy result) |];
      reflexivity.
Qed.

Lemma preloaded_load_idempotent_witness :
  let w := Samples.world Samples.preloadSite Samples.summaryBackend in
  let once := Page.handleLoadPreloadedPaper Samples.env w "attention" Samples.preloadReady in
  Page.displayed
    (Page.handleLoadPreloadedPaper Samples.env w "attention"
       (Page.handleClearSelectionWithInsights Samples.env w once))
  = (Some "# Attention Is All You Need",
     Some "data:application/pdf;base64,%PDF-1.7 attention",
     Some "attention.pdf",
     Some [mkFile "attention.pdf" "application/pdf" 2215244 "%PDF-1.7 attention"]).
Proof.
  pose proof (preloaded_load_idempotent Samples.env
                (Samples.world Samples.preloadSite Samples.summaryBackend)
                "attention" Samples.preloadReady) as (_ & _ & H).
  exact (H (mkFile "attention.pdf" "application/pdf" 2215244 "%PDF-1.7 attention")
           eq_refl eq_refl).
Defined.

End PreloadFacts.

(** ** The basic-auth gate *)

Section MiddlewareFacts.

Import Middleware.

Lemma truthy_nonempty (s : string) : s <> "" -> Js.truthy s = true.
Proof. destruct s; [congruence | reflexivity]. Qed.

Lemma strict_eqb_eq (a b : string) : Js.strict_eqb (Some a) (Some b) = true <-> a = b.
Proof. apply String.eqb_eq. Qed.

Lemma includes_colon_cons (c : ascii) (s : string) :
  Js.includes (String c s) ":" = false ->
  Ascii.eqb c ":" = false /\ Js.includes s ":" = false.
Proof.
  cbn -[ascii_dec]. destruct (ascii_dec ":" c) as [<- | Hne].
  - now destruct s.
  - intros H. split; [| exact H]. apply Ascii.eqb_neq. congruence.
Qed.

(** A string without a colon is a single field. *)
Lemma split_without_colon (s : string) :
  Js.includes s ":" = false -> Js.split ":" s = [s].
Proof.
  induction s as [| c s IH]; [reflexivity |].
  intros H. apply includes_colon_cons in H as [Hc Hs].
  cbn. rewrite Hc, (IH Hs). reflexivity.
Qed.

(** Two strings without a colon, joined by one, are two fields. *)
Lemma split_pair (u p : string) :
  Js.includes u ":" = false -> Js.includes p ":" = false ->
  Js.split ":" (u ++ ":" ++ p) = [u; p].
Proof.
  intros Hu Hp. induction u as [| c u IH].
  - cbn. now rewrite (split_without_colon p Hp).
  - apply includes_colon_cons in Hu as [Hc Hu].
    cbn. rewrite Hc. cbn in IH. now rewrite (IH Hu).
Qed.

(** What the gate answers at the site's root: the challenge to a request
    without credentials, to wrong ones and to a user name alone; the
    application to the configured pair.  Only the text between the first and
    the second colon is compared as the password. *)
Example gate_cases :
  guard decodeBase64Ascii Samples.protectedEnv (mkRequest "/" None)
  = Reply "Authentication required" 401 challenge
  /\ guard decodeBase64Ascii Samples.protectedEnv
       (mkRequest "/" (Some "Basic cmV2aWV3Ondyb25n"))
     = Reply "Invalid credentials" 401 challenge
  /\ guard decodeBase64Ascii Samples.protectedEnv (mkRequest "/" (Some "Basic cmV2aWV3"))
     = Reply "Invalid credentials" 401 challenge
  /\ guard decodeBase64Ascii Samples.protectedEnv
       (mkRequest "/" (Some "Basic cmV2aWV3OnJldmlldw==")) = Next
  /\ decodeBase64Ascii "cmV2aWV3OnJldmlldzpleHRyYQ==" = "review:review:extra"
  /\ guard decodeBase64Ascii Samples.protectedEnv
       (mkRequest "/" (Some "Basic cmV2aWV3OnJldmlldzpleHRyYQ==")) = Next
  /\ guard decodeBase64Ascii (mkEnv (Some "true") (Some "") (Some "review"))
       (mkRequest "/" None)
     = Reply "Server configuration error" 500 [].
Proof. repeat split. Qed.

(** C6, as stated, fails: with protection on, a request for a script of the
    client under [/_next/static] reaches the application without any
    [Authorization] header, because the matcher keeps the middleware off
    that path. *)
Lemma static_assets_bypass_the_gate :
  ENABLE_PASSWORD_PROTECTION Samples.protectedEnv = Some "true"
  /\ USERNAME Samples.protectedEnv = Some "review"
  /\ PASSWORD Samples.protectedEnv = Some "review"
  /\ guard decodeBase64Ascii Samples.protectedEnv
       (mkRequest "/_next/static/chunks/main.js" None) = Next
  /\ guard decodeBase64Ascii Samples.protectedEnv (mkRequest "/logo.png" None) = Next
  /\ guard decodeBase64Ascii Samples.protectedEnv (mkRequest "/api/health" None) = Next.
Proof. repeat split. Qed.

(** C6, amended.  With protection off, and on every path the matcher leaves
    out (what starts with [api], [_next/static], [_next/image] or
    [favicon.ico], and image files), a request reaches the application.  With
    protection on and a non-empty username and password configured, on
    every other path: a request without an [Authorization] header, or with
    one that does not start with [Basic ], or whose decoded credentials hold
    no colon, gets status 401 with a [WWW-Authenticate: Basic] header; a
    request whose decoded credentials are a username and a password without
    colons, joined by one colon, reaches the application if and only if both
    equal the configured values, and gets the same 401 otherwise. *)
Theorem basic_auth_guards_matched_paths
  (decode : string -> string) (env : Env) (request : Request) :
  (ENABLE_PASSWORD_PROTECTION env <> Some "true" -> guard decode env request = Next)
  /\ (matcher (path request) = false -> guard decode env request = Next)
  /\ (forall user pass,
        ENABLE_PASSWORD_PROTECTION env = Some "true" ->
        USERNAME env = Some user -> PASSWORD env = Some pass ->
        user <> "" -> pass <> "" ->
        matcher (path request) = true ->
        (authorization request = None ->
         isBasicChallenge (guard decode env request) = true)
        /\ (forall header,
              authorization request = Some header ->
              Js.startsWith header "Basic " = false ->
              isBasicChallenge (guard decode env request) = true)
        /\ (forall header,
              authorization request = Some header ->
              Js.startsWith header "Basic " = true ->
              Js.includes (decode (drop 6 header)) ":" = false ->
              isBasicChallenge (guard decode env request) = true)
        /\ (forall header u p,
              authorization request = Some header ->
              Js.startsWith header "Basic " = true ->
              decode (drop 6 header) = u ++ ":" ++ p ->
              Js.includes u ":" = false -> Js.includes p ":" = false ->
              (guard decode env request = Next <-> u = user /\ p = pass)
              /\ (guard decode env request = Next
                  \/ isBasicChallenge (guard decode env request) = true))).
Proof.
  split; [| split].
  - intros Hoff. unfold guard, middleware.
    destruct (matcher (path request)); [| reflexivity].
    destruct (ENABLE_PASSWORD_PROTECTION env) as [v |]; [| reflexivity].
    destruct (String.eqb_spec v "true") as [-> | _]; [congruence | reflexivity].
  - intros Hout. unfold guard. now rewrite Hout.
  - intros user pass Hon Huser Hpass Hu Hp Hin.
    unfold guard, middleware. rewrite Hin, Hon, Huser, Hpass.
    rewrite (truthy_nonempty user Hu), (truthy_nonempty pass Hp). cbn [String.eqb negb orb].
    replace ("true" =? "true")%string with true by reflexivity. cbn [negb].
    split; [| split; [| split]].
    + intros ->. reflexivity.
    + intros header -> Hbasic. rewrite Hbasic.
      destruct (Js.truthy header); reflexivity.
    + intros header -> Hbasic Hnone. rewrite Hbasic.
      assert (Ht : Js.truthy header = true) by (destruct header; [discriminate | reflexivity]).
      rewrite Ht. cbn [negb orb].
      rewrite (split_without_colon _ Hnone). cbn [nth_error Js.strict_eqb negb orb].
      rewrite orb_true_r. reflexivity.
    + intros header u p -> Hbasic Hcred Hcu Hcp. rewrite Hbasic.
      assert (Ht : Js.truthy header = true) by (destruct header; [discriminate | reflexivity]).
      rewrite Ht, Hcred. cbn [negb orb].
      rewrite (split_pair u p Hcu Hcp). cbn [nth_error].
      destruct (Js.strict_eqb (Some u) (Some user)) eqn:Eu;
        destruct (Js.strict_eqb (Some p) (Some pass)) eqn:Ep; cbn [negb orb].
      * apply strict_eqb_eq in Eu, Ep. split; [| now left]. now split.
      * split; [| now right]. split; [discriminate |].
        intros [_ E]. apply strict_eqb_eq in E. congruence.
      * split; [| now right]. split; [discriminate |].
        intros [E _]. apply strict_eqb_eq in E. congruence.
      * split; [| now right]. split; [discriminate |].
        intros [E _]. apply strict_eqb_eq in E. congruence.
Qed.

Lemma basic_auth_guards_matched_paths_witness :
  guard decodeBase64Ascii Samples.protectedEnv
    (mkRequest "/" (Some "Basic cmV2aWV3OnJldmlldw==")) = Next
  /\ isBasicChallenge
       (guard decodeBase64Ascii Samples.protectedEnv (mkRequest "/" None)) = true.
Proof.
  pose proof (basic_auth_guards_matched_paths decodeBase64Ascii Samples.protectedEnv
                (mkRequest "/" (Some "Basic cmV2aWV3OnJldmlldw=="))) as (_ & _ & Hin).
  pose proof (basic_auth_guards_matched_paths decodeBase64Ascii Samples.protectedEnv
                (mkRequest "/" None)) as (_ & _ & Hout).
  assert (Ne : "review" <> "") by discriminate.
  destruct (Hin "review" "review" eq_refl eq_refl eq_refl Ne Ne eq_refl)
    as (_ & _ & _ & Hpair).
  destruct (Hout "review" "review" eq_refl eq_refl eq_refl Ne Ne eq_refl)
    as (Hnone & _).
  split.
  - apply (Hpair "Basic cmV2aWV3OnJldmlldw==" "review" "review");
      try reflexivity. now split.
  - now apply Hnone.
Defined.

End MiddlewareFacts.

(** * Further properties of the hooks *)

(** ** Navigating and fitting the preview *)

Section PreviewFacts.

Import PdfState.

Lemma updatePdfState_app (u v : list Field) (s : PdfState) :
  updatePdfState (u ++ v) s = updatePdfState v (updatePdfState u s).
Proof. apply fold_left_app. Qed.

Lemma goToPrevPage_updates (scrollArea : option Q) (s : PdfState) :
  fst (goToPrevPage scrollArea s) = updatePdfState (prevPageUpdates scrollArea s) s.
Proof. now destruct scrollArea. Qed.

Lemma goToNextPage_updates (scrollArea : option Q) (s : PdfState) :
  fst (goToNextPage scrollArea s) = updatePdfState (nextPageUpdates scrollArea s) s.
Proof. now destruct scrollArea. Qed.

Lemma prevPage_page (scrollArea : option Q) (s : PdfState) :
  currentPage (fst (goToPrevPage scrollArea s)) = Z.max (currentPage s - 1) 1
  /\ numPages (fst (goToPrevPage scrollArea s)) = numPages s.
Proof. now destruct scrollArea. Qed.

Lemma nextPage_page (scrollArea : option Q) (s : PdfState) :
  currentPage (fst (goToNextPage scrollArea s))
  = Z.min (currentPage s + 1) (numPages_or_1 s)
  /\ numPages (fst (goToNextPage scrollArea s)) = numPages s.
Proof. now destruct scrollArea. Qed.

Lemma numPages_or_1_loaded (s : PdfState) (n : Z) :
  numPages s = Some n -> 1 <= n -> numPages_or_1 s = n.
Proof.
  intros H Hn. unfold numPages_or_1. rewrite H.
  destruct (Z.eqb_spec n 0); [lia | reflexivity].
Qed.

Lemma loadSuccess_page (loaded : Z) (s : PdfState) :
  numPages (onDocumentLoadSuccess loaded s) = Some loaded
  /\ currentPage (onDocumentLoadSuccess loaded s)
     = match numPages s with None => 1 | Some _ => Z.min (currentPage s) loaded end.
Proof. unfold onDocumentLoadSuccess. now destruct (numPages s). Qed.

(** X1: once a document is loaded and the page shown is one of its pages,
    page navigation keeps it so, and so does a reload of the document with
    any positive page count; a first load of a document with a positive page
    count establishes it. *)
Theorem page_stays_in_range (scrollArea : option Q) (s : PdfState) (loaded : Z) :
  (pageInRange s ->
   pageInRange (fst (goToPrevPage scrollArea s))
   /\ pageInRange (fst (goToNextPage scrollArea s)))
  /\ (1 <= loaded -> numPages s = None \/ pageInRange s ->
      pageInRange (onDocumentLoadSuccess loaded s)
      /\ numPages (onDocumentLoadSuccess loaded s) = Some loaded).
Proof.
  split.
  - intros (n & Hn & Hr). split; exists n.
    + destruct (prevPage_page scrollArea s) as (-> & ->). split; [exact Hn | lia].
    + destruct (nextPage_page scrollArea s) as (-> & ->).
      rewrite (numPages_or_1_loaded s n Hn) by lia. split; [exact Hn | lia].
  - intros Hl H. destruct (loadSuccess_page loaded s) as (Hn & Hc).
    split; [| exact Hn]. exists loaded. split; [exact Hn |]. rewrite Hc.
    destruct H as [-> | (n & -> & Hr)]; lia.
Qed.

Lemma page_stays_in_range_witness :
  pageInRange (fst (goToNextPage (Some 40%Q) Samples.firstPageOfThree))
  /\ pageInRange (onDocumentLoadSuccess 2
                    (updatePdfState [CurrentPage 3] Samples.firstPageOfThree)).
Proof.
  assert (R : pageInRange Samples.firstPageOfThree).
  { exists 3. split; [reflexivity | cbn; lia]. }
  assert (R3 : pageInRange (updatePdfState [CurrentPage 3] Samples.firstPageOfThree)).
  { exists 3. split; [reflexivity | cbn; lia]. }
  assert (Two : 1 <= 2) by lia.
  split.
  - exact (proj2 (proj1 (page_stays_in_range (Some 40%Q) Samples.firstPageOfThree 2) R)).
  - exact (proj1 (proj2 (page_stays_in_range None
                           (updatePdfState [CurrentPage 3] Samples.firstPageOfThree) 2)
                    Two (or_intror R3))).
Defined.

(** X2: inside a loaded document, the two page buttons undo each other:
    from any page but the first, previous then next comes back to the page,
    and from any page but the last, next then previous does. *)
Theorem prev_and_next_undo_each_other (before after : option Q) (s : PdfState) :
  pageInRange s ->
  (1 < currentPage s ->
   currentPage (fst (goToNextPage after (fst (goToPrevPage before s)))) = currentPage s)
  /\ (beforeLastPage s = true ->
      currentPage (fst (goToPrevPage after (fst (goToNextPage before s)))) = currentPage s).
Proof.
  intros (n & Hn & Hr). split.
  - intros Hc.
    destruct (prevPage_page before s) as (Hp & Hpn).
    destruct (nextPage_page after (fst (goToPrevPage before s))) as (-> & _).
    rewrite (numPages_or_1_loaded _ n) by (rewrite ?Hpn; (exact Hn || lia)).
    rewrite Hp. lia.
  - unfold beforeLastPage. rewrite Hn. intros Hc. apply Z.ltb_lt in Hc.
    destruct (nextPage_page before s) as (Hx & Hxn).
    destruct (prevPage_page after (fst (goToNextPage before s))) as (-> & _).
    rewrite Hx, (numPages_or_1_loaded s n Hn) by lia. lia.
Qed.

Lemma prev_and_next_undo_each_other_witness :
  currentPage
    (fst (goToPrevPage None (fst (goToNextPage (Some 40%Q) Samples.firstPageOfThree))))
  = 1.
Proof.
  assert (R : pageInRange Samples.firstPageOfThree).
  { exists 3. split; [reflexivity | cbn; lia]. }
  exact (proj2 (prev_and_next_undo_each_other (Some 40%Q) None Samples.firstPageOfThree R)
           eq_refl).
Defined.

End PreviewFacts.

(** ** Keys and buttons of the preview *)

Section PreviewControlFacts.

Import PdfState.

(** The page's own listener decides as the hook's does. *)
Lemma page_listener_agrees (scrollArea : option Q) (event : KeyEvent) (s : PdfState) :
  PageControls.handleKeyDown scrollArea event s = handleKeyDown scrollArea event s.
Proof.
  unfold PageControls.handleKeyDown, handleKeyDown.
  destruct (documentLoaded s); cbn [negb]; [| reflexivity].
  destruct (targetEditable event); [reflexivity |].
  destruct (String.eqb_spec (key event) "ArrowLeft") as [E | _]; cbn [andb].
  - destruct (1 <? currentPage s); [reflexivity |].
    rewrite E. reflexivity.
  - destruct (key event =? "ArrowRight")%string; reflexivity.
Qed.

(** Writing the same keys twice is writing them once. *)
Lemma navigation_updates_twice (u : list Field) (s : PdfState) :
  (exists scrollArea c, u = prevPageUpdates scrollArea c)
  \/ (exists scrollArea c, u = nextPageUpdates scrollArea c) ->
  updatePdfState (u ++ u) s = updatePdfState u s.
Proof.
  intros [(sa & c & ->) | (sa & c & ->)]; destruct sa; reflexivity.
Qed.

(** What it takes for the listener to handle a press. *)
Lemma handled_shape (scrollArea : option Q) (event : KeyEvent) (s : PdfState) u :
  handleKeyDown scrollArea event s = Some u ->
  documentLoaded s = true
  /\ targetEditable event = false
  /\ ((key event = "ArrowLeft" /\ 1 < currentPage s /\ u = prevPageUpdates scrollArea s)
      \/ (key event = "ArrowRight" /\ beforeLastPage s = true
          /\ u = nextPageUpdates scrollArea s)).
Proof.
  unfold handleKeyDown.
  destruct (documentLoaded s); cbn [negb]; [| discriminate].
  destruct (targetEditable event); [discriminate |].
  destruct (String.eqb_spec (key event) "ArrowLeft") as [EL | NL]; cbn [andb].
  - destruct (1 <? currentPage s) eqn:L.
    + intros [= <-]. apply Z.ltb_lt in L. repeat split. now left.
    + rewrite EL. cbn. discriminate.
  - destruct (String.eqb_spec (key event) "ArrowRight") as [ER | NR]; cbn [andb];
      [| discriminate].
    destruct (beforeLastPage s) eqn:R; [| discriminate].
    intros [= <-]. repeat split. now right.
Qed.

Lemma next_page_of_loaded (scrollArea : option Q) (s : PdfState) :
  documentLoaded s = true -> beforeLastPage s = true ->
  currentPage (updatePdfState (nextPageUpdates scrollArea s) s) = currentPage s + 1.
Proof.
  intros Hdoc Hc. rewrite <- goToNextPage_updates, (proj1 (nextPage_page scrollArea s)).
  unfold beforeLastPage in Hc. unfold documentLoaded in Hdoc. unfold numPages_or_1.
  destruct (numPages s) as [n |]; [| discriminate].
  apply Z.ltb_lt in Hc. apply andb_true_iff in Hdoc as [_ Hdoc].
  apply negb_true_iff in Hdoc. rewrite Hdoc. lia.
Qed.

Lemma prev_page_of_loaded (scrollArea : option Q) (s : PdfState) :
  1 < currentPage s ->
  currentPage (updatePdfState (prevPageUpdates scrollArea s) s) = currentPage s - 1.
Proof.
  intros Hc. rewrite <- goToPrevPage_updates, (proj1 (prevPage_page scrollArea s)). lia.
Qed.

(** X3: a key press is swallowed ([preventDefault]) exactly when it moves
    the page, and then it moves it by one page, although two listeners
    handle every press: the state after both is the state after the hook's
    listener alone.  A press in an input field, or without a loaded
    document, changes nothing. *)
Theorem key_press_moves_one_page (scrollArea : option Q) (event : KeyEvent) (s : PdfState) :
  let after := fst (PageControls.keyPress scrollArea event s) in
  let prevented := snd (PageControls.keyPress scrollArea event s) in
  after
  = updatePdfState (PageControls.written (handleKeyDown scrollArea event s)) s
  /\ (prevented = true <-> currentPage after <> currentPage s)
  /\ (prevented = true ->
      (currentPage after = currentPage s - 1 /\ key event = "ArrowLeft")
      \/ (currentPage after = currentPage s + 1 /\ key event = "ArrowRight"))
  /\ (prevented = false -> after = s)
  /\ (targetEditable event = true \/ documentLoaded s = false -> prevented = false).
Proof.
  cbv zeta. unfold PageControls.keyPress. rewrite page_listener_agrees. cbn [fst snd].
  destruct (handleKeyDown scrollArea event s) as [u |] eqn:H.
  - destruct (handled_shape scrollArea event s u H)
      as (Hdoc & Hedit & [(Hkey & Hc & ->) | (Hkey & Hc & ->)]);
      cbn [PageControls.written Page.is_some orb];
      rewrite navigation_updates_twice by
        ((left; now exists scrollArea, s) || (right; now exists scrollArea, s)).
    + pose proof (prev_page_of_loaded scrollArea s Hc) as Hp. rewrite Hp.
      split; [reflexivity |]. split; [split; [intros _; lia | reflexivity] |].
      split; [intros _; left; now split |]. split; [discriminate |].
      intros [Ht | Hd]; congruence.
    + pose proof (next_page_of_loaded scrollArea s Hdoc Hc) as Hp. rewrite Hp.
      split; [reflexivity |]. split; [split; [intros _; lia | reflexivity] |].
      split; [intros _; right; now split |]. split; [discriminate |].
      intros [Ht | Hd]; congruence.
  - cbn. split; [reflexivity |]. split; [| split; [| split]].
    + split; [discriminate | intros F; now elim F].
    + discriminate.
    + reflexivity.
    + reflexivity.
Qed.

Lemma key_press_moves_one_page_witness :
  currentPage
    (fst (PageControls.keyPress (Some 40%Q) (mkKeyEvent "ArrowRight" false)
            Samples.firstPageOfThree)) = 2
  /\ fst (PageControls.keyPress (Some 40%Q) (mkKeyEvent "ArrowLeft" false)
            Samples.firstPageOfThree) = Samples.firstPageOfThree.
Proof.
  pose proof (key_press_moves_one_page (Some 40%Q) (mkKeyEvent "ArrowRight" false)
                Samples.firstPageOfThree) as (_ & _ & Hmove & _).
  pose proof (key_press_moves_one_page (Some 40%Q) (mkKeyEvent "ArrowLeft" false)
                Samples.firstPageOfThree) as (_ & _ & _ & Hstay & _).
  split.
  - destruct (Hmove eq_refl) as [(_ & E) | (E & _)]; [discriminate E | exact E].
  - exact (Hstay eq_refl).
Defined.

(** X4: on a loaded document whose page is in range, the previous-page and
    the next-page button are disabled exactly when a click would leave the
    page number as it is, and a click on a disabled one would do no more
    than save the scroll offset: it would leave the preview state as
    [saveScrollPosition] alone leaves it, which is the state itself when the
    scroll area is not mounted.  At every zoom factor the toolbar can reach,
    the zoom-out and the zoom-in button are disabled exactly when a click
    would leave the whole preview state as it is. *)
Theorem disabled_buttons_are_the_idle_ones (scrollArea : option Q) (s : PdfState) :
  pageInRange s -> toolbarZoom (pdfZoom s) ->
  (PageControls.prevDisabled s = true
   <-> currentPage (fst (goToPrevPage scrollArea s)) = currentPage s)
  /\ (PageControls.prevDisabled s = true ->
      fst (goToPrevPage scrollArea s) = saveScrollPosition scrollArea s
      /\ fst (goToPrevPage None s) = s)
  /\ (PageControls.nextDisabled s = true
      <-> currentPage (fst (goToNextPage scrollArea s)) = currentPage s)
  /\ (PageControls.nextDisabled s = true ->
      fst (goToNextPage scrollArea s) = saveScrollPosition scrollArea s
      /\ fst (goToNextPage None s) = s)
  /\ (PageControls.zoomOutDisabled s = true <-> handleZoomOut s = s)
  /\ (PageControls.zoomInDisabled s = true <-> handleZoomIn s = s).
Proof.
  intros (n & Hn & Hr) Hzoom.
  destruct (zoom_within_facts _ (toolbar_zoom_within _ Hzoom)) as (_ & _ & _ & Hfloor & Hceil).
  assert (Hsame : forall area page,
            page = currentPage s ->
            updatePdfState [CurrentPage page] (saveScrollPosition area s)
            = saveScrollPosition area s).
  { intros area page ->. destruct area, s; reflexivity. }
  split; [| split; [| split; [| split; [| split]]]].
  - unfold PageControls.prevDisabled. rewrite (proj1 (prevPage_page scrollArea s)).
    rewrite Z.leb_le. lia.
  - unfold PageControls.prevDisabled. rewrite Z.leb_le. intros Hp.
    unfold goToPrevPage. cbn [fst].
    split; [apply Hsame; lia | now rewrite (Hsame None) by lia].
  - unfold PageControls.nextDisabled. rewrite Hn, (proj1 (nextPage_page scrollArea s)).
    rewrite (numPages_or_1_loaded s n Hn) by lia. rewrite Z.leb_le. lia.
  - unfold PageControls.nextDisabled. rewrite Hn, Z.leb_le. intros Hp.
    unfold goToNextPage. cbn [fst]. rewrite (numPages_or_1_loaded s n Hn) by lia.
    split; [apply Hsame; lia | now rewrite (Hsame None) by lia].
  - unfold PageControls.zoomOutDisabled. rewrite Hfloor.
    unfold handleZoomOut, updatePdfState. cbn [fold_left set_field]. split.
    + intros ->. now destruct s.
    + intros E. apply (f_equal pdfZoom) in E. exact E.
  - unfold PageControls.zoomInDisabled. rewrite Hceil.
    unfold handleZoomIn, updatePdfState. cbn [fold_left set_field]. split.
    + intros ->. now destruct s.
    + intros E. apply (f_equal pdfZoom) in E. exact E.
Qed.

Lemma disabled_buttons_are_the_idle_ones_witness :
  let atFloor :=
    fold_left (fun t r => zoom_step r t) (repeat ZoomOut 10) Samples.firstPageOfThree in
  PageControls.prevDisabled Samples.firstPageOfThree = true
  /\ currentPage (fst (goToNextPage None Samples.firstPageOfThree))
     <> currentPage Samples.firstPageOfThree
  /\ PageControls.zoomOutDisabled atFloor = true
  /\ handleZoomOut atFloor = atFloor.
Proof.
  cbv zeta.
  assert (R : pageInRange Samples.firstPageOfThree).
  { exists 3. split; [reflexivity | cbn; lia]. }
  assert (T : toolbarZoom (pdfZoom Samples.firstPageOfThree)).
  { exists []. split; [constructor | reflexivity]. }
  pose proof (disabled_buttons_are_the_idle_ones None Samples.firstPageOfThree R T)
    as (Hprev & _ & Hnext & _).
  assert (R' : pageInRange
                 (fold_left (fun t r => zoom_step r t) (repeat ZoomOut 10)
                    Samples.firstPageOfThree)).
  { exists 3. split; [reflexivity | cbn; lia]. }
  assert (T' : toolbarZoom
                 (pdfZoom (fold_left (fun t r => zoom_step r t) (repeat ZoomOut 10)
                             Samples.firstPageOfThree))).
  { exists (repeat ZoomOut 10). split; [repeat constructor | vm_compute; reflexivity]. }
  pose proof (disabled_buttons_are_the_idle_ones None _ R' T') as (_ & _ & _ & _ & Hout & _).
  split; [apply Hprev; reflexivity |].
  split; [intros E; apply Hnext in E; discriminate E |].
  split; [vm_compute; reflexivity | apply Hout; vm_compute; reflexivity].
Defined.

(** X5: while a document is loaded and the pane is mounted, the layout
    effect sets the preview width to the larger of 200 and the pane's width
    less 32, so the document is rendered whatever the pane measures; it
    resets zoom and scroll exactly when the PDF pane has just been maximised
    or minimised, and touches neither the page nor the page count; without
    a document it removes the width and nothing is rendered. *)
Theorem layout_effect_fits_the_preview
  (was now : bool) (offsetWidth : Z) (container : option Z) (s : PdfState) :
  (Js.truthy_opt (pdfUrl s) = true ->
   let fitted := layoutEffect was now (Some offsetWidth) s in
   pdfDisplayWidth fitted = Some (Z.max (offsetWidth - 32) 200)
   /\ PageControls.documentShown fitted = true
   /\ (was <> now -> pdfZoom fitted = 1.0%float /\ scrollPosition fitted = 0%Q)
   /\ (was = now -> pdfZoom fitted = pdfZoom s /\ scrollPosition fitted = scrollPosition s)
   /\ currentPage fitted = currentPage s /\ numPages fitted = numPages s)
  /\ (Js.truthy_opt (pdfUrl s) = false ->
      pdfDisplayWidth (layoutEffect was now container s) = None
      /\ PageControls.documentShown (layoutEffect was now container s) = false).
Proof.
  unfold layoutEffect. split; intros Hurl; rewrite Hurl.
  - cbv zeta. unfold PageControls.documentShown.
    assert (Hnz : (fittedWidth offsetWidth =? 0) = false)
      by (apply Z.eqb_neq; unfold fittedWidth; lia).
    destruct was, now;
      unfold updatePdfDisplayWidth, updatePdfState;
      cbn [negb andb orb fold_left set_field pdfDisplayWidth pdfUrl pdfZoom scrollPosition
           currentPage numPages];
      rewrite Hurl, Hnz;
      (split; [reflexivity |]); (split; [reflexivity |]);
      (split; [intros H; try congruence; now split |]);
      (split; [intros H; try congruence; now split |]); now split.
  - unfold PageControls.documentShown, updatePdfState.
    cbn [fold_left set_field pdfDisplayWidth pdfUrl]. now rewrite Hurl.
Qed.

Lemma layout_effect_fits_the_preview_witness :
  pdfDisplayWidth (layoutEffect false true (Some 120) Samples.firstPageOfThree) = Some 200
  /\ pdfDisplayWidth (layoutEffect true true (Some 1000) Samples.firstPageOfThree)
     = Some 968.
Proof.
  pose proof (layout_effect_fits_the_preview false true 120 None Samples.firstPageOfThree)
    as (H1 & _).
  pose proof (layout_effect_fits_the_preview true true 1000 None Samples.firstPageOfThree)
    as (H2 & _).
  split; [exact (proj1 (H1 eq_refl)) | exact (proj1 (H2 eq_refl))].
Defined.

End PreviewControlFacts.

(** ** Every run of the analysis request *)

Section RunFacts.

Import ApiState.

(** X6: every run of [submitPdf], whatever the configuration and whatever
    the network answers, calls exactly one of [onError] and [onSuccess],
    exactly once; it stores insights exactly when it calls [onSuccess], and
    stores the text it passes; it sends no request without a configured
    backend address and exactly one POST of the file otherwise; and it
    leaves the loading flag off. *)
Theorem every_run_ends_one_way base fetch file :
  let calls := submitPdf base fetch file in
  (List.length (errors calls) + List.length (successes calls) = 1)%nat
  /\ stored calls = map Some (successes calls)
  /\ (forall s, isLoading (run calls s) = false)
  /\ (backendApiUrl base = None ->
      requests calls = [] /\ errors calls = [notConfigured])
  /\ (forall url, backendApiUrl base = Some url ->
      requests calls = [(url, "POST", [("pdf_file", file)])]).
Proof.
  cbv zeta. unfold submitPdf.
  destruct (backendApiUrl base) as [url |].
  - destruct (attempt fetch url [("pdf_file", file)]); cbn;
      repeat split; try discriminate; intros ? [= <-]; reflexivity.
  - cbn. repeat split; discriminate.
Qed.

Lemma every_run_ends_one_way_witness :
  requests (submitPdf None Samples.summaryBackend Samples.paperPdf) = []
  /\ requests (submitPdf (Some "http://localhost:8000") Samples.summaryBackend
                 Samples.paperPdf)
     = [(Samples.processUrl, "POST", [("pdf_file", Samples.paperPdf)])].
Proof.
  pose proof (every_run_ends_one_way None Samples.summaryBackend Samples.paperPdf)
    as (_ & _ & _ & Hnone & _).
  pose proof (every_run_ends_one_way (Some "http://localhost:8000") Samples.summaryBackend
                Samples.paperPdf) as (_ & _ & _ & _ & Hsome).
  split; [exact (proj1 (Hnone eq_refl)) | exact (Hsome Samples.processUrl eq_refl)].
Defined.

(** X7: the rewriting of error messages settles at once: a rewritten
    message is rewritten to itself, so the friendly messages never trigger
    one another; and no message, not even the empty one, is rewritten to the
    empty message. *)
Theorem friendly_messages_are_stable (message : string) :
  friendlyMessage (friendlyMessage message) = friendlyMessage message
  /\ friendlyMessage message <> "".
Proof.
  split; [| apply friendlyMessage_nonempty].
  destruct (friendlyMessage_ends message) as [E | [E | [E | [E I]]]];
    [rewrite E; reflexivity .. | exact I].
Qed.

Lemma run_errors base fetch file e :
  In e (errors (submitPdf base fetch file)) ->
  e = notConfigured \/ exists message, e = friendlyMessage message.
Proof.
  unfold submitPdf. destruct (backendApiUrl base) as [url |].
  - destruct (attempt fetch url [("pdf_file", file)]) as [x | m]; cbn.
    + intros [].
    + intros [<- | []]. right. now exists m.
  - cbn. intros [<- | []]. now left.
Qed.

(** X8: an error of a run is never empty, so a failed submit always shows:
    after [handleFormSubmit], whenever the run reported an error, the alert is
    on screen with that error as long as the form itself has no error. *)
Theorem run_errors_are_shown env w file (a : Page.AppState) :
  let result := Page.handleFormSubmit env w (Some [file]) a in
  forall e,
    In e (errors (snd result)) ->
    e <> ""
    /\ UIState.error (Page.ui (fst result)) = Some e
    /\ (UploadState.formError (Page.upload a) = None ->
        UIState.alertShown (UploadState.formError (Page.upload (fst result)))
          (Page.ui (fst result)) = Some e).
Proof.
  cbv zeta. intros e He. cbn [Page.handleFormSubmit snd fst] in *.
  assert (Hne : e <> "").
  { destruct (run_errors _ _ _ _ He) as [-> | (m & ->)]; [discriminate |].
    apply friendlyMessage_nonempty. }
  split; [exact Hne |].
  revert He. unfold submitPdf.
  destruct (backendApiUrl (Page.backendBaseUrl env)) as [url |].
  - destruct (attempt (Page.post w) url [("pdf_file", file)]) as [x | m]; cbn.
    + intros [].
    + intros [<- | []]. split; [reflexivity |]. intros ->.
      destruct (friendlyMessage m); [congruence | reflexivity].
  - cbn. intros [<- | []]. split; [reflexivity |]. now intros ->.
Qed.

Lemma run_errors_are_shown_witness :
  UIState.alertShown None
    (Page.ui (fst (Page.handleFormSubmit Samples.env
                     (Samples.world Samples.noPage Samples.timedOutBackend)
                     (Some [Samples.paperPdf]) (Page.initial false))))
  = Some timeoutMessage.
Proof.
  pose proof (run_errors_are_shown Samples.env
                (Samples.world Samples.noPage Samples.timedOutBackend)
                Samples.paperPdf (Page.initial false) timeoutMessage) as H.
  cbv zeta in H. destruct (H (or_introl eq_refl)) as (_ & _ & Hshown).
  exact (Hshown eq_refl).
Defined.

Lemma mentions_none_of (lowered : string) (some all : list string) :
  incl some all -> mentions lowered all = false -> mentions lowered some = false.
Proof.
  intros Hincl Hall. destruct (mentions lowered some) eqn:E; [| reflexivity].
  apply existsb_exists in E as (needle & Hin & Hneedle).
  assert (F : mentions lowered all = true)
    by (apply existsb_exists; exists needle; split; [now apply Hincl | exact Hneedle]).
  congruence.
Qed.

(** A non-empty message without any of the phrases is left as it is. *)
Lemma friendlyMessage_plain (message : string) :
  message <> "" ->
  mentions (Js.toLowerCase message) triggers = false ->
  friendlyMessage message = message.
Proof.
  intros Hne Hm. unfold friendlyMessage. rewrite (truthy_nonempty message Hne).
  rewrite !(mentions_none_of _ _ triggers) by
    (exact Hm || (intros x Hx; cbn in Hx |- *; tauto)).
  reflexivity.
Qed.

(** X9: the backend's own explanation reaches the user word for word.  For
    a non-2xx response whose JSON body is an object with a non-empty string
    [detail] of ASCII text, the one error the run reports is that [detail],
    unless its lower-case form contains one of the phrases the handler
    rewrites; [message] and [error] are read only when [detail] is missing
    or empty. *)
Theorem backend_detail_is_reported base fetch file url r props detail :
  backendApiUrl base = Some url ->
  fetch url [("pdf_file", file)] = Net.Responded r ->
  Net.ok r = false ->
  Net.json r = Net.JsonValue (Js.JObj props) ->
  Js.lookup "detail" props = Js.Val (Js.JStr detail) ->
  detail <> "" ->
  Js.isAscii detail = true ->
  mentions (Js.toLowerCase detail) triggers = false ->
  errors (submitPdf base fetch file) = [detail].
Proof.
  intros Hurl Hnet Hok Hj Hd Hne _ Hplain.
  unfold submitPdf, attempt. rewrite Hurl, Hnet. cbn [Net.await Net.bind].
  unfold readInsights. rewrite Hok. cbn [negb].
  assert (E : apiErrorMessage r = detail).
  { unfold apiErrorMessage. rewrite Hj. cbn [Js.get_prop]. rewrite Hd.
    unfold Js.or_else. cbn [Js.value_truthy Js.json_truthy].
    repeat (rewrite (truthy_nonempty detail Hne); cbn). reflexivity. }
  rewrite E. cbn. now rewrite (friendlyMessage_plain detail Hne Hplain).
Qed.

Lemma backend_detail_is_reported_witness :
  errors (submitPdf (Some "http://localhost:8000") Samples.tooLargeBackend Samples.paperPdf)
  = ["File size exceeds the 50MB limit"].
Proof.
  apply (backend_detail_is_reported (Some "http://localhost:8000") Samples.tooLargeBackend
           Samples.paperPdf Samples.processUrl
           (Samples.jsonResponse 413 "Payload Too Large"
              (Js.JObj [("detail", Js.JStr "File size exceeds the 50MB limit");
                        ("message", Js.JStr "ignored")]))
           [("detail", Js.JStr "File size exceeds the 50MB limit");
            ("message", Js.JStr "ignored")]);
    try reflexivity.
  discriminate.
Defined.

(** A phrase is also found when it is spelt with the Kelvin sign U+212A or
    with the dotted capital I U+0130, whose lower cases hold the letters [k]
    and [i]. *)
Lemma phrases_found_through_lowering :
  let kelvin := String (ascii_of_nat 226) (String (ascii_of_nat 132)
                  (String (ascii_of_nat 170) EmptyString)) in
  let dottedI := String (ascii_of_nat 196) (String (ascii_of_nat 176) EmptyString) in
  friendlyMessage ("TO" ++ kelvin ++ "EN LIMIT reached") = contextMessage
  /\ friendlyMessage ("T" ++ dottedI ++ "MEOUT") = "T" ++ dottedI ++ "MEOUT"
  /\ friendlyMessage ("Request T" ++ dottedI ++ "MED OUT") = "Request T" ++ dottedI ++ "MED OUT"
  /\ friendlyMessage "Request TIMED OUT" = timeoutMessage.
Proof. cbv zeta. repeat split; vm_compute; reflexivity. Qed.

End RunFacts.

(** ** The report pane's text size *)

Section TextSizeFacts.

Import InsightsViewer.

Lemma click_keeps_size (t : Z) (c : TextSizeClick) :
  minTextSize <= t <= maxTextSize /\ Z.even t = true ->
  minTextSize <= click t c <= maxTextSize /\ Z.even (click t c) = true.
Proof.
  unfold minTextSize, maxTextSize. intros [Hr He].
  destruct c; unfold click, increaseTextSize, decreaseTextSize, minTextSize, maxTextSize.
  - split; [lia |]. destruct (Z.min_spec (t + 2) 24) as [[_ ->] | [_ ->]];
      [now rewrite Z.even_add, He | reflexivity].
  - split; [lia |]. destruct (Z.max_spec (t - 2) 14) as [[_ ->] | [_ ->]];
      [reflexivity | now rewrite Z.even_sub, He].
Qed.

(** X10: whatever sequence of clicks on the two text-size buttons, the text
    size of the report is an even number of pixels from 14 to 24; and while a
    report is shown, each button is rendered disabled exactly when a click
    on it would leave the size as it is. *)
Theorem text_size_stays_in_steps (clicks : list TextSizeClick) (testing : bool) (p : Props) :
  let textSize := fold_left click clicks initialTextSize in
  (14 <= textSize <= 24 /\ Z.even textSize = true)
  /\ (Js.truthy_opt (insights p) = true ->
      (decreaseButton (render testing textSize p) = Some true
       <-> decreaseTextSize textSize = textSize)
      /\ (increaseButton (render testing textSize p) = Some true
          <-> increaseTextSize textSize = textSize)
      /\ textSizeControlsShown (render testing textSize p) = true).
Proof.
  cbv zeta.
  assert (Inv : forall t, minTextSize <= t <= maxTextSize /\ Z.even t = true ->
                  minTextSize <= fold_left click clicks t <= maxTextSize
                  /\ Z.even (fold_left click clicks t) = true).
  { induction clicks as [| c rest IH]; intros t Ht; [exact Ht |].
    cbn [fold_left]. apply IH. now apply click_keeps_size. }
  assert (H0 : minTextSize <= initialTextSize <= maxTextSize /\ Z.even initialTextSize = true)
    by (unfold minTextSize, initialTextSize, maxTextSize; split; [lia | reflexivity]).
  specialize (Inv initialTextSize H0). clear H0.
  generalize dependent (fold_left click clicks initialTextSize). intros t.
  unfold minTextSize, maxTextSize. intros [Hr He].
  split; [now split |].
  intros Hshown. unfold render, textSizeControlsShown.
  cbn [decreaseButton increaseButton]. rewrite Hshown.
  unfold decreaseTextSize, increaseTextSize, minTextSize, maxTextSize.
  split; [| split; [| reflexivity]].
  - split.
    + intros [= H]. apply Z.leb_le in H. lia.
    + intros H. f_equal. apply Z.leb_le. lia.
  - split.
    + intros [= H]. apply Z.leb_le in H. lia.
    + intros H. f_equal. apply Z.leb_le. lia.
Qed.

Lemma text_size_stays_in_steps_witness :
  fold_left click [Increase; Increase; Decrease] initialTextSize = 16
  /\ decreaseButton (render true 14 (mkProps (Some "# Report") false false true)) = Some true.
Proof.
  split; [reflexivity |].
  pose proof (text_size_stays_in_steps [] true (mkProps (Some "# Report") false false true))
    as (_ & H).
  destruct (H eq_refl) as (Hdec & _).
  apply Hdec. reflexivity.
Defined.

End TextSizeFacts.

(** ** Names and outcomes of a load by URL *)

Section UrlLoadFacts.

Import Files UploadState.

Lemma string_app_assoc (a b c : string) : (a ++ (b ++ c) = (a ++ b) ++ c)%string.
Proof. induction a as [| x a IH]; [reflexivity |]. cbn [append]. now rewrite IH. Qed.

Lemma endsWith_app (s suf : string) : Js.endsWith (s ++ suf) suf = true.
Proof.
  induction s as [| c s IH]; cbn [append Js.endsWith].
  - destruct suf; cbn [Js.endsWith]; now rewrite String.eqb_refl.
  - rewrite IH. apply orb_true_r.
Qed.

Lemma safeName_app (a b : string) : safeName (a ++ b) = safeName a && safeName b.
Proof.
  unfold safeName. induction a as [| c a IH]; [reflexivity |].
  cbn [append list_ascii_of_string forallb]. now rewrite IH, andb_assoc.
Qed.

Lemma safeName_sanitize (s : string) : safeName (Js.map_chars sanitize s) = true.
Proof.
  unfold safeName. induction s as [| c s IH]; [reflexivity |].
  cbn [Js.map_chars list_ascii_of_string forallb]. rewrite IH, andb_true_r.
  unfold sanitize. destruct (keeps c) eqn:K; [exact K | reflexivity].
Qed.

Lemma safeName_substring (n m : nat) (s : string) :
  safeName s = true -> safeName (String.substring n m s) = true.
Proof.
  unfold safeName. revert n m. induction s as [| c s IH]; intros n m H.
  - destruct n, m; reflexivity.
  - cbn [list_ascii_of_string forallb] in H. apply andb_true_iff in H as [Hc Hs].
    destruct n as [| n]; cbn [String.substring].
    + destruct m as [| m]; [reflexivity |].
      cbn [list_ascii_of_string forallb]. now rewrite Hc, (IH 0%nat m Hs).
    + now apply IH.
Qed.

Lemma safeName_uint (d : Decimal.uint) : safeName (NilEmpty.string_of_uint d) = true.
Proof.
  unfold safeName. induction d; cbn [NilEmpty.string_of_uint list_ascii_of_string forallb];
    try reflexivity; now rewrite IHd.
Qed.

Lemma safeName_string_of_Z (n : Z) : safeName (Js.string_of_Z n) = true.
Proof.
  unfold Js.string_of_Z, NilZero.string_of_int.
  assert (U : forall d, safeName (NilZero.string_of_uint d) = true).
  { intros d. destruct d; try reflexivity; apply (safeName_uint _). }
  destruct (Z.to_int n) as [d | d]; [apply U |].
  change (String "-" (NilZero.string_of_uint d)) with ("-" ++ NilZero.string_of_uint d).
  rewrite safeName_app, U. reflexivity.
Qed.

(** X11: the name a load by URL gives the file always ends in [.pdf] and is
    made only of letters, digits, dots, underscores and hyphens, whatever the
    URL, its path and the clock are; so it is never empty and holds no path
    separator. *)
Theorem derived_file_name_is_safe
  (pathname : string -> option string) (now : Z) (url : string) :
  let derived := extractFileNameFromUrl pathname now url in
  Js.endsWith derived ".pdf" = true
  /\ safeName derived = true
  /\ derived <> ""
  /\ Js.includes derived "/" = false.
Proof.
  cbv zeta.
  assert (E : Js.endsWith (extractFileNameFromUrl pathname now url) ".pdf" = true).
  { unfold extractFileNameFromUrl. destruct (pathname url) as [path |].
    - cbv zeta.
      match goal with |- context [Js.map_chars sanitize ?l] =>
        generalize (Js.map_chars sanitize l) end.
      intros t. destruct (Js.endsWith t ".pdf") eqn:Ht; [exact Ht | apply endsWith_app].
    - rewrite string_app_assoc. apply endsWith_app. }
  assert (S : safeName (extractFileNameFromUrl pathname now url) = true).
  { unfold extractFileNameFromUrl. destruct (pathname url) as [path |].
    - cbv zeta.
      match goal with |- context [Js.map_chars sanitize ?l] =>
        pose proof (safeName_sanitize l) as Hs; generalize dependent (Js.map_chars sanitize l) end.
      intros t Hs. destruct (Js.endsWith t ".pdf"); [exact Hs |].
      rewrite safeName_app. unfold Js.substring0. now rewrite safeName_substring.
    - rewrite !safeName_app, safeName_string_of_Z. reflexivity. }
  split; [exact E | split; [exact S | split]].
  - intros H. rewrite H in E. discriminate E.
  - revert S. generalize (extractFileNameFromUrl pathname now url). unfold safeName.
    induction s as [| c s IH]; [reflexivity |].
    cbn [list_ascii_of_string forallb]. intros H. apply andb_true_iff in H as [Hc Hs].
    cbn [Js.includes String.prefix]. rewrite (IH Hs), orb_false_r.
    destruct (ascii_dec "/" c) as [<- | _]; [discriminate Hc | reflexivity].
Qed.

Lemma fetched_file_acceptable fetch pathname now url derived file :
  fetchPdfFile fetch pathname now url = Net.Return (derived, file) ->
  derived = name file /\ acceptable file = true /\ formSchema (Some [file]) = [].
Proof.
  unfold fetchPdfFile. destruct (fetch url) as [m | r]; cbn [Net.await Net.bind]; [discriminate |].
  destruct (negb (Net.ok r)); [discriminate |].
  destruct (negb (Net.contentType_includes r "application/pdf")); [discriminate |].
  destruct (MAX_FILE_SIZE <? Net.bodySize r) eqn:Hsize; [discriminate |].
  intros [= <- <-]. apply Z.ltb_ge in Hsize.
  assert (A : acceptable (fileFromUrl pathname now url r) = true).
  { unfold acceptable, fileFromUrl. cbn [type size]. apply andb_true_iff. split.
    - reflexivity.
    - now apply Z.leb_le. }
  split; [reflexivity | split; [exact A |]].
  unfold acceptable in A. apply andb_true_iff in A as [At As].
  unfold formSchema. now rewrite At, As.
Qed.

(** X12: a click on the load button, which the page offers only while no
    load is running, ends in one of two ways.  Either the fetched file is the
    form's value, accepted by the form's own schema, named in the one
    [onSuccess] call, with the URL field emptied and no error; or [onSuccess]
    is not called, a non-empty URL error is set, the URL stays in its field
    and a file loaded earlier stays in the form.  Both modes are left as they
    were and the loading flag is down again. *)
Theorem url_load_ends_one_way
  (fetch : string -> Net.FetchOutcome) (pathname : string -> option string) (now : Z)
  (s : UploadState) :
  isUrlLoading s = false ->
  let after := fst (handleLoadFromUrl fetch pathname now s) in
  let calls := snd (handleLoadFromUrl fetch pathname now s) in
  isUrlLoading after = false
  /\ isUrlMode after = isUrlMode s
  /\ isPreloadMode after = isPreloadMode s
  /\ ((exists file,
         calls = [OnSuccess (name file)]
         /\ uploadedFile after = Some [file]
         /\ acceptable file = true
         /\ formError after = None
         /\ urlError after = None
         /\ pdfUrlInputValue after = "")
      \/ (existsb Page.succeeded calls = false
          /\ (exists message, message <> "" /\ urlError after = Some message)
          /\ pdfUrlInputValue after = pdfUrlInputValue s
          /\ loaded (uploadedFile after) = loaded (uploadedFile s)
          /\ (loaded (uploadedFile s) = true -> uploadedFile after = uploadedFile s))).
Proof.
  intros Hidle. cbv zeta. unfold handleLoadFromUrl.
  destruct (negb (Js.truthy (pdfUrlInputValue s))
            || negb (Js.startsWith (Js.trim (pdfUrlInputValue s)) "http")).
  - cbn. repeat split; try assumption. right. repeat split.
    eexists. split; [| reflexivity]. discriminate.
  - destruct (fetchPdfFile fetch pathname now (pdfUrlInputValue s)) as [[derived file] | message]
      eqn:Hfetch.
    + apply fetched_file_acceptable in Hfetch as (-> & Hacc & Hschema).
      cbn -[formSchema acceptable]. repeat split. left. exists file.
      repeat split; try assumption. now rewrite Hschema.
    + cbn [fst snd].
      assert (Hshown : exists shown, shown <> ""
                /\ (if Js.truthy message then message
                    else "Could not load PDF from the provided URL. This might be a CORS issue if fetching from a different domain.")
                   = shown).
      { destruct message; cbn; eexists; (split; [| reflexivity]); discriminate. }
      destruct Hshown as (shown & Hne & ->).
      destruct (loaded (uploadedFile s)) eqn:L; cbn;
        (split; [reflexivity | split; [reflexivity | split; [reflexivity |]]]);
        right;
        (split; [reflexivity | split; [now exists shown | split; [reflexivity |]]]).
      * split; [exact L | reflexivity].
      * split; [reflexivity | discriminate].
Qed.

Lemma url_load_ends_one_way_witness :
  let w := Samples.world Samples.paperHost Samples.summaryBackend in
  let s := Page.upload (Samples.urlTyped "https://example.org/papers/gpt-1") in
  snd (handleLoadFromUrl (Page.fetch w) (Page.pathname w) (Page.now w) s)
  = [OnSuccess "gpt-1.pdf"]
  /\ isUrlLoading (fst (handleLoadFromUrl (Page.fetch w) (Page.pathname w) (Page.now w) s))
     = false.
Proof.
  cbv zeta. split; [reflexivity |].
  apply (url_load_ends_one_way
           (Page.fetch (Samples.world Samples.paperHost Samples.summaryBackend))
           (Page.pathname (Samples.world Samples.paperHost Samples.summaryBackend))
           (Page.now (Samples.world Samples.paperHost Samples.summaryBackend))
           (Page.upload (Samples.urlTyped "https://example.org/papers/gpt-1"))).
  reflexivity.
Defined.

End UrlLoadFacts.

(** ** The upload form across a session *)

Section FormFrame.

Import Files UploadState.

(** A property of the upload state that only its two mode flags and its
    drag flag decide, and that switching URL mode off, switching preload mode
    off and switching preload mode on all keep. *)
Variable I : UploadState -> Prop.

Hypothesis I_flags :
  forall u v,
    isUrlMode u = isUrlMode v -> isPreloadMode u = isPreloadMode v ->
    isDraggingOver u = isDraggingOver v -> I u -> I v.

Hypothesis I_urlOff : forall u, I u -> I (setIsUrlMode false u).

Hypothesis I_preloadOff : forall u, I u -> I (setIsPreloadMode false u).

Hypothesis I_preloadOn :
  forall u, I u -> I (setIsPreloadMode true (setIsUrlMode false (setIsDraggingOver false u))).

Lemma settle_flags w before stored (a : Page.AppState) :
  isUrlMode (Page.upload (Page.settle w before stored a)) = isUrlMode (Page.upload a)
  /\ isPreloadMode (Page.upload (Page.settle w before stored a)) = isPreloadMode (Page.upload a)
  /\ isDraggingOver (Page.upload (Page.settle w before stored a))
     = isDraggingOver (Page.upload a).
Proof.
  unfold Page.settle, Page.uploadedFileEffect.
  destruct (stored || _); [| now repeat split].
  destruct (uploadedFile (Page.upload a)) as [[| f l] |]; [now repeat split | | now repeat split].
  destruct (Page.readAsDataURL w f) as [result |]; [| now repeat split].
  destruct (Js.truthy result); [| now repeat split].
  destruct (Js.truthy_opt (UIState.error (Page.ui a))); now repeat split.
Qed.

Lemma keeps_settle w before stored (a : Page.AppState) :
  I (Page.upload a) -> I (Page.upload (Page.settle w before stored a)).
Proof.
  destruct (settle_flags w before stored a) as (Hu & Hp & Hd).
  intros H. now apply (I_flags (Page.upload a)).
Qed.

Lemma runApi_upload (calls : list ApiState.Call) (a : Page.AppState) :
  Page.upload (Page.runApi calls a) = Page.upload a.
Proof.
  unfold Page.runApi. revert a. induction calls as [| c calls IH]; intros a; [reflexivity |].
  cbn [fold_left]. rewrite IH. now destruct c.
Qed.

Lemma bindUpload_upload (calls : list UploadState.Call) (a : Page.AppState) :
  Page.upload (fold_left Page.bindUpload calls a) = Page.upload a.
Proof.
  revert a. induction calls as [| c calls IH]; intros a; [reflexivity |].
  cbn [fold_left]. rewrite IH. now destruct c.
Qed.

Lemma bindPreload_upload (calls : list PreloadState.Call) (a : Page.AppState) :
  Page.upload (fold_left Page.bindPreload calls a) = Page.upload a.
Proof.
  revert a. induction calls as [| c calls IH]; intros a; [reflexivity |].
  cbn [fold_left]. rewrite IH. now destruct c.
Qed.

Lemma keeps_urlToggle (checked : bool) (u : UploadState) :
  (checked = true -> I (setIsUrlMode true (setIsDraggingOver false u))) ->
  I u -> I (handleUrlModeToggle checked u).
Proof.
  intros Hon H. unfold handleUrlModeToggle.
  destruct (loaded (uploadedFile u)); [exact H |].
  destruct checked.
  - now apply (I_flags (setIsUrlMode true (setIsDraggingOver false u))); [| | | apply Hon].
  - now apply (I_flags (setIsUrlMode false u)); [| | | apply I_urlOff].
Qed.

Lemma keeps_preloadToggle (checked : bool) (u : UploadState) :
  I u -> I (handlePreloadModeToggle checked u).
Proof.
  intros H. unfold handlePreloadModeToggle.
  destruct (loaded (uploadedFile u)); [exact H |].
  destruct checked.
  - now apply (I_flags (setIsPreloadMode true (setIsUrlMode false (setIsDraggingOver false u))));
      [| | | apply I_preloadOn].
  - now apply (I_flags (setIsPreloadMode false u)); [| | | apply I_preloadOff].
Qed.

Lemma keeps_bindDrop (a : Page.AppState) (c : DragDrop.Call) :
  c <> DragDrop.OnUrlModeToggle true ->
  I (Page.upload a) -> I (Page.upload (Page.bindDrop a c)).
Proof.
  intros Hc H. destruct c as [b | checked | e | v]; cbn [Page.bindDrop].
  - exact H.
  - destruct checked; [now contradiction Hc |].
    cbn [Page.with_upload Page.upload]. apply keeps_urlToggle; [discriminate | exact H].
  - exact H.
  - now apply (I_flags (Page.upload a)).
Qed.

Lemma keeps_drop_calls (calls : list DragDrop.Call) (a : Page.AppState) :
  (forall c, In c calls -> c <> DragDrop.OnUrlModeToggle true) ->
  I (Page.upload a) -> I (Page.upload (fold_left Page.bindDrop calls a)).
Proof.
  revert a. induction calls as [| c calls IH]; intros a Hall H; [exact H |].
  cbn [fold_left]. apply IH.
  - intros c' Hin. apply Hall. now right.
  - apply keeps_bindDrop; [apply Hall; now left | exact H].
Qed.

Lemma handleDrop_toggles_off (p : DragDrop.Props) (files : FileList) (c : DragDrop.Call) :
  In c (DragDrop.handleDrop p files) -> c <> DragDrop.OnUrlModeToggle true.
Proof.
  unfold DragDrop.handleDrop. intros [<- | Hin]; [discriminate |].
  destruct (DragDrop.isLoading p || DragDrop.isUrlLoading p); [contradiction |].
  apply in_app_or in Hin as [Hin | Hin].
  - destruct (DragDrop.isUrlMode p); [| contradiction].
    destruct Hin as [<- | []]. discriminate.
  - destruct files as [| file rest]; [contradiction |].
    destruct (1 <? List.length (file :: rest))%nat;
      [| destruct (negb (Js.array_includes (DragDrop.acceptedFileTypes p) (type file)));
         [| destruct (DragDrop.maxFileSize p <? size file)]];
      destruct Hin as [<- | [<- | []]]; discriminate.
Qed.

Lemma keeps_loadFromUrl fetch pathname now (u : UploadState) :
  I u -> I (fst (handleLoadFromUrl fetch pathname now u)).
Proof.
  intros H. apply (I_flags u); [| | | exact H]; unfold handleLoadFromUrl;
    (destruct (negb (Js.truthy (pdfUrlInputValue u)) || _); [reflexivity |]);
    (destruct (fetchPdfFile fetch pathname now (pdfUrlInputValue u)) as [[derived file] | m];
       [reflexivity |]);
    destruct (loaded (uploadedFile u)); reflexivity.
Qed.

Lemma keeps_validate (u : UploadState) : I u -> I (fst (validateOnSubmit u)).
Proof.
  intros H. apply (I_flags u); [| | | exact H]; unfold validateOnSubmit;
    destruct (formSchema (uploadedFile u)); reflexivity.
Qed.

Lemma submit_upload env w (a : Page.AppState) :
  Page.upload (fst (Page.submit env w a)) = fst (validateOnSubmit (Page.upload a)).
Proof.
  unfold Page.submit. destruct (validateOnSubmit (Page.upload a)) as [u data].
  destruct data as [d |]; [| reflexivity].
  unfold Page.handleFormSubmit. destruct d as [[| file rest] |]; try reflexivity.
  cbn [fst]. now rewrite runApi_upload.
Qed.

Lemma cleared_upload env (a : Page.AppState) :
  Page.upload
    (Page.clearUIError
       (Page.clearPreloadedPaper env
          (Page.with_pdf PdfState.clearPdfState (Page.runApi ApiState.clearInsights a))))
  = Page.upload a.
Proof. unfold Page.clearPreloadedPaper. now destruct (Page.isPreloadEnabled env). Qed.

(** Every action keeps such a property, the one exception being the URL
    switch turned on, which has to establish it. *)
Lemma step_keeps env w (a : Page.AppState) (act : Page.Action) :
  (act = Page.UrlModeToggle true ->
   I (setIsUrlMode true (setIsDraggingOver false (Page.upload a)))) ->
  I (Page.upload a) -> I (Page.upload (Page.step env w a act)).
Proof.
  intros Hon H. destruct act as [files | files | checked | checked | value | | paperId | |];
    cbn [Page.step].
  - apply keeps_settle. now apply (I_flags (Page.upload a)).
  - apply keeps_settle, keeps_drop_calls; [apply handleDrop_toggles_off | exact H].
  - apply keeps_settle. cbn [Page.with_upload Page.upload].
    apply keeps_urlToggle; [intros -> ; now apply Hon | exact H].
  - apply keeps_settle. cbn [Page.with_upload Page.upload]. now apply keeps_preloadToggle.
  - now apply (I_flags (Page.upload a)).
  - unfold Page.handleLoadFromUrl.
    pose proof (keeps_loadFromUrl (Page.fetch w) (Page.pathname w) (Page.now w) _ H) as Hl.
    destruct (handleLoadFromUrl (Page.fetch w) (Page.pathname w) (Page.now w) (Page.upload a))
      as [u calls].
    apply keeps_settle. rewrite bindUpload_upload. exact Hl.
  - unfold Page.handleLoadPreloadedPaper.
    destruct (Page.isPreloadEnabled env); [| exact H].
    destruct (PreloadState.loadPreloadedPaper (Page.fetch w) paperId (Page.preload a))
      as [[p calls] file].
    destruct file as [f |].
    + apply keeps_settle. cbn [Page.with_upload Page.upload]. rewrite bindPreload_upload.
      cbn [Page.with_preload Page.upload].
      now apply (I_flags (setIsUrlMode false (Page.upload a))); [| | | apply I_urlOff].
    + rewrite bindPreload_upload. exact H.
  - rewrite submit_upload. now apply keeps_validate.
  - unfold Page.handleClearSelectionWithInsights. apply keeps_settle.
    destruct (isPreloadMode (Page.upload a) && Js.truthy_opt (Page.selectedPaper env a)).
    + cbn [Page.with_upload Page.upload]. rewrite cleared_upload.
      now apply (I_flags (Page.upload a)).
    + rewrite cleared_upload. cbn [Page.with_upload Page.upload].
      now apply (I_flags (setIsPreloadMode false (setIsUrlMode false (Page.upload a))));
        [| | | apply I_preloadOff, I_urlOff].
Qed.

End FormFrame.

Section SessionFacts.

Import Files UploadState.

Lemma enabled_url_switch env (a : Page.AppState) :
  PageControls.enabled env a (Page.UrlModeToggle true) = true ->
  isPreloadMode (Page.upload a) = false.
Proof.
  cbn [PageControls.enabled]. unfold PageControls.urlSwitchDisabled, isUrlModeDisabled.
  intros H. apply andb_true_iff in H as [H _]. apply negb_true_iff in H.
  apply orb_false_iff in H as [_ H]. now apply orb_false_iff in H as [_ H].
Qed.

(** X13: the two input modes exclude each other all along a session: if URL
    mode and preload mode are not both on when it starts, no sequence of
    actions the page allows turns both on.  What the proof needs of the
    page's [disabled] attributes is that of the URL switch alone. *)
Theorem modes_exclude_each_other env w (acts : list Page.Action) (a a' : Page.AppState) :
  isUrlMode (Page.upload a) && isPreloadMode (Page.upload a) = false ->
  PageControls.session env w acts a = Some a' ->
  isUrlMode (Page.upload a') && isPreloadMode (Page.upload a') = false.
Proof.
  revert a. induction acts as [| act acts IH]; intros a Ha Hs; cbn [PageControls.session] in Hs.
  - now injection Hs as <-.
  - destruct (PageControls.enabled env a act) eqn:He; [| discriminate].
    apply (IH (Page.step env w a act)); [| exact Hs].
    apply (step_keeps (fun u => isUrlMode u && isPreloadMode u = false)); cbv beta.
    + intros u v Hu Hp _ Huv. now rewrite <- Hu, <- Hp.
    + intros u _. reflexivity.
    + intros u _. cbn. apply andb_false_r.
    + intros u _. reflexivity.
    + intros ->. cbn. now rewrite (enabled_url_switch env a He).
    + exact Ha.
Qed.

Lemma modes_exclude_each_other_witness :
  let w := Samples.world Samples.preloadSite Samples.summaryBackend in
  let acts := [Page.PreloadModeToggle false; Page.UrlModeToggle true; Page.TypeUrl "https://x"] in
  let a' := Page.run Samples.env w acts Samples.preloadReady in
  PageControls.session Samples.env w acts Samples.preloadReady = Some a'
  /\ Page.mode Samples.preloadReady = (false, true)
  /\ Page.mode a' = (true, false)
  /\ isUrlMode (Page.upload a') && isPreloadMode (Page.upload a') = false.
Proof.
  cbv zeta.
  split; [vm_compute; reflexivity
         | split; [reflexivity | split; [vm_compute; reflexivity |]]].
  apply (modes_exclude_each_other Samples.env
           (Samples.world Samples.preloadSite Samples.summaryBackend)
           [Page.PreloadModeToggle false; Page.UrlModeToggle true; Page.TypeUrl "https://x"]
           Samples.preloadReady); vm_compute; reflexivity.
Defined.

Lemma gesture_keeps_dragging env w (a : Page.AppState) (g : PageControls.Gesture) :
  isDraggingOver (Page.upload a) = false ->
  isDraggingOver (Page.upload (PageControls.gesture env w a g)) = false.
Proof.
  intros H. destruct g as [act | items | |]; cbn [PageControls.gesture].
  - apply (step_keeps (fun u => isDraggingOver u = false)); cbv beta.
    + intros u v _ _ Hd Hu. now rewrite <- Hd.
    + intros u Hu. exact Hu.
    + intros u Hu. exact Hu.
    + intros u _. reflexivity.
    + intros _. reflexivity.
    + exact H.
  - unfold DragDrop.handleDragEnter.
    destruct (_ || _); [exact H |]. destruct (existsb _ items); exact H.
  - exact H.
  - exact H.
Qed.

(** X14: the highlight of the drop zone is never drawn.  The page draws it
    from the drag flag of [useUploadState], which no gesture ever raises:
    dragging a file over the zone raises the flag of [useDragDrop] instead
    (when the page is idle and out of URL mode, and a file is among the
    dragged items), and the page does not read that one. *)
Theorem drop_highlight_is_never_drawn env w
  (gestures : list PageControls.Gesture) (a : Page.AppState) :
  isDraggingOver (Page.upload a) = false ->
  PageControls.dropHighlightShown (fold_left (PageControls.gesture env w) gestures a) = false
  /\ forall items,
       Page.dropZoneDragging a = false ->
       (Page.dropZoneDragging (PageControls.gesture env w a (PageControls.DragEnter items)) = true
        <-> isUrlMode (Page.upload a) = false
            /\ PageControls.busy a = false
            /\ In DragDrop.FileItem items).
Proof.
  intros H. split.
  - assert (G : isDraggingOver
                  (Page.upload (fold_left (PageControls.gesture env w) gestures a)) = false).
    { revert a H. induction gestures as [| g gestures IH]; intros a H; [exact H |].
      cbn [fold_left]. apply IH. now apply gesture_keeps_dragging. }
    unfold PageControls.dropHighlightShown. now rewrite G.
  - intros items Hd. cbn [PageControls.gesture]. unfold DragDrop.handleDragEnter, PageControls.busy.
    cbn [Page.dropProps DragDrop.isUrlMode DragDrop.isPreloadMode DragDrop.isLoading
         DragDrop.isUrlLoading].
    destruct (isUrlMode (Page.upload a)); cbn [orb fold_left].
    + rewrite Hd. split; [discriminate | intros [? _]; discriminate].
    + destruct (ApiState.isLoading (Page.api a)); cbn [orb fold_left].
      * rewrite Hd. split; [discriminate | intros (_ & ? & _); discriminate].
      * destruct (isUrlLoading (Page.upload a)); cbn [orb fold_left].
        -- rewrite Hd. split; [discriminate | intros (_ & ? & _); discriminate].
        -- destruct (existsb _ items) eqn:Hex; cbn [fold_left Page.bindDrop Page.dropZoneDragging].
           ++ split; [intros _ | reflexivity]. repeat split.
              apply existsb_exists in Hex as (k & Hin & Hk). now destruct k.
           ++ rewrite Hd. split; [discriminate |]. intros (_ & _ & Hin).
              assert (existsb (fun k => match k with
                                        | DragDrop.FileItem => true
                                        | DragDrop.StringItem => false
                                        end) items = true) as Hex'
                by (apply existsb_exists; now exists DragDrop.FileItem).
              rewrite Hex' in Hex. discriminate.
Qed.

Lemma drop_highlight_is_never_drawn_witness :
  let a := fold_left
             (PageControls.gesture Samples.env
                (Samples.world Samples.noPage Samples.summaryBackend))
             [PageControls.DragEnter [DragDrop.FileItem]] (Page.initial false) in
  Page.dropZoneDragging a = true /\ PageControls.dropHighlightShown a = false.
Proof.
  cbv zeta. split; [reflexivity |].
  apply (drop_highlight_is_never_drawn Samples.env
           (Samples.world Samples.noPage Samples.summaryBackend)
           [PageControls.DragEnter [DragDrop.FileItem]] (Page.initial false) eq_refl).
Defined.

End SessionFacts.

(** ** What the form's handlers leave behind *)

Section FormOutcomeFacts.

Import Files UploadState.

(** X15: the clear button leaves nothing behind, whichever of its two
    branches runs: no report, no preview (the preview state is the initial
    one), no file in the form, no alert, no form error, no selected paper;
    the clear button is gone and the submit button disabled.  The branches
    differ in the modes only: after a preloaded paper the page stays in the
    modes it was in, otherwise both modes are switched off. *)
Theorem clear_leaves_a_clean_slate env w (a : Page.AppState) :
  let wasPreloadMode :=
    isPreloadMode (Page.upload a) && Js.truthy_opt (Page.selectedPaper env a) in
  let a' := Page.handleClearSelectionWithInsights env w a in
  Page.displayed a' = (None, None, None, None)
  /\ Page.pdf a' = PdfState.initial
  /\ UIState.error (Page.ui a') = None
  /\ formError (Page.upload a') = None
  /\ Page.selectedPaper env a' = None
  /\ isPreloadMode (Page.upload a') = wasPreloadMode
  /\ isUrlMode (Page.upload a') = wasPreloadMode && isUrlMode (Page.upload a)
  /\ PageControls.clearShown env a' = false
  /\ PageControls.submitDisabled env a' = true.
Proof.
  cbv zeta.
  destruct a as [ui [um pm url ul ue dg uf fe] api pdf [sp pl papers] dz].
  destruct env as [testing preloading base].
  unfold Page.handleClearSelectionWithInsights, Page.selectedPaper, Page.clearPreloadedPaper,
    PageControls.clearShown, PageControls.submitDisabled, PageControls.canAnalyze,
    PageControls.preloadedShown, PageControls.busy, Page.selectedPaper, Page.displayed.
  cbn [Page.isPreloadEnabled Page.upload Page.preload isPreloadMode isUrlMode
       PreloadState.selectedPaper].
  destruct preloading, pm, (Js.truthy_opt sp), um, uf as [[| f l] |];
    cbn; rewrite ?orb_true_r; repeat split; reflexivity.
Qed.

Lemma listed_paper_is_found (paperId : string) (papers : list PreloadState.PreloadedPaper) :
  existsb (fun p => String.eqb (PreloadState.id p) paperId) papers = true ->
  exists paper, find (fun p => String.eqb (PreloadState.id p) paperId) papers = Some paper.
Proof.
  intros H. destruct (find _ papers) as [paper |] eqn:Hf; [now exists paper |].
  apply existsb_exists in H as (p & Hin & Hp).
  now rewrite (find_none _ _ Hf p Hin) in Hp.
Qed.

(** X16: a load of a bundled paper that the page offers and that fails
    changes nothing but the alert: the form, the report and the preview are
    as before, the alert says which load failed, no paper is selected, the
    loading flag is down and the same load is offered again. *)
Theorem failed_preload_changes_only_the_alert env w paperId (a : Page.AppState) :
  PageControls.enabled env a (Page.LoadPreloadedPaper paperId) = true ->
  snd (PreloadState.loadPreloadedPaper (Page.fetch w) paperId (Page.preload a)) = None ->
  let a' := Page.handleLoadPreloadedPaper env w paperId a in
  Page.upload a' = Page.upload a
  /\ Page.api a' = Page.api a
  /\ Page.pdf a' = Page.pdf a
  /\ (exists message,
        UIState.error (Page.ui a') = Some ("Failed to load preloaded paper: " ++ message))
  /\ Page.selectedPaper env a' = None
  /\ PageControls.isPreloadLoading env a' = false
  /\ PageControls.enabled env a' (Page.LoadPreloadedPaper paperId) = true.
Proof.
  intros He Hnone. cbv zeta.
  pose proof He as He'. cbn [PageControls.enabled] in He'.
  repeat (apply andb_true_iff in He' as [He' ?]).
  match goal with H : existsb _ _ = true |- _ =>
    destruct (listed_paper_is_found _ _ H) as (paper & Hfind) end.
  unfold Page.handleLoadPreloadedPaper, PreloadState.loadPreloadedPaper in *.
  rewrite He' in *. rewrite Hfind in *.
  destruct (PreloadState.fetchPaper (Page.fetch w) paper) as [[insights pdfFile] | message];
    [discriminate Hnone |].
  cbn [fold_left Page.bindPreload Page.with_preload Page.setUIError Page.with_ui
       Page.upload Page.api Page.pdf Page.ui UIState.setError UIState.error].
  split; [reflexivity | split; [reflexivity | split; [reflexivity | split]]].
  - now exists message.
  - split; [| split].
    + unfold Page.selectedPaper. now rewrite He'.
    + unfold PageControls.isPreloadLoading. cbn. apply andb_false_r.
    + revert He. cbn [PageControls.enabled]. unfold PageControls.isPreloadLoading.
      cbn. rewrite He'. cbn. rewrite !andb_true_r.
      intros H'. repeat (apply andb_true_iff in H' as [H' ?]).
      repeat (apply andb_true_iff; split); assumption.
Qed.

Lemma failed_preload_changes_only_the_alert_witness :
  let w := Samples.world Samples.noPage Samples.summaryBackend in
  let a' := Page.handleLoadPreloadedPaper Samples.env w "attention" Samples.preloadReady in
  Page.upload a' = Page.upload Samples.preloadReady
  /\ UIState.error (Page.ui a')
     = Some "Failed to load preloaded paper: Failed to load insights for Attention Is All You Need".
Proof.
  cbv zeta. split; [| vm_compute; reflexivity].
  apply (failed_preload_changes_only_the_alert Samples.env
           (Samples.world Samples.noPage Samples.summaryBackend) "attention"
           Samples.preloadReady); vm_compute; reflexivity.
Defined.



End FormOutcomeFacts.

(** ** Every answer of the basic-auth gate *)

Section GateFacts.

Import Middleware.

Lemma prefix_colon (c : ascii) (s : string) :
  Ascii.eqb c ":" = false -> String.prefix ":" (String c s) = false.
Proof.
  intros Hc. cbn [String.prefix].
  destruct (ascii_dec ":" c) as [<- | _]; [discriminate Hc | reflexivity].
Qed.

Lemma split_parts_no_colon (s x : string) :
  In x (Js.split ":" s) -> Js.includes x ":" = false.
Proof.
  revert x. induction s as [| c s IH]; intros x; cbn [Js.split].
  - intros [<- | []]. reflexivity.
  - destruct (Ascii.eqb c ":") eqn:Hc.
    + intros [<- | Hin]; [reflexivity | now apply IH].
    + destruct (Js.split ":" s) as [| hd tl].
      * intros [<- | []]. cbn [Js.includes]. now rewrite (prefix_colon c "" Hc).
      * intros [<- | Hin].
        -- cbn [Js.includes]. rewrite (prefix_colon c hd Hc). apply IH. now left.
        -- apply IH. now right.
Qed.

Lemma field_no_colon (s x : string) (n : nat) :
  nth_error (Js.split ":" s) n = Some x -> Js.includes x ":" = false.
Proof. intros H. apply (split_parts_no_colon s). exact (nth_error_In _ _ H). Qed.

(** The middleware's answer once protection is on and both credentials are
    set and not empty. *)
Lemma middleware_configured decode env request user pass :
  ENABLE_PASSWORD_PROTECTION env = Some "true" ->
  USERNAME env = Some user -> PASSWORD env = Some pass ->
  user <> "" -> pass <> "" ->
  middleware decode env request =
  match authorization request with
  | None => Reply "Authentication required" 401 challenge
  | Some authHeader =>
      if negb (Js.truthy authHeader) || negb (Js.startsWith authHeader "Basic ") then
        Reply "Authentication required" 401 challenge
      else if negb (Js.strict_eqb (nth_error (Js.split ":" (decode (drop 6 authHeader))) 0)
                      (Some user))
              || negb (Js.strict_eqb (nth_error (Js.split ":" (decode (drop 6 authHeader))) 1)
                         (Some pass))
      then Reply "Invalid credentials" 401 challenge
      else Next
  end.
Proof.
  intros Hon Huser Hpass Hu Hp. unfold middleware. rewrite Hon, Huser, Hpass.
  rewrite (truthy_nonempty user Hu), (truthy_nonempty pass Hp).
  replace ("true" =? "true")%string with true by reflexivity. reflexivity.
Qed.

Lemma strict_eqb_some (a : option string) (b : string) :
  Js.strict_eqb a (Some b) = true <-> a = Some b.
Proof.
  destruct a as [x |]; cbn [Js.strict_eqb].
  - rewrite String.eqb_eq. split; [now intros -> | now intros [= ->]].
  - split; discriminate.
Qed.

(** X18: with protection on, the gate never lets a request through unless
    both credentials are configured, and it answers in three ways only.  If
    the user name or the password is unset or empty, every request gets the
    500 configuration error, whatever it carries.  Otherwise the request
    passes exactly when its header starts with [Basic ] and the first two
    colon-separated fields of the decoded rest are the user name and the
    password; every other request gets a 401 with the Basic challenge. *)
Theorem gate_answers_in_three_ways (decode : string -> string) (env : Env) (request : Request) :
  ENABLE_PASSWORD_PROTECTION env = Some "true" ->
  let configured := Js.truthy_opt (PASSWORD env) && Js.truthy_opt (USERNAME env) in
  let passes :=
    exists header,
      authorization request = Some header
      /\ Js.startsWith header "Basic " = true
      /\ nth_error (Js.split ":" (decode (drop 6 header))) 0 = USERNAME env
      /\ nth_error (Js.split ":" (decode (drop 6 header))) 1 = PASSWORD env in
  (configured = false ->
   middleware decode env request = Reply "Server configuration error" 500 [])
  /\ (configured = true ->
      (middleware decode env request = Next <-> passes)
      /\ (middleware decode env request = Next
          \/ isBasicChallenge (middleware decode env request) = true)).
Proof.
  intros Hon. cbv zeta. split.
  - intros Hc. unfold middleware. rewrite Hon.
    replace ("true" =? "true")%string with true by reflexivity. cbn [negb].
    destruct (PASSWORD env) as [pass |], (USERNAME env) as [user |]; try reflexivity.
    cbn [Js.truthy_opt] in Hc. apply andb_false_iff in Hc as [-> | ->]; cbn [negb orb];
      [reflexivity | now rewrite orb_true_r].
  - intros Hc. apply andb_true_iff in Hc as [Hp Hu].
    destruct (PASSWORD env) as [pass |] eqn:Hpass; [| discriminate Hp].
    destruct (USERNAME env) as [user |] eqn:Huser; [| discriminate Hu].
    assert (Hpne : pass <> "") by (intros ->; discriminate Hp).
    assert (Hune : user <> "") by (intros ->; discriminate Hu).
    rewrite (middleware_configured decode env request user pass Hon Huser Hpass Hune Hpne).
    destruct (authorization request) as [header |].
    + destruct (Js.truthy header) eqn:Ht; cbn [negb orb].
      * destruct (Js.startsWith header "Basic ") eqn:Hb; cbn [negb].
        -- destruct (Js.strict_eqb (nth_error (Js.split ":" (decode (drop 6 header))) 0)
                       (Some user)) eqn:E0; cbn [negb orb].
           ++ destruct (Js.strict_eqb (nth_error (Js.split ":" (decode (drop 6 header))) 1)
                          (Some pass)) eqn:E1; cbn [negb].
              ** apply strict_eqb_some in E0, E1. split; [| now left].
                 split; [intros _ | reflexivity]. now exists header.
              ** split; [| now right]. split; [discriminate |].
                 intros (h & [= <-] & _ & _ & H1). apply strict_eqb_some in H1.
                 rewrite H1 in E1. discriminate.
           ++ split; [| now right]. split; [discriminate |].
              intros (h & [= <-] & _ & H0 & _). apply strict_eqb_some in H0.
              rewrite H0 in E0. discriminate.
        -- split; [| now right]. split; [discriminate |].
           intros (h & [= <-] & Hb' & _). rewrite Hb' in Hb. discriminate.
      * split; [| now right]. split; [discriminate |].
        intros (h & [= <-] & Hb' & _). destruct header; discriminate.
    + split; [| now right]. split; [discriminate |]. intros (h & Hh & _). discriminate.
Qed.

Lemma gate_answers_in_three_ways_witness :
  middleware decodeBase64Ascii (mkEnv (Some "true") None (Some "review"))
    (mkRequest "/" (Some "Basic cmV2aWV3OnJldmlldw=="))
  = Reply "Server configuration error" 500 [].
Proof.
  pose proof (gate_answers_in_three_ways decodeBase64Ascii
                (mkEnv (Some "true") None (Some "review"))
                (mkRequest "/" (Some "Basic cmV2aWV3OnJldmlldw==")) eq_refl) as [H _].
  exact (H eq_refl).
Defined.

(** X19: a user name or a password that contains a colon locks everyone
    out.  The decoded credentials are cut at every colon before they are
    compared, so no field can equal such a value: with protection on, no
    request at all passes the middleware. *)
Theorem colon_in_a_credential_locks_everyone_out
  (decode : string -> string) (env : Env) (request : Request) (user pass : string) :
  ENABLE_PASSWORD_PROTECTION env = Some "true" ->
  USERNAME env = Some user -> PASSWORD env = Some pass ->
  Js.includes user ":" = true \/ Js.includes pass ":" = true ->
  middleware decode env request <> Next
  /\ (middleware decode env request = Reply "Server configuration error" 500 []
      \/ isBasicChallenge (middleware decode env request) = true).
Proof.
  intros Hon Huser Hpass Hcolon.
  destruct (Js.truthy pass && Js.truthy user) eqn:Hc.
  - apply andb_true_iff in Hc as [Hp Hu].
    assert (Hpne : pass <> "") by (intros ->; discriminate Hp).
    assert (Hune : user <> "") by (intros ->; discriminate Hu).
    rewrite (middleware_configured decode env request user pass Hon Huser Hpass Hune Hpne).
    destruct (authorization request) as [header |]; [| split; [discriminate | now right]].
    destruct (negb (Js.truthy header) || negb (Js.startsWith header "Basic "));
      [split; [discriminate | now right] |].
    destruct (Js.strict_eqb (nth_error (Js.split ":" (decode (drop 6 header))) 0) (Some user))
      eqn:E0; cbn [negb orb]; [| split; [discriminate | now right]].
    destruct (Js.strict_eqb (nth_error (Js.split ":" (decode (drop 6 header))) 1) (Some pass))
      eqn:E1; cbn [negb]; [| split; [discriminate | now right]].
    apply strict_eqb_some in E0, E1.
    apply field_no_colon in E0, E1. destruct Hcolon as [H | H]; congruence.
  - unfold middleware. rewrite Hon, Huser, Hpass.
    replace ("true" =? "true")%string with true by reflexivity. cbn [negb].
    apply andb_false_iff in Hc as [-> | ->]; cbn [negb orb];
      [| rewrite orb_true_r]; (split; [discriminate | now left]).
Qed.

Lemma colon_in_a_credential_locks_everyone_out_witness :
  decodeBase64Ascii "cmV2aWV3OmE6Yg==" = "review:a:b"
  /\ isBasicChallenge
       (middleware decodeBase64Ascii (mkEnv (Some "true") (Some "a:b") (Some "review"))
          (mkRequest "/" (Some "Basic cmV2aWV3OmE6Yg=="))) = true.
Proof.
  split; [reflexivity |].
  destruct (colon_in_a_credential_locks_everyone_out decodeBase64Ascii
              (mkEnv (Some "true") (Some "a:b") (Some "review"))
              (mkRequest "/" (Some "Basic cmV2aWV3OmE6Yg==")) "review" "a:b"
              eq_refl eq_refl eq_refl (or_intror eq_refl)) as [_ [H | H]].
  - discriminate H.
  - exact H.
Defined.

Lemma split_first_two (u p rest : string) :
  Js.includes u ":" = false -> Js.includes p ":" = false ->
  Js.split ":" (u ++ ":" ++ p ++ ":" ++ rest) = u :: p :: Js.split ":" rest.
Proof.
  intros Hu Hp.
  assert (Hone : forall a tail, Js.includes a ":" = false ->
            Js.split ":" (a ++ ":" ++ tail) = a :: Js.split ":" tail).
  { induction a as [| c a IH]; intros tail Ha.
    - reflexivity.
    - apply includes_colon_cons in Ha as [Hc Ha].
      cbn [append Js.split]. rewrite Hc.
      change (a ++ String ":" tail)%string with (a ++ ":" ++ tail)%string.
      now rewrite (IH tail Ha). }
  rewrite (Hone u _ Hu). now rewrite (Hone p _ Hp).
Qed.

(** X20: whatever follows a second colon in the decoded credentials is
    ignored: a request whose credentials are the configured user name, a
    colon, the configured password, another colon and any text at all
    passes the middleware. *)
Theorem trailing_fields_are_ignored
  (decode : string -> string) (env : Env) (request : Request)
  (header user pass rest : string) :
  ENABLE_PASSWORD_PROTECTION env = Some "true" ->
  USERNAME env = Some user -> PASSWORD env = Some pass ->
  user <> "" -> pass <> "" ->
  Js.includes user ":" = false -> Js.includes pass ":" = false ->
  authorization request = Some header ->
  Js.startsWith header "Basic " = true ->
  decode (drop 6 header) = user ++ ":" ++ pass ++ ":" ++ rest ->
  middleware decode env request = Next.
Proof.
  intros Hon Huser Hpass Hune Hpne Hu Hp Hauth Hbasic Hdec.
  rewrite (middleware_configured decode env request user pass Hon Huser Hpass Hune Hpne).
  rewrite Hauth, Hbasic, Hdec, (split_first_two user pass rest Hu Hp).
  assert (Ht : Js.truthy header = true) by (destruct header; [discriminate Hbasic | reflexivity]).
  rewrite Ht. cbn [negb orb nth_error Js.strict_eqb]. now rewrite !String.eqb_refl.
Qed.

Lemma trailing_fields_are_ignored_witness :
  decodeBase64Ascii "cmV2aWV3OnJldmlldzpleHRyYQ==" = "review:review:extra"
  /\ middleware decodeBase64Ascii Samples.protectedEnv
       (mkRequest "/" (Some "Basic cmV2aWV3OnJldmlldzpleHRyYQ==")) = Next.
Proof.
  split; [reflexivity |].
  apply (trailing_fields_are_ignored decodeBase64Ascii Samples.protectedEnv
           (mkRequest "/" (Some "Basic cmV2aWV3OnJldmlldzpleHRyYQ=="))
           "Basic cmV2aWV3OnJldmlldzpleHRyYQ==" "review" "review" "extra");
    try reflexivity; discriminate.
Defined.

End GateFacts.

(** ** The preview of a picked file *)

Section PickFacts.

Import Files UploadState.

(** X21: a picked file stays in the form whether or not the browser can
    read it.  If it can, the preview shows it under its own name at zoom 1,
    and whatever page an earlier document was on, the new one opens on page
    1 once it has loaded.  If it cannot, no document is shown and a
    non-empty alert is set, but the file is still the form's value: when the
    form's schema accepts it, a submit posts it all the same. *)
Theorem picked_file_preview env w (file : File) (rest : FileList) (a : Page.AppState) :
  let a' := Page.pickFile w (file :: rest) a in
  uploadedFile (Page.upload a') = Some (file :: rest)
  /\ PdfState.fileName (Page.pdf a') = Some (name file)
  /\ (forall result,
        Page.readAsDataURL w file = Page.Loaded result -> result <> "" ->
        PdfState.pdfUrl (Page.pdf a') = Some result
        /\ PdfState.pdfZoom (Page.pdf a') = 1.0%float
        /\ forall n,
             PdfState.currentPage (PdfState.onDocumentLoadSuccess n (Page.pdf a')) = 1
             /\ PdfState.numPages (PdfState.onDocumentLoadSuccess n (Page.pdf a')) = Some n)
  /\ (Page.readAsDataURL w file = Page.Failed
      \/ Page.readAsDataURL w file = Page.Loaded "" ->
      PdfState.pdfUrl (Page.pdf a') = None
      /\ PageControls.documentShown (Page.pdf a') = false
      /\ (exists message, message <> "" /\ UIState.error (Page.ui a') = Some message)
      /\ (acceptable file = true ->
          forall url,
            ApiState.backendApiUrl (Page.backendBaseUrl env) = Some url ->
            ApiState.requests (snd (Page.submit env w a'))
            = [(url, "POST", [("pdf_file", file)])])).
Proof.
  cbv zeta. unfold Page.pickFile, Page.settle, Page.uploadedFileEffect.
  cbn [orb Page.with_upload Page.upload onInputChange uploadedFile].
  destruct (Page.readAsDataURL w file) as [result |] eqn:Hread.
  - destruct (Js.truthy result) eqn:Ht.
    + split; [now destruct (Js.truthy_opt _) |].
      split; [now destruct (Js.truthy_opt _) |].
      split.
      * intros r [= <-] _. now destruct (Js.truthy_opt _).
      * intros [H | [= ->]]; discriminate.
    + split; [reflexivity | split; [reflexivity | split]].
      * intros r [= <-] Hne. now rewrite (truthy_nonempty result Hne) in Ht.
      * intros _. split; [reflexivity | split; [reflexivity | split]].
        -- eexists. split; [| reflexivity]. discriminate.
        -- intros Hacc url Hurl.
           unfold Page.submit, validateOnSubmit. cbn -[formSchema ApiState.submitPdf].
           pose proof (proj2 (formSchema_accepts file rest) Hacc) as Hs.
           unfold FileList in *. rewrite Hs.
           cbn -[ApiState.submitPdf]. unfold ApiState.submitPdf. rewrite Hurl.
           destruct (ApiState.attempt (Page.post w) url [("pdf_file", file)]); reflexivity.
  - split; [reflexivity | split; [reflexivity | split]].
    + intros r [=].
    + intros _. split; [reflexivity | split; [reflexivity | split]].
      * eexists. split; [| reflexivity]. discriminate.
      * intros Hacc url Hurl.
        unfold Page.submit, validateOnSubmit. cbn -[formSchema ApiState.submitPdf].
        pose proof (proj2 (formSchema_accepts file rest) Hacc) as Hs.
           unfold FileList in *. rewrite Hs.
        cbn -[ApiState.submitPdf]. unfold ApiState.submitPdf. rewrite Hurl.
        destruct (ApiState.attempt (Page.post w) url [("pdf_file", file)]); reflexivity.
Qed.

End PickFacts.

(** ** Maximising a pane *)

Section MaximiseFacts.

Import PdfState UIState.

(** X22: a click on a pane's maximise button resets the zoom and the scroll
    offset of the preview exactly when it changes whether the PDF pane is the
    maximised one: when the button is the PDF pane's, or when the PDF pane was
    maximised and the report pane takes its place.  Maximising or restoring
    the report pane next to a PDF pane of normal size leaves zoom and scroll
    alone.  The alert is never touched, and the preview is fitted again in
    every case. *)
Theorem maximising_resets_the_view_with_the_pdf_pane
  (card : Card) (ui : UIState) (offsetWidth : Z) (s : PdfState) :
  Js.truthy_opt (pdfUrl s) = true ->
  let ui' := toggleMaximizeCard card ui in
  let s' := layoutEffect (isPdfMaximized ui) (isPdfMaximized ui') (Some offsetWidth) s in
  (isPdfMaximized ui' = true <-> card = PdfCard /\ isPdfMaximized ui = false)
  /\ (card = PdfCard \/ isPdfMaximized ui = true ->
      pdfZoom s' = 1.0%float /\ scrollPosition s' = 0%Q)
  /\ (card = InsightsCard -> isPdfMaximized ui = false ->
      pdfZoom s' = pdfZoom s /\ scrollPosition s' = scrollPosition s)
  /\ pdfDisplayWidth s' = Some (fittedWidth offsetWidth)
  /\ error ui' = error ui
  /\ (maximizedCard ui' = None <-> maximizedCard ui = Some card).
Proof.
  intros Hurl. cbv zeta. unfold layoutEffect. rewrite Hurl.
  destruct ui as [e [[|] |]], card; cbn;
    (split; [split; [try discriminate; intros _; now split
                    | intros [? ?]; try discriminate; reflexivity] |]);
    (split; [intros [? | ?]; try discriminate; now split |]);
    (split; [intros ? ?; try discriminate; now split |]);
    (split; [reflexivity |]); (split; [reflexivity |]);
    split; try discriminate; reflexivity.
Qed.

Lemma maximising_resets_the_view_with_the_pdf_pane_witness :
  let s := handleSetZoom 1.5 Samples.firstPageOfThree in
  pdfZoom (layoutEffect false true (Some 1000) s) = 1.0%float
  /\ pdfZoom (layoutEffect false false (Some 1000) s) = pdfZoom s.
Proof.
  cbv zeta.
  pose proof (maximising_resets_the_view_with_the_pdf_pane PdfCard UIState.initial 1000
                (handleSetZoom 1.5 Samples.firstPageOfThree) eq_refl)
    as (_ & Hreset & _).
  pose proof (maximising_resets_the_view_with_the_pdf_pane InsightsCard UIState.initial 1000
                (handleSetZoom 1.5 Samples.firstPageOfThree) eq_refl)
    as (_ & _ & Hkeep & _).
  split; [exact (proj1 (Hreset (or_introl eq_refl))) | exact (proj1 (Hkeep eq_refl eq_refl))].
Defined.

End MaximiseFacts.

(** ** What the report pane shows *)

Section ReportPaneFacts.

Import InsightsViewer.

(** X24: the report pane shows exactly one of three things.  A report that
    is not empty is rendered as markdown, with both text-size buttons and the
    save button, and saving hands over that very text.  Without one, there
    is neither a size button nor a save button and nothing to save, and the
    pane shows its placeholder when the page is idle and stays blank while
    an analysis or a URL load runs. *)
Theorem report_pane_shows_one_of_three (testing : bool) (textSize : Z) (p : Props) :
  let v := render testing textSize p in
  (exists X,
     X <> "" /\ insights p = Some X
     /\ body v = Markdown X textSize
     /\ saveButton v = true
     /\ textSizeControlsShown v = true
     /\ handleSaveInsights p = Some X)
  \/ (Js.truthy_opt (insights p) = false
      /\ saveButton v = false
      /\ decreaseButton v = None /\ increaseButton v = None
      /\ handleSaveInsights p = None
      /\ (body v = NoInsights /\ isLoading p = false /\ isUrlLoading p = false
          \/ body v = Blank /\ (isLoading p = true \/ isUrlLoading p = true))).
Proof.
  cbv zeta. unfold render, handleSaveInsights, textSizeControlsShown.
  destruct p as [[[| c X] |] loading urlLoading test]; cbn.
  - right. repeat split. destruct loading, urlLoading; cbn; auto.
  - left. exists (String c X). repeat split. discriminate.
  - right. repeat split. destruct loading, urlLoading; cbn; auto.
Qed.

End ReportPaneFacts.

(** ** The URL field across a session *)

Section UrlFieldFacts.

Import Files UploadState.

Lemma urlFieldsClear_of_fields (u v : UploadState) :
  isUrlMode v = isUrlMode u -> pdfUrlInputValue v = pdfUrlInputValue u ->
  urlError v = urlError u -> urlFieldsClear u -> urlFieldsClear v.
Proof. unfold urlFieldsClear. intros -> -> ->. exact (fun H => H). Qed.

Lemma settle_url_fields w before stored (a : Page.AppState) :
  pdfUrlInputValue (Page.upload (Page.settle w before stored a))
  = pdfUrlInputValue (Page.upload a)
  /\ urlError (Page.upload (Page.settle w before stored a)) = urlError (Page.upload a).
Proof.
  unfold Page.settle, Page.uploadedFileEffect.
  destruct (stored || _); [| now split].
  destruct (uploadedFile (Page.upload a)) as [[| f l] |]; [now split | | now split].
  destruct (Page.readAsDataURL w f) as [result |]; [| now split].
  destruct (Js.truthy result); [| now split].
  destruct (Js.truthy_opt (UIState.error (Page.ui a))); now split.
Qed.

Lemma urlFieldsClear_settle w before stored (a : Page.AppState) :
  urlFieldsClear (Page.upload a) ->
  urlFieldsClear (Page.upload (Page.settle w before stored a)).
Proof.
  destruct (settle_flags w before stored a) as (Hm & _ & _).
  destruct (settle_url_fields w before stored a) as (Hv & He).
  now apply urlFieldsClear_of_fields.
Qed.

Lemma urlFieldsClear_urlToggle (checked : bool) (u : UploadState) :
  urlFieldsClear u -> urlFieldsClear (handleUrlModeToggle checked u).
Proof.
  intros H. unfold handleUrlModeToggle. destruct (loaded (uploadedFile u)); [exact H |].
  intros _. now destruct checked.
Qed.

Lemma urlFieldsClear_drop_calls (calls : list DragDrop.Call) (a : Page.AppState) :
  urlFieldsClear (Page.upload a) ->
  urlFieldsClear (Page.upload (fold_left Page.bindDrop calls a)).
Proof.
  revert a. induction calls as [| c calls IH]; intros a H; [exact H |].
  cbn [fold_left]. apply IH. destruct c as [b | checked | e | v]; cbn [Page.bindDrop].
  - exact H.
  - cbn [Page.with_upload Page.upload]. now apply urlFieldsClear_urlToggle.
  - exact H.
  - now apply (urlFieldsClear_of_fields (Page.upload a)).
Qed.

Lemma loadFromUrl_keeps_mode fetch pathname now (u : UploadState) :
  isUrlMode (fst (handleLoadFromUrl fetch pathname now u)) = isUrlMode u.
Proof.
  unfold handleLoadFromUrl.
  destruct (negb (Js.truthy (pdfUrlInputValue u)) || _); [reflexivity |].
  destruct (fetchPdfFile fetch pathname now (pdfUrlInputValue u)) as [[derived file] | m];
    [reflexivity |].
  destruct (loaded (uploadedFile u)); reflexivity.
Qed.

(** X25: outside URL mode the URL field is empty and no URL error is shown,
    all along a session: if this holds when the session starts, it holds
    after every sequence of actions the page allows.  The page offers the
    field and its load button in URL mode only, and every way out of URL
    mode empties both. *)
Theorem url_field_is_clear_outside_url_mode env w
  (acts : list Page.Action) (a a' : Page.AppState) :
  urlFieldsClear (Page.upload a) ->
  PageControls.session env w acts a = Some a' ->
  urlFieldsClear (Page.upload a').
Proof.
  revert a. induction acts as [| act acts IH]; intros a Ha Hs; cbn [PageControls.session] in Hs.
  - now injection Hs as <-.
  - destruct (PageControls.enabled env a act) eqn:He; [| discriminate].
    apply (IH (Page.step env w a act)); [| exact Hs]. clear IH Hs.
    destruct act as [files | files | checked | checked | value | | paperId | |];
      cbn [Page.step].
    + apply urlFieldsClear_settle. now apply (urlFieldsClear_of_fields (Page.upload a)).
    + now apply urlFieldsClear_settle, urlFieldsClear_drop_calls.
    + apply urlFieldsClear_settle. cbn [Page.with_upload Page.upload].
      now apply urlFieldsClear_urlToggle.
    + apply urlFieldsClear_settle. cbn [Page.with_upload Page.upload].
      unfold handlePreloadModeToggle.
      destruct (loaded (uploadedFile (Page.upload a))); [exact Ha |].
      destruct checked; [intros _; now split |].
      now apply (urlFieldsClear_of_fields (Page.upload a)).
    + cbn [PageControls.enabled] in He. apply andb_true_iff in He as [Hmode _].
      intros Hoff. cbn in Hoff. congruence.
    + cbn [PageControls.enabled] in He. apply andb_true_iff in He as [Hmode _].
      unfold Page.handleLoadFromUrl.
      pose proof (loadFromUrl_keeps_mode (Page.fetch w) (Page.pathname w) (Page.now w)
                    (Page.upload a)) as Hkeep.
      destruct (handleLoadFromUrl (Page.fetch w) (Page.pathname w) (Page.now w) (Page.upload a))
        as [u calls].
      apply urlFieldsClear_settle. rewrite bindUpload_upload.
      cbn [Page.with_upload Page.upload fst] in *. intros Hoff. congruence.
    + unfold Page.handleLoadPreloadedPaper.
      destruct (Page.isPreloadEnabled env); [| exact Ha].
      destruct (PreloadState.loadPreloadedPaper (Page.fetch w) paperId (Page.preload a))
        as [[p calls] file].
      destruct file as [f |].
      * apply urlFieldsClear_settle. cbn [Page.with_upload Page.upload]. intros _. now split.
      * rewrite bindPreload_upload. exact Ha.
    + rewrite submit_upload.
      apply (urlFieldsClear_of_fields (Page.upload a)); [| | | exact Ha];
        unfold validateOnSubmit; destruct (formSchema (uploadedFile (Page.upload a)));
        reflexivity.
    + unfold Page.handleClearSelectionWithInsights. apply urlFieldsClear_settle.
      destruct (isPreloadMode (Page.upload a) && Js.truthy_opt (Page.selectedPaper env a)).
      * cbn [Page.with_upload Page.upload]. rewrite cleared_upload.
        now apply (urlFieldsClear_of_fields (Page.upload a)).
      * rewrite cleared_upload. cbn [Page.with_upload Page.upload]. intros _. now split.
Qed.

Lemma url_field_is_clear_outside_url_mode_witness :
  let w := Samples.world Samples.noPage Samples.summaryBackend in
  let acts :=
    [Page.UrlModeToggle true; Page.TypeUrl "https://example.org/none"; Page.LoadFromUrl;
     Page.UrlModeToggle false] in
  let a' := Page.run Samples.env w acts (Page.initial false) in
  PageControls.session Samples.env w acts (Page.initial false) = Some a'
  /\ (exists message,
        urlError (Page.upload (Page.run Samples.env w [Page.UrlModeToggle true;
                                 Page.TypeUrl "https://example.org/none"; Page.LoadFromUrl]
                                 (Page.initial false))) = Some message)
  /\ urlFieldsClear (Page.upload a').
Proof.
  cbv zeta. split; [vm_compute; reflexivity | split; [eexists; vm_compute; reflexivity |]].
  apply (url_field_is_clear_outside_url_mode Samples.env
           (Samples.world Samples.noPage Samples.summaryBackend)
           [Page.UrlModeToggle true; Page.TypeUrl "https://example.org/none"; Page.LoadFromUrl;
            Page.UrlModeToggle false]
           (Page.initial false)).
  - intros _. split; reflexivity.
  - vm_compute; reflexivity.
Defined.

End UrlFieldFacts.

(** ** Submitting without a file *)

Section EmptySubmitFacts.

Import Files UploadState.

(** X26: a submit of a form that holds no file sends nothing and leaves the
    report and the preview alone, and it is refused in one of two places.
    The form's schema lets the value [null] through, so the page's handler
    refuses it with the alert that no file is selected; an empty file list is
    refused by the schema, as a form error that asks for a PDF file, and the
    handler is not called. *)
Theorem submit_without_a_file_sends_nothing env w (a : Page.AppState) :
  loaded (uploadedFile (Page.upload a)) = false ->
  let after := fst (Page.submit env w a) in
  snd (Page.submit env w a) = []
  /\ Page.api after = Page.api a
  /\ Page.pdf after = Page.pdf a
  /\ uploadedFile (Page.upload after) = uploadedFile (Page.upload a)
  /\ (uploadedFile (Page.upload a) = None ->
      UIState.error (Page.ui after) = Some "No PDF file selected or loaded to analyze."
      /\ formError (Page.upload after) = None)
  /\ (uploadedFile (Page.upload a) = Some [] ->
      formError (Page.upload after) = Some "PDF file is required for analysis."
      /\ Page.ui after = Page.ui a).
Proof.
  intros Hnone. cbv zeta. unfold Page.submit, validateOnSubmit.
  destruct (uploadedFile (Page.upload a)) as [[| f l] |] eqn:Hf; [| discriminate Hnone |].
  - cbn. rewrite ?Hf. repeat split; discriminate.
  - cbn. rewrite ?Hf. repeat split; discriminate.
Qed.

Lemma submit_without_a_file_sends_nothing_witness :
  let w := Samples.world Samples.noPage Samples.summaryBackend in
  snd (Page.submit Samples.env w (Page.initial false)) = []
  /\ UIState.error (Page.ui (fst (Page.submit Samples.env w (Page.initial false))))
     = Some "No PDF file selected or loaded to analyze.".
Proof.
  cbv zeta.
  pose proof (submit_without_a_file_sends_nothing Samples.env
                (Samples.world Samples.noPage Samples.summaryBackend) (Page.initial false)
                eq_refl) as (H1 & _ & _ & _ & H5 & _).
  split; [exact H1 | exact (proj1 (H5 eq_refl))].
Defined.

End EmptySubmitFacts.
